(** * andikas-cms: a shallow embedding of the CMS front end

    The development follows the layout of the repository:
    the JavaScript primitives the code relies on, the data model of
    [types/index.ts], an effect monad for the asynchronous handlers
    (state of the component, exceptions, trace of visible effects),
    the resource clients of [services/], the session store, the image
    helper of [lib/imageCompression.ts] and the page controllers of
    [pages/].  The theorems come last. *)

From Stdlib Require Import ZArith Lia Ascii String.
From stdpp Require Import base option list strings gmap.

Open Scope string_scope.
Open Scope list_scope.

(* ===================================================================== *)
(** ** JavaScript primitives                                              *)
(* ===================================================================== *)

(** A JavaScript string is a sequence of code units; the embedding keeps
    the code units below 256 (one [ascii] each). *)

Module Js.

(** Truthiness of a string: every string but the empty one. *)
Definition truthy (s : string) : bool :=
  match s with
  | EmptyString => false
  | String _ _ => true
  end.

(** [x || d] for [x : string | undefined]. *)
Definition or_else (x : option string) (d : string) : string :=
  match x with
  | Some s => if truthy s then s else d
  | None => d
  end.

(** [x || undefined] for [x : string | undefined]. *)
Definition or_undefined (x : option string) : option string :=
  match x with
  | Some s => if truthy s then Some s else None
  | None => None
  end.

(** Truthiness of [x : T | null | undefined] for an object or array
    type [T]: objects and arrays, also empty ones, are truthy. *)
Definition present {T : Type} (x : option T) : bool :=
  match x with
  | Some _ => true
  | None => false
  end.

(** [String.prototype.toLowerCase], code unit by code unit: the letters
    A-Z, and the upper-case letters of Latin-1 (0xC0-0xDE but 0xD7). *)
Definition lower_char (c : ascii) : ascii :=
  let n := nat_of_ascii c in
  if ((65 <=? n) && (n <=? 90))%nat then ascii_of_nat (n + 32)
  else if ((192 <=? n) && (n <=? 222) && negb (n =? 215))%nat
       then ascii_of_nat (n + 32)
  else c.

Fixpoint toLowerCase (s : string) : string :=
  match s with
  | EmptyString => EmptyString
  | String c r => String (lower_char c) (toLowerCase r)
  end.

(** [s.startsWith(q)]. *)
Fixpoint startsWith (s q : string) {struct q} : bool :=
  match q, s with
  | EmptyString, _ => true
  | String _ _, EmptyString => false
  | String b q', String a s' => if Ascii.eqb a b then startsWith s' q' else false
  end.

(** [s.includes(q)]: [q] occurs in [s] at some position. *)
Fixpoint includes (s q : string) : bool :=
  startsWith s q ||
  match s with
  | EmptyString => false
  | String _ s' => includes s' q
  end.

(** White space and line terminators of ECMAScript among the code units
    below 256: TAB, LF, VT, FF, CR, SPACE and NBSP. *)
Definition is_space (c : ascii) : bool :=
  let n := nat_of_ascii c in
  ((9 <=? n) && (n <=? 13) || (n =? 32) || (n =? 160))%nat.

Fixpoint trimStart (s : string) : string :=
  match s with
  | EmptyString => EmptyString
  | String c r => if is_space c then trimStart r else s
  end.

Fixpoint trimEnd (s : string) : string :=
  match s with
  | EmptyString => EmptyString
  | String c r =>
      match trimEnd r with
      | EmptyString => if is_space c then EmptyString else String c EmptyString
      | r' => String c r'
      end
  end.

(** [String.prototype.trim]. *)
Definition trim (s : string) : string := trimEnd (trimStart s).

(** [arr.filter((_, i) => i !== index)]. *)
Fixpoint remove_at {A : Type} (index : nat) (arr : list A) : list A :=
  match arr with
  | [] => []
  | x :: r =>
      match index with
      | O => r
      | S i => x :: remove_at i r
      end
  end.

(** A JavaScript number as the forms hold it: NaN (an empty number
    input read with [valueAsNumber]) or a finite value; the year
    inputs hold integers. *)
Inductive number : Type :=
| NaN
| Num (z : Z).

End Js.



(* ===================================================================== *)
(** ** Data model: [types/index.ts]                                       *)
(* ===================================================================== *)

Module User.
Record t : Type := { id : string; email : string; username : string; name : string }.
End User.

Module Skill.
Record t : Type :=
  { id : string; userId : string; name : string; icon : string;
    createdAt : string; updatedAt : string }.
End Skill.

(** An association record [{ skill: Skill }]. *)
Record SkillLink : Type := { skill : Skill.t }.

Module Experience.
Record t : Type :=
  { id : string; userId : string;
    startYear : Js.number; endYear : option Js.number;
    companyName : string; description : option string; location : string;
    createdAt : string; updatedAt : string;
    experienceSkills : option (list SkillLink) }.
End Experience.

Module Education.
Record t : Type :=
  { id : string; userId : string; year : string; institutionName : string;
    description : option string; createdAt : string; updatedAt : string }.
End Education.

Module Certification.
Record t : Type :=
  { id : string; userId : string; name : string; issuingOrganization : string;
    year : Js.number; description : option string;
    certificateLink : option string;
    createdAt : string; updatedAt : string;
    certificationSkills : option (list SkillLink) }.
End Certification.

Module Project.
Record t : Type :=
  { id : string; userId : string; title : string; slug : string;
    description : string; content : string;
    coverImage : option string; contentImages : list string;
    publishedAt : option string; highlighted : option bool;
    createdAt : string; updatedAt : string;
    projectSkills : option (list SkillLink) }.
End Project.

Module UserDetails.
Record t : Type :=
  { id : string; userId : string; name : string; role : string;
    description : option string; socialMedias : option (list string);
    profilePhoto : option string; createdAt : string; updatedAt : string }.
End UserDetails.

(** The response envelope [ApiResponse<T>]. *)
Module ApiResponse.
Record t (T : Type) : Type :=
  { success : bool; data : option T; error : option string }.
Arguments success {T} _.
Arguments data {T} _.
Arguments error {T} _.
End ApiResponse.

(** A browser [File]: the fields the code reads or sets. *)
Module File.
Record t : Type :=
  { name : string; type : string; lastModified : Z; bytes : list Z }.
End File.

(** A [FormData] body: the appended entries, in order. *)
Inductive FormValue : Type :=
| Text (s : string)
| Blob (f : File.t).

Definition FormData : Type := list (string * FormValue).

(** [formData.append(key, value)]. *)
Definition append (fd : FormData) (key : string) (v : FormValue) : FormData :=
  fd ++ [(key, v)].

(* ===================================================================== *)
(** ** Effects of the asynchronous handlers                               *)
(* ===================================================================== *)

(** What a handler throws: [new Error(message)] of the services, or the
    error of the transport layer (no response, or a status outside 2xx).
    Both are instances of [Error] and carry a message. *)
Inductive exn : Type :=
| Error (message : string)
| AxiosError (message : string).

Definition message (e : exn) : string :=
  match e with
  | Error m => m
  | AxiosError m => m
  end.

(** The bodies the clients send: multipart form data or a JSON object. *)
Module ExperienceCreateData.
Record t : Type :=
  { startYear : Js.number; endYear : option Js.number; companyName : string;
    description : option string; location : string;
    skillIds : option (list string) }.
End ExperienceCreateData.

Module CertificationCreateData.
Record t : Type :=
  { name : string; issuingOrganization : string; year : Js.number;
    description : option string; certificateLink : option string;
    skillIds : option (list string) }.
End CertificationCreateData.

Module EducationCreateData.
Record t : Type :=
  { year : string; institutionName : string; description : option string }.
End EducationCreateData.

Module LoginCredentials.
Record t : Type := { identifier : string; password : string }.
End LoginCredentials.

Module RegisterData.
Record t : Type :=
  { email : string; username : string; password : string; name : string }.
End RegisterData.

Inductive body : Type :=
| Multipart (fd : FormData)
| ExperienceJson (d : ExperienceCreateData.t)
| CertificationJson (d : CertificationCreateData.t)
| EducationJson (d : EducationCreateData.t)
| LoginJson (d : LoginCredentials.t)
| RegisterJson (d : RegisterData.t).

Inductive request : Type :=
| GET (url : string)
| POST (url : string) (b : body)
| PUT (url : string) (b : body)
| DELETE (url : string).

(** The effects a handler has on the outside, in the order they occur. *)
Inductive event : Type :=
| Request (r : request)
| ToastSuccess (msg : string)
| ToastError (msg : string)
| ConsoleError (msg : string) (e : exn).

(** What the transport layer answers to one call: a response whose body
    is an envelope, or a rejection. *)
Inductive reply (T : Type) : Type :=
| Responded (response : ApiResponse.t T)
| Rejected (e : exn).
Arguments Responded {T} _.
Arguments Rejected {T} _.

Inductive outcome (A : Type) : Type :=
| Return (a : A)
| Throw (e : exn).
Arguments Return {A} _.
Arguments Throw {A} _.

(** A handler over the component state [S]: it ends by returning or by
    throwing, leaves a state and a trace. *)
Definition M (S A : Type) : Type := S -> outcome A * S * list event.

Definition ret {S A} (a : A) : M S A := fun s => (Return a, s, []).

Definition throw {S A} (e : exn) : M S A := fun s => (Throw e, s, []).

Definition bind {S A B} (m : M S A) (k : A -> M S B) : M S B :=
  fun s =>
    match m s with
    | (Return a, s1, t1) =>
        match k a s1 with
        | (r, s2, t2) => (r, s2, t1 ++ t2)
        end
    | (Throw e, s1, t1) => (Throw e, s1, t1)
    end.

Notation "'await' x := m 'in' k" := (bind m (fun x => k))
  (at level 10, x name, m at level 100, k at level 200).
Notation "m >> k" := (bind m (fun _ => k))
  (at level 100, k at level 200, right associativity).

(** [try { body } catch (error) { handler }]. *)
Definition try_catch {S A} (body : M S A) (handler : exn -> M S A) : M S A :=
  fun s =>
    match body s with
    | (Return a, s1, t1) => (Return a, s1, t1)
    | (Throw e, s1, t1) =>
        match handler e s1 with
        | (r, s2, t2) => (r, s2, t1 ++ t2)
        end
    end.

(** [try { body } finally { fin }], for a [fin] that neither returns a
    value nor throws in the source. *)
Definition try_finally {S A} (body : M S A) (fin : M S unit) : M S A :=
  fun s =>
    match body s with
    | (r, s1, t1) =>
        match fin s1 with
        | (Return _, s2, t2) => (r, s2, t1 ++ t2)
        | (Throw e, s2, t2) => (Throw e, s2, t1 ++ t2)
        end
    end.

Definition emit {S} (e : event) : M S unit := fun s => (Return tt, s, [e]).

Definition modify {S} (f : S -> S) : M S unit := fun s => (Return tt, f s, []).

Definition result {S A} (x : outcome A * S * list event) : outcome A := x.1.1.
Definition final {S A} (x : outcome A * S * list event) : S := x.1.2.
Definition trace {S A} (x : outcome A * S * list event) : list event := x.2.

(** [toast.success], [toast.error], [console.error]. *)
Module toast.
Definition success {S} (msg : string) : M S unit := emit (ToastSuccess msg).
Definition error {S} (msg : string) : M S unit := emit (ToastError msg).
End toast.

(** Modelled from the spec: the module [services/api.ts] (the HTTP
    client [api] the services import) is not among the sources.  A call
    sends the request and the caller resumes with what the transport
    answers, an envelope or a rejection; the answer is an argument of
    every function that makes a call. *)
Module api.
Definition call {S T} (r : request) (answer : reply T) : M S (ApiResponse.t T) :=
  emit (Request r) >>
  match answer with
  | Responded response => ret response
  | Rejected e => throw e
  end.
Definition get {S T} (url : string) := @call S T (GET url).
Definition post {S T} (url : string) (b : body) := @call S T (POST url b).
Definition put {S T} (url : string) (b : body) := @call S T (PUT url b).
Definition delete {S T} (url : string) := @call S T (DELETE url).
End api.

(* ===================================================================== *)
(** ** Resource clients: [services/]                                      *)
(* ===================================================================== *)

(** The tail shared by the methods that return the data of the envelope:
    [if (response.data.success && response.data.data) return response.data.data;
     throw new Error(response.data.error || fallback)]. *)
Definition unwrap {S T} (fallback : string) (response : ApiResponse.t T) : M S T :=
  match ApiResponse.success response, ApiResponse.data response with
  | true, Some d => ret d
  | _, _ => throw (Error (Js.or_else (ApiResponse.error response) fallback))
  end.

(** The tail of the [delete] methods:
    [if (!response.data.success) throw new Error(response.data.error || fallback)]. *)
Definition unwrap_void {S T} (fallback : string) (response : ApiResponse.t T) : M S unit :=
  if negb (ApiResponse.success response)
  then throw (Error (Js.or_else (ApiResponse.error response) fallback))
  else ret tt.

Module skillsService.
Definition getAll {S} (answer : reply (list Skill.t)) : M S (list Skill.t) :=
  await response := api.get "/skills" answer in
  unwrap "Failed to fetch skills" response.
Definition getById {S} (id : string) (answer : reply Skill.t) : M S Skill.t :=
  await response := api.get ("/skills/" +:+ id) answer in
  unwrap "Failed to fetch skill" response.
Definition create {S} (data : FormData) (answer : reply Skill.t) : M S Skill.t :=
  await response := api.post "/skills" (Multipart data) answer in
  unwrap "Failed to create skill" response.
Definition update {S} (id : string) (data : FormData) (answer : reply Skill.t) : M S Skill.t :=
  await response := api.put ("/skills/" +:+ id) (Multipart data) answer in
  unwrap "Failed to update skill" response.
Definition delete {S} (id : string) (answer : reply unit) : M S unit :=
  await response := api.delete ("/skills/" +:+ id) answer in
  unwrap_void "Failed to delete skill" response.
End skillsService.

Module experienceService.
Definition getAll {S} (answer : reply (list Experience.t)) : M S (list Experience.t) :=
  await response := api.get "/experience" answer in
  unwrap "Failed to fetch experience" response.
Definition getById {S} (id : string) (answer : reply Experience.t) : M S Experience.t :=
  await response := api.get ("/experience/" +:+ id) answer in
  unwrap "Failed to fetch experience" response.
Definition create {S} (data : ExperienceCreateData.t) (answer : reply Experience.t)
  : M S Experience.t :=
  await response := api.post "/experience" (ExperienceJson data) answer in
  unwrap "Failed to create experience" response.
Definition update {S} (id : string) (data : ExperienceCreateData.t)
  (answer : reply Experience.t) : M S Experience.t :=
  await response := api.put ("/experience/" +:+ id) (ExperienceJson data) answer in
  unwrap "Failed to update experience" response.
Definition delete {S} (id : string) (answer : reply unit) : M S unit :=
  await response := api.delete ("/experience/" +:+ id) answer in
  unwrap_void "Failed to delete experience" response.
End experienceService.

Module certificationsService.
Definition getAll {S} (answer : reply (list Certification.t)) : M S (list Certification.t) :=
  await response := api.get "/certifications" answer in
  unwrap "Failed to fetch certifications" response.
Definition getById {S} (id : string) (answer : reply Certification.t) : M S Certification.t :=
  await response := api.get ("/certifications/" +:+ id) answer in
  unwrap "Failed to fetch certification" response.
Definition create {S} (data : CertificationCreateData.t) (answer : reply Certification.t)
  : M S Certification.t :=
  await response := api.post "/certifications" (CertificationJson data) answer in
  unwrap "Failed to create certification" response.
Definition update {S} (id : string) (data : CertificationCreateData.t)
  (answer : reply Certification.t) : M S Certification.t :=
  await response := api.put ("/certifications/" +:+ id) (CertificationJson data) answer in
  unwrap "Failed to update certification" response.
Definition delete {S} (id : string) (answer : reply unit) : M S unit :=
  await response := api.delete ("/certifications/" +:+ id) answer in
  unwrap_void "Failed to delete certification" response.
End certificationsService.

Module educationService.
Definition getAll {S} (answer : reply (list Education.t)) : M S (list Education.t) :=
  await response := api.get "/education" answer in
  unwrap "Failed to fetch education" response.
Definition getById {S} (id : string) (answer : reply Education.t) : M S Education.t :=
  await response := api.get ("/education/" +:+ id) answer in
  unwrap "Failed to fetch education" response.
Definition create {S} (data : EducationCreateData.t) (answer : reply Education.t)
  : M S Education.t :=
  await response := api.post "/education" (EducationJson data) answer in
  unwrap "Failed to create education" response.
Definition update {S} (id : string) (data : EducationCreateData.t)
  (answer : reply Education.t) : M S Education.t :=
  await response := api.put ("/education/" +:+ id) (EducationJson data) answer in
  unwrap "Failed to update education" response.
Definition delete {S} (id : string) (answer : reply unit) : M S unit :=
  await response := api.delete ("/education/" +:+ id) answer in
  unwrap_void "Failed to delete education" response.
End educationService.

Module projectsService.
Definition getAll {S} (answer : reply (list Project.t)) : M S (list Project.t) :=
  await response := api.get "/projects" answer in
  unwrap "Failed to fetch projects" response.
Definition getBySlug {S} (slug : string) (answer : reply Project.t) : M S Project.t :=
  await response := api.get ("/projects/" +:+ slug) answer in
  unwrap "Failed to fetch project" response.
Definition create {S} (data : FormData) (answer : reply Project.t) : M S Project.t :=
  await response := api.post "/projects" (Multipart data) answer in
  unwrap "Failed to create project" response.
Definition update {S} (id : string) (data : FormData) (answer : reply Project.t)
  : M S Project.t :=
  await response := api.put ("/projects/" +:+ id) (Multipart data) answer in
  unwrap "Failed to update project" response.
Definition delete {S} (id : string) (answer : reply unit) : M S unit :=
  await response := api.delete ("/projects/" +:+ id) answer in
  unwrap_void "Failed to delete project" response.
End projectsService.

Module userDetailsService.
(** [get] answers [null] where the other methods throw. *)
Definition get {S} (answer : reply UserDetails.t) : M S (option UserDetails.t) :=
  await response := api.get "/user" answer in
  match ApiResponse.success response, ApiResponse.data response with
  | true, Some d => ret (Some d)
  | _, _ => ret None
  end.
Definition create {S} (data : FormData) (answer : reply UserDetails.t) : M S UserDetails.t :=
  await response := api.post "/user" (Multipart data) answer in
  unwrap "Failed to create user details" response.
Definition update {S} (data : FormData) (answer : reply UserDetails.t) : M S UserDetails.t :=
  await response := api.put "/user" (Multipart data) answer in
  unwrap "Failed to update user details" response.
End userDetailsService.

(** The operations of the six resource clients, with the type of the
    data their envelope carries and the type they return. *)
Inductive operation : Type :=
| skills_getAll | skills_getById (id : string)
| skills_create (data : FormData) | skills_update (id : string) (data : FormData)
| skills_delete (id : string)
| experience_getAll | experience_getById (id : string)
| experience_create (data : ExperienceCreateData.t)
| experience_update (id : string) (data : ExperienceCreateData.t)
| experience_delete (id : string)
| certifications_getAll | certifications_getById (id : string)
| certifications_create (data : CertificationCreateData.t)
| certifications_update (id : string) (data : CertificationCreateData.t)
| certifications_delete (id : string)
| education_getAll | education_getById (id : string)
| education_create (data : EducationCreateData.t)
| education_update (id : string) (data : EducationCreateData.t)
| education_delete (id : string)
| projects_getAll | projects_getBySlug (slug : string)
| projects_create (data : FormData) | projects_update (id : string) (data : FormData)
| projects_delete (id : string)
| userDetails_get | userDetails_create (data : FormData)
| userDetails_update (data : FormData).

Definition carried (o : operation) : Type :=
  match o with
  | skills_getAll => list Skill.t
  | skills_getById _ | skills_create _ | skills_update _ _ => Skill.t
  | experience_getAll => list Experience.t
  | experience_getById _ | experience_create _ | experience_update _ _ => Experience.t
  | certifications_getAll => list Certification.t
  | certifications_getById _ | certifications_create _
  | certifications_update _ _ => Certification.t
  | education_getAll => list Education.t
  | education_getById _ | education_create _ | education_update _ _ => Education.t
  | projects_getAll => list Project.t
  | projects_getBySlug _ | projects_create _ | projects_update _ _ => Project.t
  | userDetails_get | userDetails_create _ | userDetails_update _ => UserDetails.t
  | skills_delete _ | experience_delete _ | certifications_delete _
  | education_delete _ | projects_delete _ => unit
  end.

Definition returned (o : operation) : Type :=
  match o with
  | userDetails_get => option UserDetails.t
  | skills_delete _ | experience_delete _ | certifications_delete _
  | education_delete _ | projects_delete _ => unit
  | _ => carried o
  end.

Definition perform (o : operation) : reply (carried o) -> M unit (returned o) :=
  match o return reply (carried o) -> M unit (returned o) with
  | skills_getAll => skillsService.getAll
  | skills_getById id => skillsService.getById id
  | skills_create d => skillsService.create d
  | skills_update id d => skillsService.update id d
  | skills_delete id => skillsService.delete id
  | experience_getAll => experienceService.getAll
  | experience_getById id => experienceService.getById id
  | experience_create d => experienceService.create d
  | experience_update id d => experienceService.update id d
  | experience_delete id => experienceService.delete id
  | certifications_getAll => certificationsService.getAll
  | certifications_getById id => certificationsService.getById id
  | certifications_create d => certificationsService.create d
  | certifications_update id d => certificationsService.update id d
  | certifications_delete id => certificationsService.delete id
  | education_getAll => educationService.getAll
  | education_getById id => educationService.getById id
  | education_create d => educationService.create d
  | education_update id d => educationService.update id d
  | education_delete id => educationService.delete id
  | projects_getAll => projectsService.getAll
  | projects_getBySlug slug => projectsService.getBySlug slug
  | projects_create d => projectsService.create d
  | projects_update id d => projectsService.update id d
  | projects_delete id => projectsService.delete id
  | userDetails_get => userDetailsService.get
  | userDetails_create d => userDetailsService.create d
  | userDetails_update d => userDetailsService.update d
  end.

(** The fallback message each operation names in its [throw]. *)
Definition fallback (o : operation) : option string :=
  match o with
  | skills_getAll => Some "Failed to fetch skills"
  | skills_getById _ => Some "Failed to fetch skill"
  | skills_create _ => Some "Failed to create skill"
  | skills_update _ _ => Some "Failed to update skill"
  | skills_delete _ => Some "Failed to delete skill"
  | experience_getAll | experience_getById _ => Some "Failed to fetch experience"
  | experience_create _ => Some "Failed to create experience"
  | experience_update _ _ => Some "Failed to update experience"
  | experience_delete _ => Some "Failed to delete experience"
  | certifications_getAll => Some "Failed to fetch certifications"
  | certifications_getById _ => Some "Failed to fetch certification"
  | certifications_create _ => Some "Failed to create certification"
  | certifications_update _ _ => Some "Failed to update certification"
  | certifications_delete _ => Some "Failed to delete certification"
  | education_getAll | education_getById _ => Some "Failed to fetch education"
  | education_create _ => Some "Failed to create education"
  | education_update _ _ => Some "Failed to update education"
  | education_delete _ => Some "Failed to delete education"
  | projects_getAll => Some "Failed to fetch projects"
  | projects_getBySlug _ => Some "Failed to fetch project"
  | projects_create _ => Some "Failed to create project"
  | projects_update _ _ => Some "Failed to update project"
  | projects_delete _ => Some "Failed to delete project"
  | userDetails_get => None
  | userDetails_create _ => Some "Failed to create user details"
  | userDetails_update _ => Some "Failed to update user details"
  end.

Definition is_delete (o : operation) : bool :=
  match o with
  | skills_delete _ | experience_delete _ | certifications_delete _
  | education_delete _ | projects_delete _ => true
  | _ => false
  end.

(** The error an operation fails with on a response, if it fails. *)
Definition failure (o : operation) (response : ApiResponse.t (carried o)) : option exn :=
  match result (perform o (Responded response) tt) with
  | Return _ => None
  | Throw e => Some e
  end.

(* ===================================================================== *)
(** ** Session: [services/auth.ts] and [store/authStore.ts]               *)
(* ===================================================================== *)

(** The part of the browser the session code touches. *)
Record Browser : Type :=
  { localStorage : gmap string string; location_href : string }.

Definition removeItem (key : string) : M Browser unit :=
  modify (fun b => {| localStorage := base.delete key (localStorage b);
                      location_href := location_href b |}).

Definition setItem (key value : string) : M Browser unit :=
  modify (fun b => {| localStorage := <[key := value]> (localStorage b);
                      location_href := location_href b |}).

Definition getItem (key : string) : M Browser (option string) :=
  fun b => (Return (localStorage b !! key), b, []).

Definition set_location_href (href : string) : M Browser unit :=
  modify (fun b => {| localStorage := localStorage b; location_href := href |}).

Module authService.
Section WithJson.

(** [JSON.parse] on a stored identity: the value ([null] or a user), or
    a [SyntaxError]; [JSON.stringify] on a user. *)
Variable JSON_parse : string -> outcome (option User.t).
Variable JSON_stringify : User.t -> string.

(** [getMe]: stores the identity of a successful envelope. *)
Definition getMe (answer : reply User.t) : M Browser User.t :=
  await response := api.get "/auth/me" answer in
  match ApiResponse.success response, ApiResponse.data response with
  | true, Some d => setItem "user" (JSON_stringify d) >> ret d
  | _, _ => throw (Error (Js.or_else (ApiResponse.error response) "Failed to get user"))
  end.

Definition logout : M Browser unit :=
  removeItem "auth_token" >>
  removeItem "user" >>
  set_location_href "/login".

Definition getStoredUser : M Browser (option User.t) :=
  await userStr := getItem "user" in
  match userStr with
  | Some s => if Js.truthy s then (fun b => (JSON_parse s, b, [])) else ret None
  | None => ret None
  end.

Definition getStoredToken : M Browser (option string) :=
  getItem "auth_token".

(** [!!this.getStoredToken()]. *)
Definition isAuthenticated : M Browser bool :=
  await token := getStoredToken in
  ret (match token with
       | Some s => Js.truthy s
       | None => false
       end).

End WithJson.
End authService.

(** The store of [useAuthStore] and the page it lives in. *)
Module AuthState.
Record t : Type :=
  { user : option User.t; isAuthenticated : bool; isLoading : bool }.
End AuthState.

Record Session : Type := { browser : Browser; store : AuthState.t }.

(** [set(partial)] of the store. *)
Definition set_store (f : AuthState.t -> AuthState.t) : M Session unit :=
  modify (fun w => {| browser := browser w; store := f (store w) |}).

(** A call into [authService] from the store. *)
Definition in_browser {A} (m : M Browser A) : M Session A :=
  fun w =>
    match m (browser w) with
    | (r, b, t) => (r, {| browser := b; store := store w |}, t)
    end.

Module useAuthStore.
Section WithJson.

Variable JSON_parse : string -> outcome (option User.t).

Definition setUser (u : option User.t) : M Session unit :=
  set_store (fun s => {| AuthState.user := u;
                         AuthState.isAuthenticated := Js.present u;
                         AuthState.isLoading := AuthState.isLoading s |}).

Definition logout : M Session unit :=
  in_browser authService.logout >>
  set_store (fun s => {| AuthState.user := None;
                         AuthState.isAuthenticated := false;
                         AuthState.isLoading := AuthState.isLoading s |}).

Definition checkAuth : M Session unit :=
  await u := in_browser (authService.getStoredUser JSON_parse) in
  await a := in_browser authService.isAuthenticated in
  set_store (fun s => {| AuthState.user := u;
                         AuthState.isAuthenticated := a;
                         AuthState.isLoading := AuthState.isLoading s |}).

End WithJson.
End useAuthStore.

(* ===================================================================== *)
(** ** Image helper: [lib/imageCompression.ts]                            *)
(* ===================================================================== *)

Module CompressionOptions.
(** An absent key is [None]. *)
Record t : Type :=
  { maxSizeMB : option Z; maxWidthOrHeight : option Z; useWebWorker : option bool }.
End CompressionOptions.

Definition defaultOptions : CompressionOptions.t :=
  {| CompressionOptions.maxSizeMB := Some 1%Z;
     CompressionOptions.maxWidthOrHeight := Some 1920%Z;
     CompressionOptions.useWebWorker := Some true |}.

(** [{ ...a, ...b }] on option records: the keys of [b] win. *)
Definition spread (a b : CompressionOptions.t) : CompressionOptions.t :=
  {| CompressionOptions.maxSizeMB :=
       match CompressionOptions.maxSizeMB b with
       | Some v => Some v
       | None => CompressionOptions.maxSizeMB a
       end;
     CompressionOptions.maxWidthOrHeight :=
       match CompressionOptions.maxWidthOrHeight b with
       | Some v => Some v
       | None => CompressionOptions.maxWidthOrHeight a
       end;
     CompressionOptions.useWebWorker :=
       match CompressionOptions.useWebWorker b with
       | Some v => Some v
       | None => CompressionOptions.useWebWorker a
       end |}.

Definition no_options : CompressionOptions.t :=
  {| CompressionOptions.maxSizeMB := None;
     CompressionOptions.maxWidthOrHeight := None;
     CompressionOptions.useWebWorker := None |}.

Section Images.

(** The compression library, a black box that resolves to a file or
    rejects, and the reading of the clock [Date.now()]. *)
Variable imageCompression : File.t -> CompressionOptions.t -> outcome File.t.
Variable Date_now : Z.

Definition compressImage {S} (file : File.t) (options : CompressionOptions.t) : M S File.t :=
  try_catch
    (let mergedOptions := spread defaultOptions options in
     await compressedFile := (fun s => (imageCompression file mergedOptions, s, [])) in
     ret {| File.name := File.name file;
            File.type := File.type compressedFile;
            File.lastModified := Date_now;
            File.bytes := File.bytes compressedFile |})
    (fun error =>
       emit (ConsoleError "Image compression failed:" error) >>
       ret file).

(** [Promise.all(files.map(file => compressImage(file, options)))]:
    no call rejects, so the files come back in order. *)
Fixpoint compressImages {S} (files : list File.t) (options : CompressionOptions.t)
  : M S (list File.t) :=
  match files with
  | [] => ret []
  | file :: rest =>
      await f := compressImage file options in
      await fs := compressImages rest options in
      ret (f :: fs)
  end.

End Images.

(* ===================================================================== *)
(** ** Forms: the schemas of [zod] and the form state of react-hook-form  *)
(* ===================================================================== *)

Module z.

(** The issue codes the schemas of the pages can raise. *)
Inductive issue : Type :=
| invalid_type
| invalid_literal
| too_small
| too_big.

(** The message of a failed check: the one the schema names, or the
    default text of the library for the issue. *)
Inductive message : Type :=
| Custom (s : string)
| Default (i : issue).

(** A schema answers [None] when it accepts. *)
Definition schema (V : Type) : Type := V -> option message.

(** [z.string().min(1, msg)]. *)
Definition string_min1 (msg : string) : schema string :=
  fun s => if Js.truthy s then None else Some (Custom msg).

(** [z.string()]. *)
Definition string_any : schema string := fun _ => None.

(** [z.number().min(lo, msg).max(hi)]; NaN is not a number for [zod]. *)
Definition number_range (lo : Z) (msg : option string) (hi : Z) : schema Js.number :=
  fun n =>
    match n with
    | Js.NaN => Some (Default invalid_type)
    | Js.Num v =>
        if (v <? lo)%Z
        then Some (match msg with Some m => Custom m | None => Default too_small end)
        else if (hi <? v)%Z then Some (Default too_big)
        else None
    end.

(** [.nullable()] and [.optional()]: [null], [undefined] are [None]. *)
Definition nullable {V} (s : schema V) : schema (option V) :=
  fun v => match v with None => None | Some x => s x end.
Definition optional {V} (s : schema V) : schema (option V) :=
  fun v => match v with None => None | Some x => s x end.

(** [z.literal(l)] on a value that is a string or [undefined]. *)
Definition literal (l : string) : schema (option string) :=
  fun v =>
    match v with
    | Some s => if String.eqb s l then None else Some (Default invalid_literal)
    | None => Some (Default invalid_literal)
    end.

(** [a.or(b)]: accepted when one of the two accepts; when both refuse a
    value of the right type, the issues of the first are reported. *)
Definition or {V} (a b : schema V) : schema V :=
  fun v =>
    match a v with
    | None => None
    | Some m => match b v with None => None | Some _ => Some m end
    end.

(** The issues of an object schema: one entry per refused field. *)
Definition field {V} (name : string) (s : schema V) (v : V) : list (string * message) :=
  match s v with
  | None => []
  | Some m => [(name, m)]
  end.

End z.

Module Form.
(** The state [useForm] keeps: values, the defaults [reset()] goes back
    to, and the messages of the last validation. *)
Record t (V : Type) : Type :=
  { values : V; defaultValues : V; errors : list (string * z.message) }.
Arguments values {V} _.
Arguments defaultValues {V} _.
Arguments errors {V} _.

Definition init {V} (d : V) : t V :=
  {| values := d; defaultValues := d; errors := [] |}.

(** [reset()]. *)
Definition reset {V} (f : t V) : t V :=
  {| values := defaultValues f; defaultValues := defaultValues f; errors := [] |}.

(** [reset(v)]: the new values also become the defaults. *)
Definition reset_to {V} (v : V) (f : t V) : t V :=
  {| values := v; defaultValues := v; errors := [] |}.

(** [setValue(name, x)], as an update of the values. *)
Definition setValues {V} (upd : V -> V) (f : t V) : t V :=
  {| values := upd (values f); defaultValues := defaultValues f; errors := errors f |}.

Definition setErrors {V} (e : list (string * z.message)) (f : t V) : t V :=
  {| values := values f; defaultValues := defaultValues f; errors := e |}.
End Form.

(** A handler reads the state through the closure of the render that
    created it. *)
Definition with_render {S A} (k : S -> M S A) : M S A := fun s => k s s.

(** [handleSubmit(onSubmit)] with a [zodResolver]: the values are
    validated; with issues they are shown and [onSubmit] is not called. *)
Definition handleSubmit {S V} (form : S -> Form.t V) (setForm : Form.t V -> S -> S)
  (resolver : V -> list (string * z.message)) (onSubmit : V -> M S unit) : M S unit :=
  with_render (fun st =>
    let data := Form.values (form st) in
    match resolver data with
    | [] => modify (setForm (Form.setErrors [] (form st))) >> onSubmit data
    | issues => modify (setForm (Form.setErrors issues (form st)))
    end).

(** [Promise.all([a, b])]: both calls are started; the result is the
    pair of values, or a rejection when one of them rejects. *)
Definition promise_all2 {S A B} (a : M S A) (b : M S B) : M S (A * B) :=
  fun s =>
    match a s with
    | (ra, s1, t1) =>
        match b s1 with
        | (rb, s2, t2) =>
            (match ra, rb with
             | Return x, Return y => Return (x, y)
             | Throw e, _ => Throw e
             | Return _, Throw e => Throw e
             end, s2, t1 ++ t2)
        end
    end.

(** [links?.map(l => l.skill.id) || []]. *)
Definition skill_ids (links : option (list SkillLink)) : list string :=
  match links with
  | Some l => map (fun es => Skill.id (skill es)) l
  | None => []
  end.

(* ===================================================================== *)
(** ** [pages/Skills.tsx]                                                 *)
(* ===================================================================== *)

Module Skills.

(** [SkillFormData]: [icon] is the [FileList] of the file input, or
    [undefined]. *)
Record SkillFormData : Type := { name : string; icon : option (list File.t) }.

Definition skillSchema (v : SkillFormData) : list (string * z.message) :=
  z.field "name" (z.string_min1 "Skill name is required") (name v).

Record ConfirmDialog : Type := { open : bool; skillId : option string }.

Record State : Type :=
  { skills : list Skill.t;
    isLoading : bool;
    isModalOpen : bool;
    editingSkill : option Skill.t;
    isSubmitting : bool;
    iconPreview : option string;
    searchQuery : string;
    confirmDialog : ConfirmDialog;
    form : Form.t SkillFormData }.

Definition noValues : SkillFormData := {| name := ""; icon := None |}.

(** The state of the first render. *)
Definition initial : State :=
  {| skills := []; isLoading := true; isModalOpen := false; editingSkill := None;
     isSubmitting := false; iconPreview := None; searchQuery := "";
     confirmDialog := {| open := false; skillId := None |};
     form := Form.init noValues |}.

Definition setSkills (v : list Skill.t) : M State unit :=
  modify (fun s => {| skills := v; isLoading := isLoading s; isModalOpen := isModalOpen s;
    editingSkill := editingSkill s; isSubmitting := isSubmitting s;
    iconPreview := iconPreview s; searchQuery := searchQuery s;
    confirmDialog := confirmDialog s; form := form s |}).
Definition setIsLoading (v : bool) : M State unit :=
  modify (fun s => {| skills := skills s; isLoading := v; isModalOpen := isModalOpen s;
    editingSkill := editingSkill s; isSubmitting := isSubmitting s;
    iconPreview := iconPreview s; searchQuery := searchQuery s;
    confirmDialog := confirmDialog s; form := form s |}).
Definition setIsModalOpen (v : bool) : M State unit :=
  modify (fun s => {| skills := skills s; isLoading := isLoading s; isModalOpen := v;
    editingSkill := editingSkill s; isSubmitting := isSubmitting s;
    iconPreview := iconPreview s; searchQuery := searchQuery s;
    confirmDialog := confirmDialog s; form := form s |}).
Definition setEditingSkill (v : option Skill.t) : M State unit :=
  modify (fun s => {| skills := skills s; isLoading := isLoading s;
    isModalOpen := isModalOpen s; editingSkill := v; isSubmitting := isSubmitting s;
    iconPreview := iconPreview s; searchQuery := searchQuery s;
    confirmDialog := confirmDialog s; form := form s |}).
Definition setIsSubmitting (v : bool) : M State unit :=
  modify (fun s => {| skills := skills s; isLoading := isLoading s;
    isModalOpen := isModalOpen s; editingSkill := editingSkill s; isSubmitting := v;
    iconPreview := iconPreview s; searchQuery := searchQuery s;
    confirmDialog := confirmDialog s; form := form s |}).
Definition setIconPreview (v : option string) : M State unit :=
  modify (fun s => {| skills := skills s; isLoading := isLoading s;
    isModalOpen := isModalOpen s; editingSkill := editingSkill s;
    isSubmitting := isSubmitting s; iconPreview := v; searchQuery := searchQuery s;
    confirmDialog := confirmDialog s; form := form s |}).
Definition setSearchQuery (v : string) : M State unit :=
  modify (fun s => {| skills := skills s; isLoading := isLoading s;
    isModalOpen := isModalOpen s; editingSkill := editingSkill s;
    isSubmitting := isSubmitting s; iconPreview := iconPreview s; searchQuery := v;
    confirmDialog := confirmDialog s; form := form s |}).
Definition setConfirmDialog (v : ConfirmDialog) : M State unit :=
  modify (fun s => {| skills := skills s; isLoading := isLoading s;
    isModalOpen := isModalOpen s; editingSkill := editingSkill s;
    isSubmitting := isSubmitting s; iconPreview := iconPreview s;
    searchQuery := searchQuery s; confirmDialog := v; form := form s |}).
Definition withForm (v : Form.t SkillFormData) (s : State) : State :=
  {| skills := skills s; isLoading := isLoading s;
     isModalOpen := isModalOpen s; editingSkill := editingSkill s;
     isSubmitting := isSubmitting s; iconPreview := iconPreview s;
     searchQuery := searchQuery s; confirmDialog := confirmDialog s; form := v |}.
Definition reset : M State unit := modify (fun s => withForm (Form.reset (form s)) s).
Definition setValue (upd : SkillFormData -> SkillFormData) : M State unit :=
  modify (fun s => withForm (Form.setValues upd (form s)) s).

Section Page.

Variable imageCompression : File.t -> CompressionOptions.t -> outcome File.t.
Variable Date_now : Z.

Definition loadSkills (answer : reply (list Skill.t)) : M State unit :=
  try_finally
    (try_catch
       (await data := skillsService.getAll answer in
        setSkills data)
       (fun error => toast.error "Failed to load skills"))
    (setIsLoading false).

Definition handleOpenModal (skill : option Skill.t) : M State unit :=
  match skill with
  | Some skill =>
      setEditingSkill (Some skill) >>
      setValue (fun v => {| name := Skill.name skill; icon := icon v |}) >>
      setIconPreview (Some (Skill.icon skill))
  | None =>
      setEditingSkill None >>
      reset >>
      setIconPreview None
  end >>
  setIsModalOpen true.

Definition handleCloseModal : M State unit :=
  setIsModalOpen false >>
  setEditingSkill None >>
  reset >>
  setIconPreview None.

(** [onSubmit]; [answer] is what the transport answers to the create or
    update call, [refetch] what it answers to the list call after it.
    The early [return] of the source ends the [try] block. *)
Definition onSubmit (data : SkillFormData) (answer : reply Skill.t)
  (refetch : reply (list Skill.t)) : M State unit :=
  with_render (fun st =>
    let editingSkill := editingSkill st in
    let send (formData : FormData) : M State unit :=
      match editingSkill with
      | Some sk =>
          skillsService.update (Skill.id sk) formData answer >>
          toast.success "Skill updated successfully"
      | None =>
          skillsService.create formData answer >>
          toast.success "Skill created successfully"
      end >>
      loadSkills refetch >>
      handleCloseModal in
    setIsSubmitting true >>
    try_finally
      (try_catch
         (let formData := append [] "name" (Text (name data)) in
          match icon data with
          | Some (icon0 :: _) =>
              await compressedIcon :=
                compressImage imageCompression Date_now icon0 no_options in
              send (append formData "icon" (Blob compressedIcon))
          | _ =>
              match editingSkill with
              | None => toast.error "Icon is required for new skills"
              | Some _ => send formData
              end
          end)
         (fun error => toast.error (message error)))
      (setIsSubmitting false)).

(** The form element: [handleSubmit(onSubmit)]. *)
Definition submit (answer : reply Skill.t) (refetch : reply (list Skill.t)) : M State unit :=
  handleSubmit form withForm skillSchema (fun data => onSubmit data answer refetch).

Definition handleDelete (id : string) : M State unit :=
  setConfirmDialog {| open := true; skillId := Some id |}.

Definition confirmDelete (answer : reply unit) (refetch : reply (list Skill.t))
  : M State unit :=
  with_render (fun st =>
    match skillId (confirmDialog st) with
    | None => ret tt
    | Some id =>
        if negb (Js.truthy id) then ret tt else
        try_catch
          (skillsService.delete id answer >>
           toast.success "Skill deleted successfully" >>
           loadSkills refetch)
          (fun error => toast.error "Failed to delete skill")
    end).

End Page.

(** The list the page shows. *)
Definition filteredSkills (st : State) : list Skill.t :=
  List.filter (fun skill =>
                 Js.includes (Js.toLowerCase (Skill.name skill))
                             (Js.toLowerCase (searchQuery st)))
              (skills st).

End Skills.

(* ===================================================================== *)
(** ** [pages/Experience.tsx]                                             *)
(* ===================================================================== *)

Module ExperiencePage.

Record ExperienceFormData : Type :=
  { startYear : Js.number; endYear : option Js.number; companyName : string;
    description : option string; location : string;
    skillIds : option (list string) }.

Record ConfirmDialog : Type := { open : bool; experienceId : option string }.

Record State : Type :=
  { experiences : list Experience.t;
    skills : list Skill.t;
    isLoading : bool;
    isModalOpen : bool;
    editingExperience : option Experience.t;
    isSubmitting : bool;
    isCurrentJob : bool;
    searchQuery : string;
    confirmDialog : ConfirmDialog;
    form : Form.t ExperienceFormData }.

Definition setExperiences (v : list Experience.t) : M State unit :=
  modify (fun s => {| experiences := v; skills := skills s; isLoading := isLoading s;
    isModalOpen := isModalOpen s; editingExperience := editingExperience s;
    isSubmitting := isSubmitting s; isCurrentJob := isCurrentJob s;
    searchQuery := searchQuery s; confirmDialog := confirmDialog s; form := form s |}).
Definition setSkills (v : list Skill.t) : M State unit :=
  modify (fun s => {| experiences := experiences s; skills := v; isLoading := isLoading s;
    isModalOpen := isModalOpen s; editingExperience := editingExperience s;
    isSubmitting := isSubmitting s; isCurrentJob := isCurrentJob s;
    searchQuery := searchQuery s; confirmDialog := confirmDialog s; form := form s |}).
Definition setIsLoading (v : bool) : M State unit :=
  modify (fun s => {| experiences := experiences s; skills := skills s; isLoading := v;
    isModalOpen := isModalOpen s; editingExperience := editingExperience s;
    isSubmitting := isSubmitting s; isCurrentJob := isCurrentJob s;
    searchQuery := searchQuery s; confirmDialog := confirmDialog s; form := form s |}).
Definition setIsModalOpen (v : bool) : M State unit :=
  modify (fun s => {| experiences := experiences s; skills := skills s;
    isLoading := isLoading s; isModalOpen := v;
    editingExperience := editingExperience s;
    isSubmitting := isSubmitting s; isCurrentJob := isCurrentJob s;
    searchQuery := searchQuery s; confirmDialog := confirmDialog s; form := form s |}).
Definition setEditingExperience (v : option Experience.t) : M State unit :=
  modify (fun s => {| experiences := experiences s; skills := skills s;
    isLoading := isLoading s; isModalOpen := isModalOpen s; editingExperience := v;
    isSubmitting := isSubmitting s; isCurrentJob := isCurrentJob s;
    searchQuery := searchQuery s; confirmDialog := confirmDialog s; form := form s |}).
Definition setIsSubmitting (v : bool) : M State unit :=
  modify (fun s => {| experiences := experiences s; skills := skills s;
    isLoading := isLoading s; isModalOpen := isModalOpen s;
    editingExperience := editingExperience s;
    isSubmitting := v; isCurrentJob := isCurrentJob s;
    searchQuery := searchQuery s; confirmDialog := confirmDialog s; form := form s |}).
Definition setIsCurrentJob (v : bool) : M State unit :=
  modify (fun s => {| experiences := experiences s; skills := skills s;
    isLoading := isLoading s; isModalOpen := isModalOpen s;
    editingExperience := editingExperience s;
    isSubmitting := isSubmitting s; isCurrentJob := v;
    searchQuery := searchQuery s; confirmDialog := confirmDialog s; form := form s |}).
Definition setSearchQuery (v : string) : M State unit :=
  modify (fun s => {| experiences := experiences s; skills := skills s;
    isLoading := isLoading s; isModalOpen := isModalOpen s;
    editingExperience := editingExperience s;
    isSubmitting := isSubmitting s; isCurrentJob := isCurrentJob s;
    searchQuery := v; confirmDialog := confirmDialog s; form := form s |}).
Definition setConfirmDialog (v : ConfirmDialog) : M State unit :=
  modify (fun s => {| experiences := experiences s; skills := skills s;
    isLoading := isLoading s; isModalOpen := isModalOpen s;
    editingExperience := editingExperience s;
    isSubmitting := isSubmitting s; isCurrentJob := isCurrentJob s;
    searchQuery := searchQuery s; confirmDialog := v; form := form s |}).
Definition withForm (v : Form.t ExperienceFormData) (s : State) : State :=
  {| experiences := experiences s; skills := skills s;
     isLoading := isLoading s; isModalOpen := isModalOpen s;
     editingExperience := editingExperience s;
     isSubmitting := isSubmitting s; isCurrentJob := isCurrentJob s;
     searchQuery := searchQuery s; confirmDialog := confirmDialog s; form := v |}.
Definition reset : M State unit := modify (fun s => withForm (Form.reset (form s)) s).
Definition reset_to (v : ExperienceFormData) : M State unit :=
  modify (fun s => withForm (Form.reset_to v (form s)) s).
Definition setValue (upd : ExperienceFormData -> ExperienceFormData) : M State unit :=
  modify (fun s => withForm (Form.setValues upd (form s)) s).

Section Page.

(** [new Date().getFullYear()]. *)
Variable currentYear : Z.

Definition experienceSchema (v : ExperienceFormData) : list (string * z.message) :=
  z.field "startYear"
    (z.number_range 1900 (Some "Invalid year") (currentYear + 10)) (startYear v) ++
  z.field "endYear"
    (z.nullable (z.number_range 1900 None (currentYear + 10))) (endYear v) ++
  z.field "companyName" (z.string_min1 "Company name is required") (companyName v) ++
  z.field "description" (z.optional z.string_any) (description v) ++
  z.field "location" (z.string_min1 "Location is required") (location v).

(** The [defaultValues] of [useForm] name [skillIds] and [endYear]; the
    other fields start empty. *)
Definition defaultValues : ExperienceFormData :=
  {| startYear := Js.NaN; endYear := None; companyName := ""; description := None;
     location := ""; skillIds := Some [] |}.

Definition initial : State :=
  {| experiences := []; skills := []; isLoading := true; isModalOpen := false;
     editingExperience := None; isSubmitting := false; isCurrentJob := false;
     searchQuery := ""; confirmDialog := {| open := false; experienceId := None |};
     form := Form.init defaultValues |}.

Definition loadData (answers : reply (list Experience.t) * reply (list Skill.t))
  : M State unit :=
  try_finally
    (try_catch
       (await both := promise_all2 (experienceService.getAll answers.1)
                                   (skillsService.getAll answers.2) in
        setExperiences both.1 >>
        setSkills both.2)
       (fun error => toast.error "Failed to load data"))
    (setIsLoading false).

Definition handleOpenModal (exp : option Experience.t) : M State unit :=
  match exp with
  | Some exp =>
      setEditingExperience (Some exp) >>
      setValue (fun _ =>
        {| startYear := Experience.startYear exp;
           endYear := Experience.endYear exp;
           companyName := Experience.companyName exp;
           description := Some (Js.or_else (Experience.description exp) "");
           location := Experience.location exp;
           skillIds := Some (skill_ids (Experience.experienceSkills exp)) |}) >>
      setIsCurrentJob (negb (Js.present (Experience.endYear exp)))
  | None =>
      setEditingExperience None >>
      reset_to {| startYear := Js.Num currentYear; endYear := None; companyName := "";
                  description := Some ""; location := ""; skillIds := Some [] |} >>
      setIsCurrentJob false
  end >>
  setIsModalOpen true.

Definition handleCloseModal : M State unit :=
  setIsModalOpen false >>
  setEditingExperience None >>
  reset >>
  setIsCurrentJob false.

(** The checkbox "Currently working here". *)
Definition onCurrentJobChange (checked : bool) : M State unit :=
  setIsCurrentJob checked >>
  if checked
  then setValue (fun v =>
         {| startYear := startYear v; endYear := None; companyName := companyName v;
            description := description v; location := location v;
            skillIds := skillIds v |})
  else ret tt.

(** [{ ...data, endYear: isCurrentJob ? null : data.endYear }]. *)
Definition payload (isCurrentJob : bool) (data : ExperienceFormData)
  : ExperienceCreateData.t :=
  {| ExperienceCreateData.startYear := startYear data;
     ExperienceCreateData.endYear := if isCurrentJob then None else endYear data;
     ExperienceCreateData.companyName := companyName data;
     ExperienceCreateData.description := description data;
     ExperienceCreateData.location := location data;
     ExperienceCreateData.skillIds := skillIds data |}.

Definition onSubmit (data : ExperienceFormData) (answer : reply Experience.t)
  (refetch : reply (list Experience.t) * reply (list Skill.t)) : M State unit :=
  with_render (fun st =>
    setIsSubmitting true >>
    try_finally
      (try_catch
         (let payload := payload (isCurrentJob st) data in
          match editingExperience st with
          | Some exp =>
              experienceService.update (Experience.id exp) payload answer >>
              toast.success "Experience updated successfully"
          | None =>
              experienceService.create payload answer >>
              toast.success "Experience created successfully"
          end >>
          loadData refetch >>
          handleCloseModal)
         (fun error => toast.error (message error)))
      (setIsSubmitting false)).

Definition submit (answer : reply Experience.t)
  (refetch : reply (list Experience.t) * reply (list Skill.t)) : M State unit :=
  handleSubmit form withForm experienceSchema (fun data => onSubmit data answer refetch).

Definition handleDelete (id : string) : M State unit :=
  setConfirmDialog {| open := true; experienceId := Some id |}.

Definition confirmDelete (answer : reply unit)
  (refetch : reply (list Experience.t) * reply (list Skill.t)) : M State unit :=
  with_render (fun st =>
    match experienceId (confirmDialog st) with
    | None => ret tt
    | Some id =>
        if negb (Js.truthy id) then ret tt else
        try_catch
          (experienceService.delete id answer >>
           toast.success "Experience deleted successfully" >>
           loadData refetch)
          (fun error => toast.error "Failed to delete experience")
    end).

End Page.

Definition filteredExperiences (st : State) : list Experience.t :=
  List.filter (fun exp =>
      Js.includes (Js.toLowerCase (Experience.companyName exp))
                  (Js.toLowerCase (searchQuery st)) ||
      Js.includes (Js.toLowerCase (Experience.location exp))
                  (Js.toLowerCase (searchQuery st)) ||
      match Experience.description exp with
      | Some d => Js.truthy d &&
                  Js.includes (Js.toLowerCase d) (Js.toLowerCase (searchQuery st))
      | None => false
      end)
    (experiences st).

End ExperiencePage.

(* ===================================================================== *)
(** ** [pages/Certifications.tsx]                                         *)
(* ===================================================================== *)

Module CertificationsPage.

Record CertificationFormData : Type :=
  { name : string; issuingOrganization : string; year : Js.number;
    description : option string; certificateLink : option string;
    skillIds : option (list string) }.

Record ConfirmDialog : Type := { open : bool; certificationId : option string }.

Record State : Type :=
  { certifications : list Certification.t;
    skills : list Skill.t;
    isLoading : bool;
    isModalOpen : bool;
    editingCertification : option Certification.t;
    isSubmitting : bool;
    searchQuery : string;
    confirmDialog : ConfirmDialog;
    form : Form.t CertificationFormData }.

Definition setCertifications (v : list Certification.t) : M State unit :=
  modify (fun s => {| certifications := v; skills := skills s; isLoading := isLoading s;
    isModalOpen := isModalOpen s; editingCertification := editingCertification s;
    isSubmitting := isSubmitting s; searchQuery := searchQuery s;
    confirmDialog := confirmDialog s; form := form s |}).
Definition setSkills (v : list Skill.t) : M State unit :=
  modify (fun s => {| certifications := certifications s; skills := v;
    isLoading := isLoading s;
    isModalOpen := isModalOpen s; editingCertification := editingCertification s;
    isSubmitting := isSubmitting s; searchQuery := searchQuery s;
    confirmDialog := confirmDialog s; form := form s |}).
Definition setIsLoading (v : bool) : M State unit :=
  modify (fun s => {| certifications := certifications s; skills := skills s;
    isLoading := v;
    isModalOpen := isModalOpen s; editingCertification := editingCertification s;
    isSubmitting := isSubmitting s; searchQuery := searchQuery s;
    confirmDialog := confirmDialog s; form := form s |}).
Definition setIsModalOpen (v : bool) : M State unit :=
  modify (fun s => {| certifications := certifications s; skills := skills s;
    isLoading := isLoading s;
    isModalOpen := v; editingCertification := editingCertification s;
    isSubmitting := isSubmitting s; searchQuery := searchQuery s;
    confirmDialog := confirmDialog s; form := form s |}).
Definition setEditingCertification (v : option Certification.t) : M State unit :=
  modify (fun s => {| certifications := certifications s; skills := skills s;
    isLoading := isLoading s;
    isModalOpen := isModalOpen s; editingCertification := v;
    isSubmitting := isSubmitting s; searchQuery := searchQuery s;
    confirmDialog := confirmDialog s; form := form s |}).
Definition setIsSubmitting (v : bool) : M State unit :=
  modify (fun s => {| certifications := certifications s; skills := skills s;
    isLoading := isLoading s;
    isModalOpen := isModalOpen s; editingCertification := editingCertification s;
    isSubmitting := v; searchQuery := searchQuery s;
    confirmDialog := confirmDialog s; form := form s |}).
Definition setSearchQuery (v : string) : M State unit :=
  modify (fun s => {| certifications := certifications s; skills := skills s;
    isLoading := isLoading s;
    isModalOpen := isModalOpen s; editingCertification := editingCertification s;
    isSubmitting := isSubmitting s; searchQuery := v;
    confirmDialog := confirmDialog s; form := form s |}).
Definition setConfirmDialog (v : ConfirmDialog) : M State unit :=
  modify (fun s => {| certifications := certifications s; skills := skills s;
    isLoading := isLoading s;
    isModalOpen := isModalOpen s; editingCertification := editingCertification s;
    isSubmitting := isSubmitting s; searchQuery := searchQuery s;
    confirmDialog := v; form := form s |}).
Definition withForm (v : Form.t CertificationFormData) (s : State) : State :=
  {| certifications := certifications s; skills := skills s;
     isLoading := isLoading s;
     isModalOpen := isModalOpen s; editingCertification := editingCertification s;
     isSubmitting := isSubmitting s; searchQuery := searchQuery s;
     confirmDialog := confirmDialog s; form := v |}.
Definition reset : M State unit := modify (fun s => withForm (Form.reset (form s)) s).
Definition reset_to (v : CertificationFormData) : M State unit :=
  modify (fun s => withForm (Form.reset_to v (form s)) s).
Definition setValue (upd : CertificationFormData -> CertificationFormData) : M State unit :=
  modify (fun s => withForm (Form.setValues upd (form s)) s).

Section Page.

(** [new Date().getFullYear()], and the test [zod] applies for [.url()]:
    whether the platform parses the string as a URL. *)
Variable currentYear : Z.
Variable isUrl : string -> bool.

(** [z.string().url('Invalid URL')]. *)
Definition string_url (msg : string) : z.schema string :=
  fun s => if isUrl s then None else Some (z.Custom msg).

(** [z.string().url('Invalid URL').optional().or(z.literal(''))]. *)
Definition certificateLinkSchema : z.schema (option string) :=
  z.or (z.optional (string_url "Invalid URL")) (z.literal "").

Definition certificationSchema (v : CertificationFormData) : list (string * z.message) :=
  z.field "name" (z.string_min1 "Name is required") (name v) ++
  z.field "issuingOrganization"
    (z.string_min1 "Issuing organization is required") (issuingOrganization v) ++
  z.field "year" (z.number_range 1900 None (currentYear + 10)) (year v) ++
  z.field "description" (z.optional z.string_any) (description v) ++
  z.field "certificateLink" certificateLinkSchema (certificateLink v).

Definition defaultValues : CertificationFormData :=
  {| name := ""; issuingOrganization := ""; year := Js.NaN; description := None;
     certificateLink := Some ""; skillIds := Some [] |}.

Definition initial : State :=
  {| certifications := []; skills := []; isLoading := true; isModalOpen := false;
     editingCertification := None; isSubmitting := false; searchQuery := "";
     confirmDialog := {| open := false; certificationId := None |};
     form := Form.init defaultValues |}.

Definition loadData (answers : reply (list Certification.t) * reply (list Skill.t))
  : M State unit :=
  try_finally
    (try_catch
       (await both := promise_all2 (certificationsService.getAll answers.1)
                                   (skillsService.getAll answers.2) in
        setCertifications both.1 >>
        setSkills both.2)
       (fun error => toast.error "Failed to load data"))
    (setIsLoading false).

Definition handleOpenModal (cert : option Certification.t) : M State unit :=
  match cert with
  | Some cert =>
      setEditingCertification (Some cert) >>
      setValue (fun _ =>
        {| name := Certification.name cert;
           issuingOrganization := Certification.issuingOrganization cert;
           year := Certification.year cert;
           description := Some (Js.or_else (Certification.description cert) "");
           certificateLink := Some (Js.or_else (Certification.certificateLink cert) "");
           skillIds := Some (skill_ids (Certification.certificationSkills cert)) |})
  | None =>
      setEditingCertification None >>
      reset_to {| name := ""; issuingOrganization := ""; year := Js.Num currentYear;
                  description := Some ""; certificateLink := Some "";
                  skillIds := Some [] |}
  end >>
  setIsModalOpen true.

Definition handleCloseModal : M State unit :=
  setIsModalOpen false >>
  setEditingCertification None >>
  reset.

(** [{ ...data, certificateLink: data.certificateLink || undefined }]. *)
Definition payload (data : CertificationFormData) : CertificationCreateData.t :=
  {| CertificationCreateData.name := name data;
     CertificationCreateData.issuingOrganization := issuingOrganization data;
     CertificationCreateData.year := year data;
     CertificationCreateData.description := description data;
     CertificationCreateData.certificateLink := Js.or_undefined (certificateLink data);
     CertificationCreateData.skillIds := skillIds data |}.

Definition onSubmit (data : CertificationFormData) (answer : reply Certification.t)
  (refetch : reply (list Certification.t) * reply (list Skill.t)) : M State unit :=
  with_render (fun st =>
    setIsSubmitting true >>
    try_finally
      (try_catch
         (let payload := payload data in
          match editingCertification st with
          | Some cert =>
              certificationsService.update (Certification.id cert) payload answer >>
              toast.success "Certification updated successfully"
          | None =>
              certificationsService.create payload answer >>
              toast.success "Certification created successfully"
          end >>
          loadData refetch >>
          handleCloseModal)
         (fun error => toast.error (message error)))
      (setIsSubmitting false)).

Definition submit (answer : reply Certification.t)
  (refetch : reply (list Certification.t) * reply (list Skill.t)) : M State unit :=
  handleSubmit form withForm certificationSchema
    (fun data => onSubmit data answer refetch).

Definition handleDelete (id : string) : M State unit :=
  setConfirmDialog {| open := true; certificationId := Some id |}.

Definition confirmDelete (answer : reply unit)
  (refetch : reply (list Certification.t) * reply (list Skill.t)) : M State unit :=
  with_render (fun st =>
    match certificationId (confirmDialog st) with
    | None => ret tt
    | Some id =>
        if negb (Js.truthy id) then ret tt else
        try_catch
          (certificationsService.delete id answer >>
           toast.success "Certification deleted successfully" >>
           loadData refetch)
          (fun error => toast.error "Failed to delete certification")
    end).

End Page.

Definition filteredCertifications (st : State) : list Certification.t :=
  List.filter (fun cert =>
      Js.includes (Js.toLowerCase (Certification.name cert))
                  (Js.toLowerCase (searchQuery st)) ||
      Js.includes (Js.toLowerCase (Certification.issuingOrganization cert))
                  (Js.toLowerCase (searchQuery st)) ||
      match Certification.description cert with
      | Some d => Js.truthy d &&
                  Js.includes (Js.toLowerCase d) (Js.toLowerCase (searchQuery st))
      | None => false
      end)
    (certifications st).

End CertificationsPage.

(* ===================================================================== *)
(** ** [pages/Education.tsx]                                              *)
(* ===================================================================== *)

Module EducationPage.

Record EducationFormData : Type :=
  { year : string; institutionName : string; description : option string }.

Definition educationSchema (v : EducationFormData) : list (string * z.message) :=
  z.field "year" (z.string_min1 "Year is required") (year v) ++
  z.field "institutionName"
    (z.string_min1 "Institution name is required") (institutionName v) ++
  z.field "description" (z.optional z.string_any) (description v).

Record ConfirmDialog : Type := { open : bool; educationId : option string }.

Record State : Type :=
  { education : list Education.t;
    isLoading : bool;
    isModalOpen : bool;
    editingEducation : option Education.t;
    isSubmitting : bool;
    searchQuery : string;
    confirmDialog : ConfirmDialog;
    form : Form.t EducationFormData }.

(** The form has no [defaultValues]; its three inputs are registered,
    so a form nothing was typed into holds the empty string in each. *)
Definition noValues : EducationFormData :=
  {| year := ""; institutionName := ""; description := Some "" |}.

Definition initial : State :=
  {| education := []; isLoading := true; isModalOpen := false;
     editingEducation := None; isSubmitting := false; searchQuery := "";
     confirmDialog := {| open := false; educationId := None |};
     form := Form.init noValues |}.

Definition setEducation (v : list Education.t) : M State unit :=
  modify (fun s => {| education := v; isLoading := isLoading s;
    isModalOpen := isModalOpen s; editingEducation := editingEducation s;
    isSubmitting := isSubmitting s; searchQuery := searchQuery s;
    confirmDialog := confirmDialog s; form := form s |}).
Definition setIsLoading (v : bool) : M State unit :=
  modify (fun s => {| education := education s; isLoading := v;
    isModalOpen := isModalOpen s; editingEducation := editingEducation s;
    isSubmitting := isSubmitting s; searchQuery := searchQuery s;
    confirmDialog := confirmDialog s; form := form s |}).
Definition setIsModalOpen (v : bool) : M State unit :=
  modify (fun s => {| education := education s; isLoading := isLoading s;
    isModalOpen := v; editingEducation := editingEducation s;
    isSubmitting := isSubmitting s; searchQuery := searchQuery s;
    confirmDialog := confirmDialog s; form := form s |}).
Definition setEditingEducation (v : option Education.t) : M State unit :=
  modify (fun s => {| education := education s; isLoading := isLoading s;
    isModalOpen := isModalOpen s; editingEducation := v;
    isSubmitting := isSubmitting s; searchQuery := searchQuery s;
    confirmDialog := confirmDialog s; form := form s |}).
Definition setIsSubmitting (v : bool) : M State unit :=
  modify (fun s => {| education := education s; isLoading := isLoading s;
    isModalOpen := isModalOpen s; editingEducation := editingEducation s;
    isSubmitting := v; searchQuery := searchQuery s;
    confirmDialog := confirmDialog s; form := form s |}).
Definition setSearchQuery (v : string) : M State unit :=
  modify (fun s => {| education := education s; isLoading := isLoading s;
    isModalOpen := isModalOpen s; editingEducation := editingEducation s;
    isSubmitting := isSubmitting s; searchQuery := v;
    confirmDialog := confirmDialog s; form := form s |}).
Definition setConfirmDialog (v : ConfirmDialog) : M State unit :=
  modify (fun s => {| education := education s; isLoading := isLoading s;
    isModalOpen := isModalOpen s; editingEducation := editingEducation s;
    isSubmitting := isSubmitting s; searchQuery := searchQuery s;
    confirmDialog := v; form := form s |}).
Definition withForm (v : Form.t EducationFormData) (s : State) : State :=
  {| education := education s; isLoading := isLoading s;
     isModalOpen := isModalOpen s; editingEducation := editingEducation s;
     isSubmitting := isSubmitting s; searchQuery := searchQuery s;
     confirmDialog := confirmDialog s; form := v |}.
Definition reset : M State unit := modify (fun s => withForm (Form.reset (form s)) s).
Definition setValue (upd : EducationFormData -> EducationFormData) : M State unit :=
  modify (fun s => withForm (Form.setValues upd (form s)) s).

Definition loadEducation (answer : reply (list Education.t)) : M State unit :=
  try_finally
    (try_catch
       (await data := educationService.getAll answer in
        setEducation data)
       (fun error => toast.error "Failed to load education"))
    (setIsLoading false).

Definition handleOpenModal (edu : option Education.t) : M State unit :=
  match edu with
  | Some edu =>
      setEditingEducation (Some edu) >>
      setValue (fun _ =>
        {| year := Education.year edu;
           institutionName := Education.institutionName edu;
           description := Some (Js.or_else (Education.description edu) "") |})
  | None =>
      setEditingEducation None >>
      reset
  end >>
  setIsModalOpen true.

Definition handleCloseModal : M State unit :=
  setIsModalOpen false >>
  setEditingEducation None >>
  reset.

(** The validated values are the body of the call. *)
Definition payload (data : EducationFormData) : EducationCreateData.t :=
  {| EducationCreateData.year := year data;
     EducationCreateData.institutionName := institutionName data;
     EducationCreateData.description := description data |}.

Definition onSubmit (data : EducationFormData) (answer : reply Education.t)
  (refetch : reply (list Education.t)) : M State unit :=
  with_render (fun st =>
    setIsSubmitting true >>
    try_finally
      (try_catch
         (match editingEducation st with
          | Some edu =>
              educationService.update (Education.id edu) (payload data) answer >>
              toast.success "Education updated successfully"
          | None =>
              educationService.create (payload data) answer >>
              toast.success "Education created successfully"
          end >>
          loadEducation refetch >>
          handleCloseModal)
         (fun error => toast.error (message error)))
      (setIsSubmitting false)).

Definition submit (answer : reply Education.t) (refetch : reply (list Education.t))
  : M State unit :=
  handleSubmit form withForm educationSchema (fun data => onSubmit data answer refetch).

Definition handleDelete (id : string) : M State unit :=
  setConfirmDialog {| open := true; educationId := Some id |}.

Definition confirmDelete (answer : reply unit) (refetch : reply (list Education.t))
  : M State unit :=
  with_render (fun st =>
    match educationId (confirmDialog st) with
    | None => ret tt
    | Some id =>
        if negb (Js.truthy id) then ret tt else
        try_catch
          (educationService.delete id answer >>
           toast.success "Education deleted successfully" >>
           loadEducation refetch)
          (fun error => toast.error "Failed to delete education")
    end).

Definition filteredEducation (st : State) : list Education.t :=
  List.filter (fun edu =>
      Js.includes (Js.toLowerCase (Education.institutionName edu))
                  (Js.toLowerCase (searchQuery st)) ||
      match Education.description edu with
      | Some d => Js.truthy d &&
                  Js.includes (Js.toLowerCase d) (Js.toLowerCase (searchQuery st))
      | None => false
      end)
    (education st).

End EducationPage.

(* ===================================================================== *)
(** ** [pages/Projects.tsx]                                               *)
(* ===================================================================== *)

Module Projects.

Record ProjectFormData : Type :=
  { title : string; slug : string; description : string; content : string;
    coverImage : option (list File.t); contentImages : option (list File.t);
    publishedAt : option string; published : option bool;
    skillIds : option (list string) }.

(** A code unit of the class [[a-z0-9-]]. *)
Definition slug_char (c : ascii) : bool :=
  let n := nat_of_ascii c in
  ((97 <=? n) && (n <=? 122) || (48 <=? n) && (n <=? 57) || (n =? 45))%nat.

Fixpoint all_chars (p : ascii -> bool) (s : string) : bool :=
  match s with
  | EmptyString => true
  | String c r => p c && all_chars p r
  end.

(** [z.string().min(1, 'Slug is required').regex(/^[a-z0-9-]+$/, ...)]. *)
Definition slugSchema : z.schema string :=
  fun s =>
    if negb (Js.truthy s) then Some (z.Custom "Slug is required")
    else if all_chars slug_char s then None
    else Some (z.Custom "Slug must be lowercase with hyphens only").

Definition projectSchema (v : ProjectFormData) : list (string * z.message) :=
  z.field "title" (z.string_min1 "Title is required") (title v) ++
  z.field "slug" slugSchema (slug v) ++
  z.field "description" (z.string_min1 "Description is required") (description v) ++
  z.field "content" (z.string_min1 "Content is required") (content v).

Record ConfirmDialog : Type := { open : bool; projectId : option string }.

Record State : Type :=
  { projects : list Project.t;
    skills : list Skill.t;
    isLoading : bool;
    isModalOpen : bool;
    editingProject : option Project.t;
    isSubmitting : bool;
    coverPreview : option string;
    previewImages : list string;
    previewFiles : list File.t;
    searchQuery : string;
    confirmDialog : ConfirmDialog;
    form : Form.t ProjectFormData }.

(** The [defaultValues] of [useForm] name [content] and [skillIds]. *)
Definition defaultValues : ProjectFormData :=
  {| title := ""; slug := ""; description := ""; content := "";
     coverImage := None; contentImages := None; publishedAt := None;
     published := None; skillIds := Some [] |}.

Definition initial : State :=
  {| projects := []; skills := []; isLoading := true; isModalOpen := false;
     editingProject := None; isSubmitting := false; coverPreview := None;
     previewImages := []; previewFiles := []; searchQuery := "";
     confirmDialog := {| open := false; projectId := None |};
     form := Form.init defaultValues |}.

Definition setProjects (v : list Project.t) : M State unit :=
  modify (fun s => {| projects := v; skills := skills s; isLoading := isLoading s;
    isModalOpen := isModalOpen s; editingProject := editingProject s;
    isSubmitting := isSubmitting s; coverPreview := coverPreview s;
    previewImages := previewImages s; previewFiles := previewFiles s;
    searchQuery := searchQuery s; confirmDialog := confirmDialog s; form := form s |}).
Definition setSkills (v : list Skill.t) : M State unit :=
  modify (fun s => {| projects := projects s; skills := v; isLoading := isLoading s;
    isModalOpen := isModalOpen s; editingProject := editingProject s;
    isSubmitting := isSubmitting s; coverPreview := coverPreview s;
    previewImages := previewImages s; previewFiles := previewFiles s;
    searchQuery := searchQuery s; confirmDialog := confirmDialog s; form := form s |}).
Definition setIsLoading (v : bool) : M State unit :=
  modify (fun s => {| projects := projects s; skills := skills s; isLoading := v;
    isModalOpen := isModalOpen s; editingProject := editingProject s;
    isSubmitting := isSubmitting s; coverPreview := coverPreview s;
    previewImages := previewImages s; previewFiles := previewFiles s;
    searchQuery := searchQuery s; confirmDialog := confirmDialog s; form := form s |}).
Definition setIsModalOpen (v : bool) : M State unit :=
  modify (fun s => {| projects := projects s; skills := skills s;
    isLoading := isLoading s;
    isModalOpen := v; editingProject := editingProject s;
    isSubmitting := isSubmitting s; coverPreview := coverPreview s;
    previewImages := previewImages s; previewFiles := previewFiles s;
    searchQuery := searchQuery s; confirmDialog := confirmDialog s; form := form s |}).
Definition setEditingProject (v : option Project.t) : M State unit :=
  modify (fun s => {| projects := projects s; skills := skills s;
    isLoading := isLoading s;
    isModalOpen := isModalOpen s; editingProject := v;
    isSubmitting := isSubmitting s; coverPreview := coverPreview s;
    previewImages := previewImages s; previewFiles := previewFiles s;
    searchQuery := searchQuery s; confirmDialog := confirmDialog s; form := form s |}).
Definition setIsSubmitting (v : bool) : M State unit :=
  modify (fun s => {| projects := projects s; skills := skills s;
    isLoading := isLoading s;
    isModalOpen := isModalOpen s; editingProject := editingProject s;
    isSubmitting := v; coverPreview := coverPreview s;
    previewImages := previewImages s; previewFiles := previewFiles s;
    searchQuery := searchQuery s; confirmDialog := confirmDialog s; form := form s |}).
Definition setCoverPreview (v : option string) : M State unit :=
  modify (fun s => {| projects := projects s; skills := skills s;
    isLoading := isLoading s;
    isModalOpen := isModalOpen s; editingProject := editingProject s;
    isSubmitting := isSubmitting s; coverPreview := v;
    previewImages := previewImages s; previewFiles := previewFiles s;
    searchQuery := searchQuery s; confirmDialog := confirmDialog s; form := form s |}).
(** [setPreviewImages(prev => f(prev))] and [setPreviewFiles(prev => f(prev))]. *)
Definition setPreviewImages (f : list string -> list string) : M State unit :=
  modify (fun s => {| projects := projects s; skills := skills s;
    isLoading := isLoading s;
    isModalOpen := isModalOpen s; editingProject := editingProject s;
    isSubmitting := isSubmitting s; coverPreview := coverPreview s;
    previewImages := f (previewImages s); previewFiles := previewFiles s;
    searchQuery := searchQuery s; confirmDialog := confirmDialog s; form := form s |}).
Definition setPreviewFiles (f : list File.t -> list File.t) : M State unit :=
  modify (fun s => {| projects := projects s; skills := skills s;
    isLoading := isLoading s;
    isModalOpen := isModalOpen s; editingProject := editingProject s;
    isSubmitting := isSubmitting s; coverPreview := coverPreview s;
    previewImages := previewImages s; previewFiles := f (previewFiles s);
    searchQuery := searchQuery s; confirmDialog := confirmDialog s; form := form s |}).
Definition setConfirmDialog (v : ConfirmDialog) : M State unit :=
  modify (fun s => {| projects := projects s; skills := skills s;
    isLoading := isLoading s;
    isModalOpen := isModalOpen s; editingProject := editingProject s;
    isSubmitting := isSubmitting s; coverPreview := coverPreview s;
    previewImages := previewImages s; previewFiles := previewFiles s;
    searchQuery := searchQuery s; confirmDialog := v; form := form s |}).
Definition withForm (v : Form.t ProjectFormData) (s : State) : State :=
  {| projects := projects s; skills := skills s;
     isLoading := isLoading s;
     isModalOpen := isModalOpen s; editingProject := editingProject s;
     isSubmitting := isSubmitting s; coverPreview := coverPreview s;
     previewImages := previewImages s; previewFiles := previewFiles s;
     searchQuery := searchQuery s; confirmDialog := confirmDialog s; form := v |}.
Definition reset : M State unit := modify (fun s => withForm (Form.reset (form s)) s).

Section Page.

Variable imageCompression : File.t -> CompressionOptions.t -> outcome File.t.
Variable Date_now : Z.
(** [new Date().toISOString()] and [JSON.stringify] on a list of
    image references. *)
Variable now_iso : string.
Variable JSON_stringify : list string -> string.

Definition loadData (answers : reply (list Project.t) * reply (list Skill.t))
  : M State unit :=
  try_finally
    (try_catch
       (await both := promise_all2 (projectsService.getAll answers.1)
                                   (skillsService.getAll answers.2) in
        setProjects both.1 >>
        setSkills both.2)
       (fun error => toast.error "Failed to load data"))
    (setIsLoading false).

Definition handleCloseModal : M State unit :=
  setIsModalOpen false >>
  setEditingProject None >>
  reset >>
  setCoverPreview None >>
  setPreviewImages (fun _ => []) >>
  setPreviewFiles (fun _ => []).

(** [for (const file of previewFiles) { ... formData.append('contentImages', ...) }]. *)
Fixpoint appendContentImages (files : list File.t) (formData : FormData)
  : M State FormData :=
  match files with
  | [] => ret formData
  | file :: rest =>
      await compressedFile :=
        compressImage imageCompression Date_now file no_options in
      appendContentImages rest (append formData "contentImages" (Blob compressedFile))
  end.

Definition onSubmit (data : ProjectFormData) (answer : reply Project.t)
  (refetch : reply (list Project.t) * reply (list Skill.t)) : M State unit :=
  with_render (fun st =>
    setIsSubmitting true >>
    try_finally
      (try_catch
         (let formData := append [] "title" (Text (title data)) in
          let formData := append formData "slug" (Text (slug data)) in
          let formData := append formData "description" (Text (description data)) in
          let formData := append formData "content" (Text (content data)) in
          let isPublished := match published data with Some b => b | None => false end in
          let formData :=
            append formData "published" (Text (if isPublished then "true" else "false")) in
          let formData :=
            if isPublished then append formData "publishedAt" (Text now_iso)
            else formData in
          let formData :=
            match skillIds data with
            | Some ids =>
                fold_left (fun fd skillId => append fd "skillIds[]" (Text skillId))
                          ids formData
            | None => formData
            end in
          await formData :=
            match coverImage data with
            | Some (cover0 :: _) =>
                await compressedCover :=
                  compressImage imageCompression Date_now cover0 no_options in
                ret (append formData "coverImage" (Blob compressedCover))
            | _ => ret formData
            end in
          let formData :=
            match editingProject st with
            | Some p =>
                let existingImageCount := length (Project.contentImages p) in
                let existingImagesToKeep := take existingImageCount (previewImages st) in
                append formData "existingContentImages"
                       (Text (JSON_stringify existingImagesToKeep))
            | None => formData
            end in
          await formData := appendContentImages (previewFiles st) formData in
          match editingProject st with
          | Some p =>
              projectsService.update (Project.id p) formData answer >>
              toast.success "Project updated successfully"
          | None =>
              projectsService.create formData answer >>
              toast.success "Project created successfully"
          end >>
          loadData refetch >>
          handleCloseModal)
         (fun error => toast.error (message error)))
      (setIsSubmitting false)).

Definition submit (answer : reply Project.t)
  (refetch : reply (list Project.t) * reply (list Skill.t)) : M State unit :=
  handleSubmit form withForm projectSchema (fun data => onSubmit data answer refetch).

Definition handleRemovePreviewImage (index : nat) : M State unit :=
  with_render (fun st =>
    let existingImageCount :=
      match editingProject st with
      | Some p => length (Project.contentImages p)
      | None => 0
      end in
    if (index <? existingImageCount)%nat
    then setPreviewImages (Js.remove_at index)
    else
      let newFileIndex := (index - existingImageCount)%nat in
      setPreviewImages (Js.remove_at index) >>
      setPreviewFiles (Js.remove_at newFileIndex)).

End Page.

End Projects.

(* ===================================================================== *)
(** ** [pages/UserDetails.tsx]                                            *)
(* ===================================================================== *)

Module UserDetailsPage.

Record UserDetailsFormData : Type :=
  { name : string; role : string; description : option string;
    profilePhoto : option (list File.t) }.

Definition userDetailsSchema (v : UserDetailsFormData) : list (string * z.message) :=
  z.field "name" (z.string_min1 "Name is required") (name v) ++
  z.field "role" (z.string_min1 "Role is required") (role v) ++
  z.field "description" (z.optional z.string_any) (description v).

Record State : Type :=
  { userDetails : option UserDetails.t;
    isLoading : bool;
    isSubmitting : bool;
    photoPreview : option string;
    socialMedias : list string;
    newSocialMediaIcon : string;
    newSocialMediaUrl : string;
    form : Form.t UserDetailsFormData }.

Definition noValues : UserDetailsFormData :=
  {| name := ""; role := ""; description := None; profilePhoto := None |}.

Definition initial : State :=
  {| userDetails := None; isLoading := true; isSubmitting := false;
     photoPreview := None; socialMedias := []; newSocialMediaIcon := "";
     newSocialMediaUrl := ""; form := Form.init noValues |}.

Definition setUserDetails (v : option UserDetails.t) : M State unit :=
  modify (fun s => {| userDetails := v; isLoading := isLoading s;
    isSubmitting := isSubmitting s; photoPreview := photoPreview s;
    socialMedias := socialMedias s; newSocialMediaIcon := newSocialMediaIcon s;
    newSocialMediaUrl := newSocialMediaUrl s; form := form s |}).
Definition setIsLoading (v : bool) : M State unit :=
  modify (fun s => {| userDetails := userDetails s; isLoading := v;
    isSubmitting := isSubmitting s; photoPreview := photoPreview s;
    socialMedias := socialMedias s; newSocialMediaIcon := newSocialMediaIcon s;
    newSocialMediaUrl := newSocialMediaUrl s; form := form s |}).
Definition setIsSubmitting (v : bool) : M State unit :=
  modify (fun s => {| userDetails := userDetails s; isLoading := isLoading s;
    isSubmitting := v; photoPreview := photoPreview s;
    socialMedias := socialMedias s; newSocialMediaIcon := newSocialMediaIcon s;
    newSocialMediaUrl := newSocialMediaUrl s; form := form s |}).
Definition setPhotoPreview (v : option string) : M State unit :=
  modify (fun s => {| userDetails := userDetails s; isLoading := isLoading s;
    isSubmitting := isSubmitting s; photoPreview := v;
    socialMedias := socialMedias s; newSocialMediaIcon := newSocialMediaIcon s;
    newSocialMediaUrl := newSocialMediaUrl s; form := form s |}).
Definition setSocialMedias (v : list string) : M State unit :=
  modify (fun s => {| userDetails := userDetails s; isLoading := isLoading s;
    isSubmitting := isSubmitting s; photoPreview := photoPreview s;
    socialMedias := v; newSocialMediaIcon := newSocialMediaIcon s;
    newSocialMediaUrl := newSocialMediaUrl s; form := form s |}).
Definition setNewSocialMediaIcon (v : string) : M State unit :=
  modify (fun s => {| userDetails := userDetails s; isLoading := isLoading s;
    isSubmitting := isSubmitting s; photoPreview := photoPreview s;
    socialMedias := socialMedias s; newSocialMediaIcon := v;
    newSocialMediaUrl := newSocialMediaUrl s; form := form s |}).
Definition setNewSocialMediaUrl (v : string) : M State unit :=
  modify (fun s => {| userDetails := userDetails s; isLoading := isLoading s;
    isSubmitting := isSubmitting s; photoPreview := photoPreview s;
    socialMedias := socialMedias s; newSocialMediaIcon := newSocialMediaIcon s;
    newSocialMediaUrl := v; form := form s |}).
Definition withForm (v : Form.t UserDetailsFormData) (s : State) : State :=
  {| userDetails := userDetails s; isLoading := isLoading s;
     isSubmitting := isSubmitting s; photoPreview := photoPreview s;
     socialMedias := socialMedias s; newSocialMediaIcon := newSocialMediaIcon s;
     newSocialMediaUrl := newSocialMediaUrl s; form := v |}.
Definition setValue (upd : UserDetailsFormData -> UserDetailsFormData) : M State unit :=
  modify (fun s => withForm (Form.setValues upd (form s)) s).

Section Page.

Variable imageCompression : File.t -> CompressionOptions.t -> outcome File.t.
Variable Date_now : Z.

Definition loadUserDetails (answer : reply UserDetails.t) : M State unit :=
  try_finally
    (try_catch
       (await data := userDetailsService.get answer in
        match data with
        | Some data =>
            setUserDetails (Some data) >>
            setValue (fun v =>
              {| name := UserDetails.name data; role := UserDetails.role data;
                 description := Some (Js.or_else (UserDetails.description data) "");
                 profilePhoto := profilePhoto v |}) >>
            setSocialMedias (match UserDetails.socialMedias data with
                             | Some l => l
                             | None => []
                             end) >>
            setPhotoPreview (UserDetails.profilePhoto data)
        | None => ret tt
        end)
       (fun error => toast.error "Failed to load user details"))
    (setIsLoading false).

Definition onSubmit (data : UserDetailsFormData) (answer : reply UserDetails.t)
  (refetch : reply UserDetails.t) : M State unit :=
  with_render (fun st =>
    setIsSubmitting true >>
    try_finally
      (try_catch
         (let formData := append [] "name" (Text (name data)) in
          let formData := append formData "role" (Text (role data)) in
          let formData :=
            match description data with
            | Some d => if Js.truthy d then append formData "description" (Text d)
                        else formData
            | None => formData
            end in
          let formData :=
            fold_left (fun fd link => append fd "socialMedias" (Text link))
                      (socialMedias st) formData in
          await formData :=
            match profilePhoto data with
            | Some (photo0 :: _) =>
                await compressedPhoto :=
                  compressImage imageCompression Date_now photo0 no_options in
                ret (append formData "profilePhoto" (Blob compressedPhoto))
            | _ => ret formData
            end in
          match userDetails st with
          | Some _ =>
              userDetailsService.update formData answer >>
              toast.success "User details updated successfully"
          | None =>
              userDetailsService.create formData answer >>
              toast.success "User details created successfully"
          end >>
          loadUserDetails refetch)
         (fun error => toast.error (message error)))
      (setIsSubmitting false)).

Definition submit (answer refetch : reply UserDetails.t) : M State unit :=
  handleSubmit form withForm userDetailsSchema
    (fun data => onSubmit data answer refetch).

End Page.

Definition handleAddSocialMedia : M State unit :=
  with_render (fun st =>
    if Js.truthy (Js.trim (newSocialMediaIcon st)) &&
       Js.truthy (Js.trim (newSocialMediaUrl st))
    then
      let formattedLink :=
        Js.trim (newSocialMediaIcon st) +:+ "|" +:+ Js.trim (newSocialMediaUrl st) in
      setSocialMedias (socialMedias st ++ [formattedLink]) >>
      setNewSocialMediaIcon "" >>
      setNewSocialMediaUrl ""
    else ret tt).

Definition handleRemoveSocialMedia (index : nat) : M State unit :=
  with_render (fun st => setSocialMedias (Js.remove_at index (socialMedias st))).

(** What the user and the server can do to the page, one step at a time:
    type into the two inputs, press "Add", press a remove button, submit
    the form; [Mount] is the load of the first render. *)
Inductive action : Type :=
| Mount (answer : reply UserDetails.t)
| TypeIcon (value : string)
| TypeUrl (value : string)
| Add
| Remove (index : nat)
| Submit (answer refetch : reply UserDetails.t).

Section Steps.

Variable imageCompression : File.t -> CompressionOptions.t -> outcome File.t.
Variable Date_now : Z.

Definition handler (a : action) : M State unit :=
  match a with
  | Mount answer => loadUserDetails answer
  | TypeIcon v => setNewSocialMediaIcon v
  | TypeUrl v => setNewSocialMediaUrl v
  | Add => handleAddSocialMedia
  | Remove i => handleRemoveSocialMedia i
  | Submit answer refetch => submit imageCompression Date_now answer refetch
  end.

Definition step (st : State) (a : action) : State := final (handler a st).

Definition run (actions : list action) : State := fold_left step actions initial.

End Steps.

(** The number of ['|'] in a string. *)
Fixpoint separators (s : string) : nat :=
  match s with
  | EmptyString => 0
  | String c r => (if Ascii.eqb c "|" then 1 else 0) + separators r
  end.

End UserDetailsPage.

(* ===================================================================== *)
(** ** Reading a trace                                                    *)
(* ===================================================================== *)

(** The requests of a trace, and its notifications, in order. *)
Definition requests (tr : list event) : list request :=
  flat_map (fun e => match e with Request r => [r] | _ => [] end) tr.

Definition notifications (tr : list event) : list event :=
  List.filter (fun e => match e with
                        | ToastSuccess _ | ToastError _ => true
                        | _ => false
                        end) tr.

(** A create or update call. *)
Definition is_mutation (r : request) : bool :=
  match r with
  | POST _ _ | PUT _ _ => true
  | _ => false
  end.

(** Whether the call of a method that returns the data of the envelope
    succeeds on this answer of the transport. *)
Definition fulfilled {T} (answer : reply T) : bool :=
  match answer with
  | Responded response =>
      ApiResponse.success response && Js.present (ApiResponse.data response)
  | Rejected _ => false
  end.

(** The message the answer itself carries: the one of the rejection, or
    the non-empty [error] of the envelope. *)
Definition carried_message {T} (answer : reply T) : option string :=
  match answer with
  | Responded response =>
      match ApiResponse.error response with
      | Some s => if Js.truthy s then Some s else None
      | None => None
      end
  | Rejected e => Some (message e)
  end.

(* ===================================================================== *)
(** ** The workflow the list pages share                                  *)
(* ===================================================================== *)

(** The five pages with a list and a modal form are copies of one
    controller; [Workflow] names the parts of a page the statements
    about all of them read. *)
Record Workflow : Type :=
  { wf_State : Type;
    wf_Values : Type;
    wf_Entity : Type;
    (** the answers to the list calls of one load *)
    wf_Lists : Type;
    wf_initial : wf_State;
    wf_load : wf_Lists -> M wf_State unit;
    wf_onSubmit : wf_Values -> reply wf_Entity -> wf_Lists -> M wf_State unit;
    wf_collection : wf_State -> list wf_Entity;
    wf_isLoading : wf_State -> bool;
    wf_isModalOpen : wf_State -> bool;
    wf_isSubmitting : wf_State -> bool;
    wf_form : wf_State -> Form.t wf_Values;
    (** every list call of the load succeeds *)
    wf_lists_fulfilled : wf_Lists -> bool;
    (** the list calls of one load *)
    wf_list_requests : list request }.

Inductive page : Type :=
| OnSkills
| OnExperience
| OnEducation
| OnCertifications
| OnProjects.

Section Workflows.

Variable imageCompression : File.t -> CompressionOptions.t -> outcome File.t.
Variable Date_now : Z.
Variable now_iso : string.
Variable JSON_stringify : list string -> string.

Definition workflow (p : page) : Workflow :=
  match p with
  | OnSkills =>
      {| wf_initial := Skills.initial;
         wf_load := Skills.loadSkills;
         wf_onSubmit := Skills.onSubmit imageCompression Date_now;
         wf_collection := Skills.skills;
         wf_isLoading := Skills.isLoading;
         wf_isModalOpen := Skills.isModalOpen;
         wf_isSubmitting := Skills.isSubmitting;
         wf_form := Skills.form;
         wf_lists_fulfilled := fulfilled;
         wf_list_requests := [GET "/skills"] |}
  | OnExperience =>
      {| wf_initial := ExperiencePage.initial;
         wf_load := ExperiencePage.loadData;
         wf_onSubmit := ExperiencePage.onSubmit;
         wf_collection := ExperiencePage.experiences;
         wf_isLoading := ExperiencePage.isLoading;
         wf_isModalOpen := ExperiencePage.isModalOpen;
         wf_isSubmitting := ExperiencePage.isSubmitting;
         wf_form := ExperiencePage.form;
         wf_lists_fulfilled := fun answers => fulfilled answers.1 && fulfilled answers.2;
         wf_list_requests := [GET "/experience"; GET "/skills"] |}
  | OnEducation =>
      {| wf_initial := EducationPage.initial;
         wf_load := EducationPage.loadEducation;
         wf_onSubmit := EducationPage.onSubmit;
         wf_collection := EducationPage.education;
         wf_isLoading := EducationPage.isLoading;
         wf_isModalOpen := EducationPage.isModalOpen;
         wf_isSubmitting := EducationPage.isSubmitting;
         wf_form := EducationPage.form;
         wf_lists_fulfilled := fulfilled;
         wf_list_requests := [GET "/education"] |}
  | OnCertifications =>
      {| wf_initial := CertificationsPage.initial;
         wf_load := CertificationsPage.loadData;
         wf_onSubmit := CertificationsPage.onSubmit;
         wf_collection := CertificationsPage.certifications;
         wf_isLoading := CertificationsPage.isLoading;
         wf_isModalOpen := CertificationsPage.isModalOpen;
         wf_isSubmitting := CertificationsPage.isSubmitting;
         wf_form := CertificationsPage.form;
         wf_lists_fulfilled := fun answers => fulfilled answers.1 && fulfilled answers.2;
         wf_list_requests := [GET "/certifications"; GET "/skills"] |}
  | OnProjects =>
      {| wf_initial := Projects.initial;
         wf_load := Projects.loadData;
         wf_onSubmit := Projects.onSubmit imageCompression Date_now now_iso JSON_stringify;
         wf_collection := Projects.projects;
         wf_isLoading := Projects.isLoading;
         wf_isModalOpen := Projects.isModalOpen;
         wf_isSubmitting := Projects.isSubmitting;
         wf_form := Projects.form;
         wf_lists_fulfilled := fun answers => fulfilled answers.1 && fulfilled answers.2;
         wf_list_requests := [GET "/projects"; GET "/skills"] |}
  end.

End Workflows.

(** The state [Idle] of the controller: loaded, no modal, no call running. *)
Definition Idle (w : Workflow) (st : wf_State w) : Prop :=
  wf_isLoading w st = false /\ wf_isModalOpen w st = false /\
  wf_isSubmitting w st = false.

(** On the skills page a submission without an icon file in create mode
    stops before the call; every other submission reaches it. *)
Definition skill_icon_missing (st : Skills.State) (data : Skills.SkillFormData) : bool :=
  match Skills.icon data, Skills.editingSkill st with
  | Some (_ :: _), _ => false
  | _, Some _ => false
  | _, None => true
  end.

(** The body a request carries. *)
Definition body_of (r : request) : option body :=
  match r with
  | POST _ b | PUT _ b => Some b
  | GET _ | DELETE _ => None
  end.

(* ===================================================================== *)
(** ** The search filter, as the specification words it                   *)
(* ===================================================================== *)

(** [q] is a substring of [s]. *)
Definition substring (q s : string) : Prop :=
  exists pre post, s = pre +:+ q +:+ post.

(** The lowercased query is a substring of the lowercase of one of the
    fields. *)
Definition documented_match (query : string) (fields : list string) : Prop :=
  exists f, In f fields /\ substring (Js.toLowerCase query) (Js.toLowerCase f).

(** The documented fields of each entity; a [null] description is no
    field. *)
Definition experience_fields (e : Experience.t) : list string :=
  [Experience.companyName e; Experience.location e] ++
  match Experience.description e with Some d => [d] | None => [] end.

Definition certification_fields (c : Certification.t) : list string :=
  [Certification.name c; Certification.issuingOrganization c] ++
  match Certification.description c with Some d => [d] | None => [] end.

Definition skill_fields (k : Skill.t) : list string := [Skill.name k].

(* ===================================================================== *)
(** ** The social-media entries, as the specification words them          *)
(* ===================================================================== *)

(** An entry ["icon|url"] holds exactly one separator. *)
Definition well_formed_entry (entry : string) : Prop :=
  UserDetailsPage.separators entry = 1.

(** The entries the server sends in an answer are well formed. *)
Definition served_well (answer : reply UserDetails.t) : Prop :=
  match answer with
  | Responded response =>
      match ApiResponse.data response with
      | Some d =>
          match UserDetails.socialMedias d with
          | Some l => Forall well_formed_entry l
          | None => True
          end
      | None => True
      end
  | Rejected _ => True
  end.

(** An action that brings no stray separator: what is typed into the
    two inputs holds none, what the server sends is well formed. *)
Definition benign (a : UserDetailsPage.action) : Prop :=
  match a with
  | UserDetailsPage.Mount answer => served_well answer
  | UserDetailsPage.TypeIcon v | UserDetailsPage.TypeUrl v =>
      UserDetailsPage.separators v = 0
  | UserDetailsPage.Add | UserDetailsPage.Remove _ => True
  | UserDetailsPage.Submit _ refetch => served_well refetch
  end.

(* ===================================================================== *)
(** ** Statements about the services and the handlers                     *)
(* ===================================================================== *)

(** The claim as the specification words it, at one operation and one
    envelope: a refused envelope makes the operation fail with the
    error string of the envelope, or with the fallback of the operation. *)
Definition fails_uniformly (o : operation) (response : ApiResponse.t (carried o)) : Prop :=
  ApiResponse.success response = false \/ ApiResponse.data response = None ->
  exists msg,
    failure o response = Some (Error msg) /\
    match ApiResponse.error response with
    | Some s => msg = s
    | None => Some msg = fallback o
    end.

Section Outcomes.

Variable imageCompression : File.t -> CompressionOptions.t -> outcome File.t.
Variable Date_now : Z.
Variable now_iso : string.
Variable JSON_stringify : list string -> string.

Abbreviation workflow := (workflow imageCompression Date_now now_iso JSON_stringify).

(** The submissions a handler does not stop before its call: on the
    skills page those with an icon file or an edited skill, on the other
    pages all of them. *)
Definition proceeds (p : page) : wf_State (workflow p) -> wf_Values (workflow p) -> bool :=
  match p return wf_State (workflow p) -> wf_Values (workflow p) -> bool with
  | OnSkills => fun st data => negb (skill_icon_missing st data)
  | _ => fun _ _ => true
  end.

(** What a submission that reaches its create or update call leaves
    behind, by the answer to that call. *)
Definition submit_succeeded (p : page) (st : wf_State (workflow p))
  (r : outcome unit * wf_State (workflow p) * list event) : Prop :=
  exists before m msg after,
    trace r = before ++ Request m :: ToastSuccess msg :: after /\
    is_mutation m = true /\
    requests before = [] /\ notifications before = [] /\
    requests after = wf_list_requests (workflow p) /\
    wf_isModalOpen (workflow p) (final r) = false /\
    wf_isSubmitting (workflow p) (final r) = false.

Definition submit_failed (p : page) (st : wf_State (workflow p))
  (answer : reply (wf_Entity (workflow p)))
  (r : outcome unit * wf_State (workflow p) * list event) : Prop :=
  exists before m msg,
    trace r = before ++ [Request m; ToastError msg] /\
    is_mutation m = true /\
    requests before = [] /\ notifications before = [] /\
    (forall s, carried_message answer = Some s -> msg = s) /\
    wf_isModalOpen (workflow p) (final r) = wf_isModalOpen (workflow p) st /\
    wf_form (workflow p) (final r) = wf_form (workflow p) st /\
    wf_collection (workflow p) (final r) = wf_collection (workflow p) st /\
    wf_isSubmitting (workflow p) (final r) = false.

End Outcomes.

(** The invariant of the benign runs: the entries are well formed and
    the two pending inputs hold no separator. *)
Definition tidy (st : UserDetailsPage.State) : Prop :=
  Forall well_formed_entry (UserDetailsPage.socialMedias st) /\
  UserDetailsPage.separators (UserDetailsPage.newSocialMediaIcon st) = 0 /\
  UserDetailsPage.separators (UserDetailsPage.newSocialMediaUrl st) = 0.

(* ===================================================================== *)
(** ** Sample data for the examples                                       *)
(* ===================================================================== *)

Module Sample.

(** A transform that keeps the file, one that always rejects. *)
Definition keep (f : File.t) (o : CompressionOptions.t) : outcome File.t := Return f.
Definition broken (f : File.t) (o : CompressionOptions.t) : outcome File.t :=
  Throw (Error "not an image").

Definition stringify (l : list string) : string := String.concat "," l.

Definition isUrl (s : string) : bool := Js.startsWith s "https://".

Definition offline {T} : reply T := Rejected (AxiosError "Network Error").

Definition experienceValues : ExperiencePage.ExperienceFormData :=
  {| ExperiencePage.startYear := Js.Num 2021;
     ExperiencePage.endYear := Some (Js.Num 2023);
     ExperiencePage.companyName := "Tech Corp";
     ExperiencePage.description := Some "";
     ExperiencePage.location := "Jakarta";
     ExperiencePage.skillIds := Some [] |}.

(** The experience modal, open for a new entry, "currently working
    here" ticked while the end-year field still holds 2023. *)
Definition experienceModal : ExperiencePage.State :=
  {| ExperiencePage.experiences := []; ExperiencePage.skills := [];
     ExperiencePage.isLoading := false; ExperiencePage.isModalOpen := true;
     ExperiencePage.editingExperience := None; ExperiencePage.isSubmitting := false;
     ExperiencePage.isCurrentJob := true; ExperiencePage.searchQuery := "";
     ExperiencePage.confirmDialog :=
       {| ExperiencePage.open := false; ExperiencePage.experienceId := None |};
     ExperiencePage.form := Form.init experienceValues |}.

(** The skills modal, open for a new skill, a name typed, no file. *)
Definition skillValues : Skills.SkillFormData :=
  {| Skills.name := "Go"; Skills.icon := None |}.

Definition skillModal : Skills.State :=
  {| Skills.skills := []; Skills.isLoading := false; Skills.isModalOpen := true;
     Skills.editingSkill := None; Skills.isSubmitting := false;
     Skills.iconPreview := None; Skills.searchQuery := "";
     Skills.confirmDialog := {| Skills.open := false; Skills.skillId := None |};
     Skills.form := Form.init skillValues |}.

(** The certification modal with a link that is no URL. *)
Definition certificationValues : CertificationsPage.CertificationFormData :=
  {| CertificationsPage.name := "CKA";
     CertificationsPage.issuingOrganization := "CNCF";
     CertificationsPage.year := Js.Num 2024;
     CertificationsPage.description := Some "";
     CertificationsPage.certificateLink := Some "not a link";
     CertificationsPage.skillIds := Some [] |}.

Definition certificationModal : CertificationsPage.State :=
  {| CertificationsPage.certifications := []; CertificationsPage.skills := [];
     CertificationsPage.isLoading := false; CertificationsPage.isModalOpen := true;
     CertificationsPage.editingCertification := None;
     CertificationsPage.isSubmitting := false; CertificationsPage.searchQuery := "";
     CertificationsPage.confirmDialog :=
       {| CertificationsPage.open := false; CertificationsPage.certificationId := None |};
     CertificationsPage.form := Form.init certificationValues |}.

(** A session on the user-details page: the load fails, one link is
    typed and added. *)
Definition socialSession : list UserDetailsPage.action :=
  [UserDetailsPage.Mount offline;
   UserDetailsPage.TypeIcon " github-logo";
   UserDetailsPage.TypeUrl "https://github.com/me";
   UserDetailsPage.Add].

(** The same with an icon name that holds the separator. *)
Definition straySession : list UserDetailsPage.action :=
  [UserDetailsPage.TypeIcon "git|hub-logo";
   UserDetailsPage.TypeUrl "https://github.com/me";
   UserDetailsPage.Add].

End Sample.

(* ===================================================================== *)
(** ** More of [pages/Projects.tsx]                                       *)
(* ===================================================================== *)

Module ProjectsPage.

(** A code unit of the class [[a-z0-9]]. *)
Definition alnum_char (c : ascii) : bool :=
  let n := nat_of_ascii c in
  ((97 <=? n) && (n <=? 122) || (48 <=? n) && (n <=? 57))%nat.

(** [s.replace(/[^a-z0-9]+/g, '-')]: every maximal run of other code
    units becomes one hyphen; [inRun] tells that the run has begun. *)
Fixpoint replaceRuns (inRun : bool) (s : string) : string :=
  match s with
  | EmptyString => EmptyString
  | String c r =>
      if alnum_char c then String c (replaceRuns false r)
      else if inRun then replaceRuns true r
      else String "-" (replaceRuns true r)
  end.

(** [s.replace(/(^-|-$)/g, '')]: a hyphen at the start goes, then a
    hyphen at the end of what is left. *)
Definition dropLeadingHyphen (s : string) : string :=
  match s with
  | String c r => if Ascii.eqb c "-" then r else s
  | EmptyString => EmptyString
  end.

Fixpoint dropTrailingHyphen (s : string) : string :=
  match s with
  | EmptyString => EmptyString
  | String c EmptyString => if Ascii.eqb c "-" then EmptyString else s
  | String c r => String c (dropTrailingHyphen r)
  end.

(** The slug the title effect computes. *)
Definition deriveSlug (titleValue : string) : string :=
  dropTrailingHyphen (dropLeadingHyphen (replaceRuns false (Js.toLowerCase titleValue))).

Definition setValue (upd : Projects.ProjectFormData -> Projects.ProjectFormData)
  : M Projects.State unit :=
  modify (fun s => Projects.withForm (Form.setValues upd (Projects.form s)) s).

Definition reset_to (v : Projects.ProjectFormData) : M Projects.State unit :=
  modify (fun s => Projects.withForm (Form.reset_to v (Projects.form s)) s).

Definition setSearchQuery (v : string) : M Projects.State unit :=
  modify (fun s =>
    {| Projects.projects := Projects.projects s; Projects.skills := Projects.skills s;
       Projects.isLoading := Projects.isLoading s;
       Projects.isModalOpen := Projects.isModalOpen s;
       Projects.editingProject := Projects.editingProject s;
       Projects.isSubmitting := Projects.isSubmitting s;
       Projects.coverPreview := Projects.coverPreview s;
       Projects.previewImages := Projects.previewImages s;
       Projects.previewFiles := Projects.previewFiles s;
       Projects.searchQuery := v;
       Projects.confirmDialog := Projects.confirmDialog s;
       Projects.form := Projects.form s |}).

(** The input of the title, and the effect that follows the render:
    [if (titleValue && !editingProject) setValue('slug', ...)]. *)
Definition onTitleChange (titleValue : string) : M Projects.State unit :=
  setValue (fun v =>
    {| Projects.title := titleValue; Projects.slug := Projects.slug v;
       Projects.description := Projects.description v;
       Projects.content := Projects.content v;
       Projects.coverImage := Projects.coverImage v;
       Projects.contentImages := Projects.contentImages v;
       Projects.publishedAt := Projects.publishedAt v;
       Projects.published := Projects.published v;
       Projects.skillIds := Projects.skillIds v |}) >>
  with_render (fun st =>
    if Js.truthy titleValue && negb (Js.present (Projects.editingProject st))
    then setValue (fun v =>
      {| Projects.title := Projects.title v; Projects.slug := deriveSlug titleValue;
         Projects.description := Projects.description v;
         Projects.content := Projects.content v;
         Projects.coverImage := Projects.coverImage v;
         Projects.contentImages := Projects.contentImages v;
         Projects.publishedAt := Projects.publishedAt v;
         Projects.published := Projects.published v;
         Projects.skillIds := Projects.skillIds v |})
    else ret tt).

Section Page.

(** [format(new Date(s), 'yyyy-MM-dd')] of [date-fns]; the property
    [published] the page reads through [(project as any)]; the data URL
    a [FileReader] makes of a file. *)
Variable format_date : string -> string.
Variable published_of : Project.t -> option bool.
Variable readAsDataURL : File.t -> string.

Definition handleOpenModal (project : option Project.t) : M Projects.State unit :=
  match project with
  | Some project =>
      Projects.setEditingProject (Some project) >>
      setValue (fun v =>
        {| Projects.title := Project.title project;
           Projects.slug := Project.slug project;
           Projects.description := Project.description project;
           Projects.content := Project.content project;
           Projects.coverImage := Projects.coverImage v;
           Projects.contentImages := Projects.contentImages v;
           Projects.publishedAt :=
             Some (match Project.publishedAt project with
                   | Some d => if Js.truthy d then format_date d else ""
                   | None => ""
                   end);
           Projects.published :=
             Some (match published_of project with Some b => b | None => false end);
           Projects.skillIds := Some (skill_ids (Project.projectSkills project)) |}) >>
      Projects.setCoverPreview (Project.coverImage project) >>
      Projects.setPreviewImages (fun _ => Project.contentImages project) >>
      Projects.setPreviewFiles (fun _ => [])
  | None =>
      Projects.setEditingProject None >>
      reset_to {| Projects.title := ""; Projects.slug := ""; Projects.description := "";
                  Projects.content := ""; Projects.coverImage := None;
                  Projects.contentImages := None; Projects.publishedAt := Some "";
                  Projects.published := Some false; Projects.skillIds := Some [] |} >>
      Projects.setCoverPreview None >>
      Projects.setPreviewImages (fun _ => []) >>
      Projects.setPreviewFiles (fun _ => [])
  end >>
  Projects.setIsModalOpen true.

(** The file input of the previews: the files join the pending ones,
    their data URLs join the previews, in the order of the selection. *)
Definition handlePreviewImagesChange (files : list File.t) : M Projects.State unit :=
  match files with
  | [] => ret tt
  | _ =>
      Projects.setPreviewFiles (fun prev => prev ++ files) >>
      let newPreviews := map readAsDataURL files in
      Projects.setPreviewImages (fun prev => prev ++ newPreviews)
  end.

End Page.

Definition handleDelete (id : string) : M Projects.State unit :=
  Projects.setConfirmDialog {| Projects.open := true; Projects.projectId := Some id |}.

Definition confirmDelete (answer : reply unit)
  (refetch : reply (list Project.t) * reply (list Skill.t)) : M Projects.State unit :=
  with_render (fun st =>
    match Projects.projectId (Projects.confirmDialog st) with
    | None => ret tt
    | Some id =>
        if negb (Js.truthy id) then ret tt else
        try_catch
          (projectsService.delete id answer >>
           toast.success "Project deleted successfully" >>
           Projects.loadData refetch)
          (fun error => toast.error "Failed to delete project")
    end).

(** [links?.some(ps => ps.skill.name.toLowerCase().includes(q))]; an
    absent list gives [undefined], which is falsy. *)
Definition some_skill_name (links : option (list SkillLink)) (q : string) : bool :=
  match links with
  | Some l => existsb (fun ps => Js.includes (Js.toLowerCase (Skill.name (skill ps))) q) l
  | None => false
  end.

Definition filteredProjects (st : Projects.State) : list Project.t :=
  List.filter (fun project =>
      Js.includes (Js.toLowerCase (Project.title project))
                  (Js.toLowerCase (Projects.searchQuery st)) ||
      Js.includes (Js.toLowerCase (Project.description project))
                  (Js.toLowerCase (Projects.searchQuery st)) ||
      some_skill_name (Project.projectSkills project)
                      (Js.toLowerCase (Projects.searchQuery st)))
    (Projects.projects st).

End ProjectsPage.

(* ===================================================================== *)
(** ** The skill buttons of the forms                                     *)
(* ===================================================================== *)

(** The click on a skill button in the experience, certification and
    project forms: [field.value] is the list of selected ids or
    [undefined]; a selected id is filtered out, another one is added at
    the end. *)
Definition toggleSkill (value : option (list string)) (id : string) : list string :=
  let current := match value with Some l => l | None => [] end in
  let isSelected := existsb (String.eqb id) current in
  if isSelected
  then List.filter (fun other => negb (String.eqb other id)) current
  else current ++ [id].

(** [formData.getAll(key)]. *)
Definition getAll (fd : FormData) (key : string) : list FormValue :=
  map snd (List.filter (fun entry => String.eqb (fst entry) key) fd).

(* ===================================================================== *)
(** ** The modal and the delete dialog of the list pages                  *)
(* ===================================================================== *)

(** [components/ui/ConfirmDialog.tsx]: the confirm button.
    [onConfirm()] is not awaited: its promise is dropped, so nothing it
    throws reaches the button, and [onClose()] runs while its call is
    pending.  The [onClose] of the pages writes the dialog and nothing
    else, and their [onConfirm] has read the dialog by then and never
    writes it, so the state after both is that of one after the
    other. *)
Module ConfirmDialog.
Definition handleConfirm {S} (onConfirm onClose : M S unit) : M S unit :=
  fun s =>
    match onConfirm s with
    | (_, s1, t1) =>
        match onClose s1 with
        | (r, s2, t2) => (r, s2, t1 ++ t2)
        end
    end.
End ConfirmDialog.

Section Dialogs.

Variable imageCompression : File.t -> CompressionOptions.t -> outcome File.t.
Variable Date_now : Z.
Variable now_iso : string.
Variable JSON_stringify : list string -> string.
Variable currentYear : Z.
Variable format_date : string -> string.
Variable published_of : Project.t -> option bool.

Abbreviation workflow := (workflow imageCompression Date_now now_iso JSON_stringify).

(** [handleOpenModal], [handleCloseModal], [handleDelete] and
    [confirmDelete] of each page. *)
Definition openModal (p : page)
  : option (wf_Entity (workflow p)) -> M (wf_State (workflow p)) unit :=
  match p with
  | OnSkills => Skills.handleOpenModal
  | OnExperience => ExperiencePage.handleOpenModal currentYear
  | OnEducation => EducationPage.handleOpenModal
  | OnCertifications => CertificationsPage.handleOpenModal currentYear
  | OnProjects => ProjectsPage.handleOpenModal format_date published_of
  end.

Definition closeModal (p : page) : M (wf_State (workflow p)) unit :=
  match p with
  | OnSkills => Skills.handleCloseModal
  | OnExperience => ExperiencePage.handleCloseModal
  | OnEducation => EducationPage.handleCloseModal
  | OnCertifications => CertificationsPage.handleCloseModal
  | OnProjects => Projects.handleCloseModal
  end.

Definition requestDelete (p : page) : string -> M (wf_State (workflow p)) unit :=
  match p with
  | OnSkills => Skills.handleDelete
  | OnExperience => ExperiencePage.handleDelete
  | OnEducation => EducationPage.handleDelete
  | OnCertifications => CertificationsPage.handleDelete
  | OnProjects => ProjectsPage.handleDelete
  end.

Definition confirmDelete (p : page)
  : reply unit -> wf_Lists (workflow p) -> M (wf_State (workflow p)) unit :=
  match p with
  | OnSkills => Skills.confirmDelete
  | OnExperience => ExperiencePage.confirmDelete
  | OnEducation => EducationPage.confirmDelete
  | OnCertifications => CertificationsPage.confirmDelete
  | OnProjects => ProjectsPage.confirmDelete
  end.

(** The entity the modal edits, and the list a page shows. *)
Definition editing (p : page) : wf_State (workflow p) -> option (wf_Entity (workflow p)) :=
  match p with
  | OnSkills => Skills.editingSkill
  | OnExperience => ExperiencePage.editingExperience
  | OnEducation => EducationPage.editingEducation
  | OnCertifications => CertificationsPage.editingCertification
  | OnProjects => Projects.editingProject
  end.

Definition listed (p : page) : wf_State (workflow p) -> list (wf_Entity (workflow p)) :=
  match p with
  | OnSkills => Skills.filteredSkills
  | OnExperience => ExperiencePage.filteredExperiences
  | OnEducation => EducationPage.filteredEducation
  | OnCertifications => CertificationsPage.filteredCertifications
  | OnProjects => ProjectsPage.filteredProjects
  end.

Definition searchQuery (p : page) : wf_State (workflow p) -> string :=
  match p with
  | OnSkills => Skills.searchQuery
  | OnExperience => ExperiencePage.searchQuery
  | OnEducation => EducationPage.searchQuery
  | OnCertifications => CertificationsPage.searchQuery
  | OnProjects => Projects.searchQuery
  end.

(** The id the delete dialog holds. *)
Definition delete_target (p : page) : wf_State (workflow p) -> option string :=
  match p with
  | OnSkills => fun st => Skills.skillId (Skills.confirmDialog st)
  | OnExperience => fun st => ExperiencePage.experienceId (ExperiencePage.confirmDialog st)
  | OnEducation => fun st => EducationPage.educationId (EducationPage.confirmDialog st)
  | OnCertifications =>
      fun st => CertificationsPage.certificationId (CertificationsPage.confirmDialog st)
  | OnProjects => fun st => Projects.projectId (Projects.confirmDialog st)
  end.

Definition dialog_open (p : page) : wf_State (workflow p) -> bool :=
  match p with
  | OnSkills => fun st => Skills.open (Skills.confirmDialog st)
  | OnExperience => fun st => ExperiencePage.open (ExperiencePage.confirmDialog st)
  | OnEducation => fun st => EducationPage.open (EducationPage.confirmDialog st)
  | OnCertifications =>
      fun st => CertificationsPage.open (CertificationsPage.confirmDialog st)
  | OnProjects => fun st => Projects.open (Projects.confirmDialog st)
  end.

(** The [onClose] each page hands to its [ConfirmDialog]. *)
Definition closeDialog (p : page) : M (wf_State (workflow p)) unit :=
  match p with
  | OnSkills =>
      Skills.setConfirmDialog {| Skills.open := false; Skills.skillId := None |}
  | OnExperience =>
      ExperiencePage.setConfirmDialog
        {| ExperiencePage.open := false; ExperiencePage.experienceId := None |}
  | OnEducation =>
      EducationPage.setConfirmDialog
        {| EducationPage.open := false; EducationPage.educationId := None |}
  | OnCertifications =>
      CertificationsPage.setConfirmDialog
        {| CertificationsPage.open := false; CertificationsPage.certificationId := None |}
  | OnProjects =>
      Projects.setConfirmDialog {| Projects.open := false; Projects.projectId := None |}
  end.

(** The confirm button of the dialog as each page renders it:
    [onConfirm={confirmDelete}] with that [onClose]. *)
Definition handleConfirm (p : page) (answer : reply unit) (refetch : wf_Lists (workflow p))
  : M (wf_State (workflow p)) unit :=
  ConfirmDialog.handleConfirm (confirmDelete p answer refetch) (closeDialog p).

(** The answer to the first list call of a load: the list of the page. *)
Definition own_list (p : page)
  : wf_Lists (workflow p) -> reply (list (wf_Entity (workflow p))) :=
  match p with
  | OnSkills => fun a => a
  | OnExperience => fun a => a.1
  | OnEducation => fun a => a
  | OnCertifications => fun a => a.1
  | OnProjects => fun a => a.1
  end.

End Dialogs.

(** The path of an entity under its collection, and the text a page
    shows when a delete fails. *)
Definition entity_url (p : page) (id : string) : string :=
  match p with
  | OnSkills => "/skills/" +:+ id
  | OnExperience => "/experience/" +:+ id
  | OnEducation => "/education/" +:+ id
  | OnCertifications => "/certifications/" +:+ id
  | OnProjects => "/projects/" +:+ id
  end.

Definition delete_failed_text (p : page) : string :=
  match p with
  | OnSkills => "Failed to delete skill"
  | OnExperience => "Failed to delete experience"
  | OnEducation => "Failed to delete education"
  | OnCertifications => "Failed to delete certification"
  | OnProjects => "Failed to delete project"
  end.

(** Whether a [delete] call succeeds on this answer: the envelope says
    so; the data field is not read. *)
Definition deleted (answer : reply unit) : bool :=
  match answer with
  | Responded response => ApiResponse.success response
  | Rejected _ => false
  end.

(** The data a fulfilled answer carries. *)
Definition sent {T} (answer : reply T) : option T :=
  match answer with
  | Responded response =>
      if ApiResponse.success response then ApiResponse.data response else None
  | Rejected _ => None
  end.

(* ===================================================================== *)
(** ** More of [services/auth.ts], and [pages/Login.tsx]                  *)
(* ===================================================================== *)

(** The body of an error response, as [login] and [register] read it. *)
Module ErrorData.
Record t : Type := { error : option string; message : option string }.
End ErrorData.

(** What the transport answers to [login] and [register]: an envelope,
    or an [AxiosError] with its message and, when the server responded,
    the body of the response. *)
Inductive auth_answer : Type :=
| Answered (response : ApiResponse.t (User.t * string))
| Refused (axios_message : string) (data : option ErrorData.t).

Module authCalls.
Section WithJson.

Variable JSON_stringify : User.t -> string.

(** [login]: the [Error] thrown in the [try] block for a refused
    envelope is caught, is no [AxiosError], and is thrown again. *)
Definition login (credentials : LoginCredentials.t) (answer : auth_answer)
  : M Browser (User.t * string) :=
  emit (Request (POST "/auth/login" (LoginJson credentials))) >>
  match answer with
  | Answered response =>
      match ApiResponse.success response, ApiResponse.data response with
      | true, Some (user, token) =>
          setItem "auth_token" token >>
          setItem "user" (JSON_stringify user) >>
          ret (user, token)
      | _, _ => throw (Error (Js.or_else (ApiResponse.error response) "Login failed"))
      end
  | Refused axios_message (Some data) =>
      throw (Error (Js.or_else (ErrorData.error data)
                      (Js.or_else (ErrorData.message data) "Login failed")))
  | Refused axios_message None => throw (AxiosError axios_message)
  end.

(** [register]. *)
Definition register (data : RegisterData.t) (answer : auth_answer)
  : M Browser (User.t * string) :=
  emit (Request (POST "/auth/register" (RegisterJson data))) >>
  match answer with
  | Answered response =>
      match ApiResponse.success response, ApiResponse.data response with
      | true, Some (user, token) =>
          setItem "auth_token" token >>
          setItem "user" (JSON_stringify user) >>
          ret (user, token)
      | _, _ =>
          throw (Error (Js.or_else (ApiResponse.error response) "Registration failed"))
      end
  | Refused axios_message (Some error_data) =>
      throw (Error (Js.or_else (ErrorData.error error_data)
                      (Js.or_else (ErrorData.message error_data) "Registration failed")))
  | Refused axios_message None => throw (AxiosError axios_message)
  end.

End WithJson.
End authCalls.

Module Login.

Record LoginFormData : Type := { identifier : string; password : string }.

(** [z.string().min(n, msg)]. *)
Definition string_min (n : nat) (msg : string) : z.schema string :=
  fun s => if (String.length s <? n)%nat then Some (z.Custom msg) else None.

Definition loginSchema (v : LoginFormData) : list (string * z.message) :=
  z.field "identifier"
    (string_min 3 "Username/Email must be at least 3 characters") (identifier v) ++
  z.field "password"
    (string_min 6 "Password must be at least 6 characters") (password v).

(** The page, the session it writes and the route [navigate] went to. *)
Record State : Type :=
  { session : Session; isLoading : bool; navigated : option string;
    form : Form.t LoginFormData }.

Definition initial (w : Session) : State :=
  {| session := w; isLoading := false; navigated := None;
     form := Form.init {| identifier := ""; password := "" |} |}.

Definition setIsLoading (v : bool) : M State unit :=
  modify (fun s => {| session := session s; isLoading := v; navigated := navigated s;
                      form := form s |}).
Definition navigate (to : string) : M State unit :=
  modify (fun s => {| session := session s; isLoading := isLoading s;
                      navigated := Some to; form := form s |}).
Definition withForm (v : Form.t LoginFormData) (s : State) : State :=
  {| session := session s; isLoading := isLoading s; navigated := navigated s;
     form := v |}.

(** A call that works on the session, made from the page. *)
Definition in_session {A} (m : M Session A) : M State A :=
  fun s =>
    match m (session s) with
    | (r, w, t) => (r, {| session := w; isLoading := isLoading s;
                          navigated := navigated s; form := form s |}, t)
    end.

Section Page.

Variable JSON_stringify : User.t -> string.

Definition onSubmit (data : LoginFormData) (answer : auth_answer) : M State unit :=
  setIsLoading true >>
  try_finally
    (try_catch
       (await logged :=
          in_session (in_browser
            (authCalls.login JSON_stringify
               {| LoginCredentials.identifier := identifier data;
                  LoginCredentials.password := password data |} answer)) in
        in_session (useAuthStore.setUser (Some logged.1)) >>
        toast.success "Login successful!" >>
        navigate "/")
       (fun error => toast.error (message error)))
    (setIsLoading false).

Definition submit (answer : auth_answer) : M State unit :=
  handleSubmit form withForm loginSchema (fun data => onSubmit data answer).

End Page.

End Login.

(* ===================================================================== *)
(** ** Statements about the forms                                         *)
(* ===================================================================== *)

(** A year the schemas accept: a number from 1900 to ten years ahead. *)
Definition year_in_range (currentYear : Z) (n : Js.number) : Prop :=
  exists v, n = Js.Num v /\ (1900 <= v <= currentYear + 10)%Z.

(** What the edit modal makes of a nullable text: [x || ''] going in,
    [x || undefined] coming out. *)
Definition text_or_absent (x : option string) : option string :=
  match x with
  | Some s => if Js.truthy s then Some s else None
  | None => None
  end.

Module Sample2.

Definition experience : Experience.t :=
  {| Experience.id := "e7"; Experience.userId := "u1";
     Experience.startYear := Js.Num 2019; Experience.endYear := None;
     Experience.companyName := "Tech Corp"; Experience.description := None;
     Experience.location := "Jakarta";
     Experience.createdAt := "2024-01-01"; Experience.updatedAt := "2024-01-02";
     Experience.experienceSkills := None |}.

Definition certification : Certification.t :=
  {| Certification.id := "c3"; Certification.userId := "u1";
     Certification.name := "CKA"; Certification.issuingOrganization := "CNCF";
     Certification.year := Js.Num 2024; Certification.description := None;
     Certification.certificateLink := None;
     Certification.createdAt := ""; Certification.updatedAt := "";
     Certification.certificationSkills := None |}.

(** An experience form with an end year before the start year. *)
Definition backwards : ExperiencePage.ExperienceFormData :=
  {| ExperiencePage.startYear := Js.Num 2020;
     ExperiencePage.endYear := Some (Js.Num 1950);
     ExperiencePage.companyName := "Tech Corp";
     ExperiencePage.description := Some "";
     ExperiencePage.location := "Jakarta";
     ExperiencePage.skillIds := Some [] |}.

(** The experience modal with the company name left empty. *)
Definition unnamed : ExperiencePage.State :=
  final (ExperiencePage.setValue (fun v =>
    {| ExperiencePage.startYear := ExperiencePage.startYear v;
       ExperiencePage.endYear := ExperiencePage.endYear v;
       ExperiencePage.companyName := "";
       ExperiencePage.description := ExperiencePage.description v;
       ExperiencePage.location := ExperiencePage.location v;
       ExperiencePage.skillIds := ExperiencePage.skillIds v |}) Sample.experienceModal).

End Sample2.

(** The last code unit of a string. *)
Fixpoint lastChar (s : string) : option ascii :=
  match s with
  | EmptyString => None
  | String c r =>
      match r with
      | EmptyString => Some c
      | String _ _ => lastChar r
      end
  end.

(** The previews of a project form are in step with the pending files:
    [n] references of persisted images, then the data URL of each
    pending file, in order. *)
Definition paired (readAsDataURL : File.t -> string) (n : nat) (st : Projects.State)
  : Prop :=
  exists persisted,
    length persisted = n /\
    Projects.previewImages st = persisted ++ map readAsDataURL (Projects.previewFiles st).

(** The number of persisted images the remove handler counts with. *)
Definition existingImageCount (st : Projects.State) : nat :=
  match Projects.editingProject st with
  | Some p => length (Project.contentImages p)
  | None => 0
  end.

(** The fields the education and project searches look at. *)
Definition education_fields (e : Education.t) : list string :=
  [Education.institutionName e] ++
  match Education.description e with Some d => [d] | None => [] end.

Definition project_fields (p : Project.t) : list string :=
  [Project.title p; Project.description p] ++
  match Project.projectSkills p with
  | Some l => map (fun ps => Skill.name (skill ps)) l
  | None => []
  end.

Module Sample3.

Definition user : User.t :=
  {| User.id := "u1"; User.email := "a@b.c"; User.username := "andika";
     User.name := "Andika" |}.

(** A serialisation of the identity and its inverse on that value. *)
Definition stringify (u : User.t) : string := "user:" +:+ User.id u.
Definition parse (s : string) : outcome (option User.t) :=
  if String.eqb s "user:u1" then Return (Some user)
  else Throw (Error "SyntaxError").

Definition signedOut : Session :=
  {| browser := {| localStorage := ∅; location_href := "/login" |};
     store := {| AuthState.user := None; AuthState.isAuthenticated := false;
                 AuthState.isLoading := false |} |}.

Definition granted : auth_answer :=
  Answered {| ApiResponse.success := true; ApiResponse.data := Some (user, "t0k3n");
              ApiResponse.error := None |}.

Definition photo : File.t :=
  {| File.name := "shot.png"; File.type := "image/png"; File.lastModified := 1;
     File.bytes := [137; 80]%Z |}.

Definition dataUrl (f : File.t) : string := "data:" +:+ File.name f.

Definition project : Project.t :=
  {| Project.id := "p1"; Project.userId := "u1"; Project.title := "CMS";
     Project.slug := "cms"; Project.description := "A CMS"; Project.content := "<p/>";
     Project.coverImage := None; Project.contentImages := ["a.png"; "b.png"];
     Project.publishedAt := None; Project.highlighted := None;
     Project.createdAt := ""; Project.updatedAt := "";
     Project.projectSkills := None |}.

(** The project modal, open on [project], one file picked. *)
Definition projectModal : Projects.State :=
  final (ProjectsPage.handlePreviewImagesChange dataUrl [photo]
    (final (ProjectsPage.handleOpenModal (fun s => s) (fun _ => None)
              (Some project) Projects.initial))).

End Sample3.

(** What an answer to [login] grants, and the text a refusal carries:
    the [error] of the envelope or of the error body, then the [message]
    of the error body, then the text of the call; the message of the
    transport when it gave no body. *)
Definition grant (answer : auth_answer) : option (User.t * string) :=
  match answer with
  | Answered response =>
      if ApiResponse.success response then ApiResponse.data response else None
  | Refused _ _ => None
  end.

Definition refusal_text (failed : string) (answer : auth_answer) : string :=
  match answer with
  | Answered response => Js.or_else (ApiResponse.error response) failed
  | Refused _ (Some d) =>
      Js.or_else (ErrorData.error d) (Js.or_else (ErrorData.message d) failed)
  | Refused axios_message None => axios_message
  end.

(** The parts of the body of a project submission, in the order the
    handler appends them: the texts, the time of publication, the
    skills, the cover, the persisted images kept, the pending files. *)
Definition project_parts (now_iso title slug description content : string)
  (isPublished : bool) (ids : list string) (cover : list File.t)
  (existing : option string) (outs : list File.t) : FormData :=
  [("title", Text title); ("slug", Text slug); ("description", Text description);
   ("content", Text content);
   ("published", Text (if isPublished then "true" else "false"))] ++
  (if isPublished then [("publishedAt", Text now_iso)] else []) ++
  map (fun id => ("skillIds[]", Text id)) ids ++
  map (fun f => ("coverImage", Blob f)) cover ++
  match existing with
  | Some kept => [("existingContentImages", Text kept)]
  | None => []
  end ++
  map (fun f => ("contentImages", Blob f)) outs.

(* ===================================================================== *)
(** * Theorems                                                            *)
(* ===================================================================== *)

Example includes_mid : Js.includes "Tech Corp" "h C" = true.
Proof. reflexivity. Qed.

Example includes_empty : Js.includes "" "" = true.
Proof. reflexivity. Qed.

Example includes_longer : Js.includes "ab" "abc" = false.
Proof. reflexivity. Qed.

Example trim_both : Js.trim "  a b  " = "a b".
Proof. reflexivity. Qed.

Example lower_mixed : Js.toLowerCase "GoLang 1.2" = "golang 1.2".
Proof. reflexivity. Qed.

Example remove_at_mid : Js.remove_at 1 ["a"; "b"; "c"] = ["a"; "c"].
Proof. reflexivity. Qed.

Example remove_at_out : Js.remove_at 5 ["a"; "b"] = ["a"; "b"].
Proof. reflexivity. Qed.

(** ** Resource clients *)

Lemma unwrap_fulfilled {S T} (fb : string) (response : ApiResponse.t T) (d : T) (s : S) :
  ApiResponse.success response = true ->
  ApiResponse.data response = Some d ->
  unwrap fb response s = (Return d, s, []).
Proof. intros Hs Hd. unfold unwrap. rewrite Hs, Hd. reflexivity. Qed.

Lemma unwrap_refused {S T} (fb : string) (response : ApiResponse.t T) (s : S) :
  ApiResponse.success response && Js.present (ApiResponse.data response) = false ->
  @unwrap S T fb response s =
  (Throw (Error (Js.or_else (ApiResponse.error response) fb)), s, []).
Proof.
  unfold unwrap. destruct (ApiResponse.success response), (ApiResponse.data response);
    simpl; intros H; try discriminate; reflexivity.
Qed.

(** C1, as stated, fails: on an envelope with [success = false] the get
    operation of the user-details client returns [null] and no error. *)
Lemma user_details_get_does_not_fail :
  ~ fails_uniformly userDetails_get
      {| ApiResponse.success := false; ApiResponse.data := None;
         ApiResponse.error := Some "Unauthorized" |}.
Proof.
  intros H. destruct H as [msg [Hf _]]; [left; reflexivity |].
  vm_compute in Hf. discriminate.
Qed.

(** C1 (amended): every operation but the get of the user-details client
    fails on an envelope with [success = false], and every operation
    that returns data also on an envelope without data; the error
    carries the non-empty error string of the envelope, the fallback of
    the operation otherwise.  The get of the user-details client returns
    [null] there, after its one call and without an error, and a delete
    ignores the data field. *)
Theorem refused_envelope_fails (o : operation) (response : ApiResponse.t (carried o)) :
  (o <> userDetails_get ->
   ApiResponse.success response = false \/
   (is_delete o = false /\ ApiResponse.data response = None) ->
   exists fb, fallback o = Some fb /\
     failure o response = Some (Error (Js.or_else (ApiResponse.error response) fb))) /\
  (forall refused : ApiResponse.t UserDetails.t,
   ApiResponse.success refused = false \/ ApiResponse.data refused = None ->
   perform userDetails_get (Responded refused) tt
   = (Return None, tt, [Request (GET "/user")])) /\
  (is_delete o = true -> ApiResponse.success response = true ->
   failure o response = None).
Proof.
  destruct response as [ok d err].
  split; [| split].
  - intros Hne Href.
    assert (Hr : if is_delete o then ok = false else ok && Js.present d = false).
    { destruct Href as [Hs | [-> Hn]]; simpl in *; subst.
      - destruct (is_delete o); auto.
      - apply andb_false_r. }
    clear Href.
    destruct o; try congruence; simpl in Hr;
      eexists; (split; [reflexivity |]);
      destruct ok, d; simpl in *; try discriminate; reflexivity.
  - intros [ok' d' err'] [Hs | Hn]; simpl in *; subst; [| destruct ok']; reflexivity.
  - intros Hd Hs; simpl in *; subst; destruct o; try discriminate; reflexivity.
Qed.

Lemma refused_envelope_fails_witness :
  failure (skills_create [])
    {| ApiResponse.success := false; ApiResponse.data := None;
       ApiResponse.error := Some "Name taken" |} = Some (Error "Name taken") /\
  failure (projects_getAll)
    {| ApiResponse.success := true; ApiResponse.data := None;
       ApiResponse.error := Some "" |} = Some (Error "Failed to fetch projects") /\
  perform userDetails_get
    (Responded {| ApiResponse.success := false; ApiResponse.data := None;
                  ApiResponse.error := Some "Unauthorized" |}) tt
  = (Return None, tt, [Request (GET "/user")]) /\
  failure (education_delete "7")
    {| ApiResponse.success := true; ApiResponse.data := None;
       ApiResponse.error := None |} = None.
Proof.
  split; [| split; [| split]].
  - destruct (proj1 (refused_envelope_fails (skills_create [])
      {| ApiResponse.success := false; ApiResponse.data := None;
         ApiResponse.error := Some "Name taken" |})) as [fb [Hfb Hf]];
      [discriminate | left; reflexivity |].
    simpl in Hfb. injection Hfb as <-. exact Hf.
  - destruct (proj1 (refused_envelope_fails projects_getAll
      {| ApiResponse.success := true; ApiResponse.data := None;
         ApiResponse.error := Some "" |})) as [fb [Hfb Hf]];
      [discriminate | right; split; reflexivity |].
    simpl in Hfb. injection Hfb as <-. exact Hf.
  - apply (proj1 (proj2 (refused_envelope_fails userDetails_get
      {| ApiResponse.success := false; ApiResponse.data := None;
         ApiResponse.error := Some "Unauthorized" |}))); left; reflexivity.
  - apply (proj2 (proj2 (refused_envelope_fails (education_delete "7")
      {| ApiResponse.success := true; ApiResponse.data := None;
         ApiResponse.error := None |}))); reflexivity.
Defined.

(** ** Session *)

Section SessionFacts.

Variable JSON_parse : string -> outcome (option User.t).

(** C8: from every session state, [logout] of the store removes
    [auth_token] and [user] from the storage, sets the store to
    [user = null], [isAuthenticated = false], and afterwards the three
    readers of [authService] report an unauthenticated session. *)
Theorem logout_clears_session (w : Session) :
  let r := useAuthStore.logout w in
  let w' := final r in
  result r = Return tt /\
  localStorage (browser w') !! "auth_token" = None /\
  localStorage (browser w') !! "user" = None /\
  AuthState.user (store w') = None /\
  AuthState.isAuthenticated (store w') = false /\
  result (authService.getStoredToken (browser w')) = Return None /\
  result (authService.getStoredUser JSON_parse (browser w')) = Return None /\
  result (authService.isAuthenticated (browser w')) = Return false /\
  location_href (browser w') = "/login".
Proof.
  destruct w as [[ls href] st]. cbn.
  assert (Ht : base.delete "user" (base.delete "auth_token" ls) !! "auth_token"
               = (None : option string)).
  { rewrite lookup_delete_ne by discriminate. apply lookup_delete_eq. }
  assert (Hu : base.delete "user" (base.delete "auth_token" ls) !! "user"
               = (None : option string)).
  { apply lookup_delete_eq. }
  repeat split; try assumption.
  - unfold authService.getStoredToken, getItem, result. cbn. now rewrite Ht.
  - unfold authService.getStoredUser, getItem, bind, result. cbn. now rewrite Hu.
  - unfold authService.isAuthenticated, authService.getStoredToken, getItem, bind, result.
    cbn. now rewrite Ht.
Qed.

(** The storage keeps every other key. *)
Lemma logout_keeps_other_keys (w : Session) (k : string) :
  k <> "auth_token" -> k <> "user" ->
  localStorage (browser (final (useAuthStore.logout w))) !! k =
  localStorage (browser w) !! k.
Proof.
  intros H1 H2. destruct w as [[ls href] st]. cbn.
  rewrite !lookup_delete_ne by congruence. reflexivity.
Qed.

End SessionFacts.

Example logout_signed_in :
  let w := {| browser := {| localStorage := <["auth_token" := "t0k"]> (<["user" := "{}"]> ∅);
                            location_href := "/skills" |};
              store := {| AuthState.user := Some {| User.id := "1"; User.email := "a@b.c";
                                                   User.username := "a"; User.name := "A" |};
                          AuthState.isAuthenticated := true;
                          AuthState.isLoading := false |} |} in
  result (authService.isAuthenticated (browser w)) = Return true /\
  result (authService.isAuthenticated (browser (final (useAuthStore.logout w))))
  = Return false.
Proof. split; vm_compute; reflexivity. Qed.

(** ** Image helper *)

Section ImageFacts.

Variable imageCompression : File.t -> CompressionOptions.t -> outcome File.t.
Variable Date_now : Z.

(** C10: [compressImage] never throws; when the transform fails it
    returns the input file itself, and when it succeeds the file it
    returns has the name of the input file. *)
Theorem compressImage_total {S} (file : File.t) (options : CompressionOptions.t) (s : S) :
  match imageCompression file (spread defaultOptions options) with
  | Throw e =>
      compressImage imageCompression Date_now file options s =
      (Return file, s, [ConsoleError "Image compression failed:" e])
  | Return compressed =>
      exists f,
        compressImage imageCompression Date_now file options s = (Return f, s, []) /\
        File.name f = File.name file /\
        File.type f = File.type compressed /\
        File.bytes f = File.bytes compressed
  end.
Proof.
  unfold compressImage, try_catch, bind, ret, emit.
  destruct (imageCompression file (spread defaultOptions options)) as [c | e]; cbn.
  - eexists. split; [reflexivity |]. cbn. auto.
  - reflexivity.
Qed.

(** What the callers use: a file comes back, the state is untouched and
    the trace holds no request and no notification. *)
Lemma compressImage_returns {S} (file : File.t) (options : CompressionOptions.t) (s : S) :
  exists f tr,
    compressImage imageCompression Date_now file options s = (Return f, s, tr) /\
    requests tr = [] /\ notifications tr = [].
Proof.
  unfold compressImage, try_catch, bind, ret, emit.
  destruct (imageCompression file (spread defaultOptions options)) as [c | e]; cbn;
    eexists; eexists; (split; [reflexivity |]); split; reflexivity.
Qed.

Lemma compressImages_returns {S} (files : list File.t) (options : CompressionOptions.t)
  (s : S) :
  exists fs tr,
    compressImages imageCompression Date_now files options s = (Return fs, s, tr) /\
    length fs = length files.
Proof.
  induction files as [| file rest IH]; cbn.
  - eexists; eexists; split; reflexivity.
  - destruct (compressImage_returns file options s) as (f & tr & Hf & _).
    destruct IH as (fs & tr' & Hfs & Hlen).
    unfold bind. rewrite Hf, Hfs. cbn.
    eexists; eexists; split; [reflexivity | cbn; congruence].
Qed.

End ImageFacts.

Example compressImage_failing :
  let broken (f : File.t) (o : CompressionOptions.t) : outcome File.t :=
    Throw (Error "not an image") in
  let f := {| File.name := "a.txt"; File.type := "text/plain";
              File.lastModified := 5; File.bytes := [1; 2]%Z |} in
  result (compressImage broken 9%Z f no_options tt) = Return f.
Proof. reflexivity. Qed.

Example compressImage_shrinking :
  let halve (f : File.t) (o : CompressionOptions.t) : outcome File.t :=
    Return {| File.name := "blob"; File.type := "image/webp";
              File.lastModified := 0; File.bytes := [1]%Z |} in
  let f := {| File.name := "logo.png"; File.type := "image/png";
              File.lastModified := 5; File.bytes := [1; 2]%Z |} in
  result (compressImage halve 9%Z f no_options tt) =
  Return {| File.name := "logo.png"; File.type := "image/webp";
            File.lastModified := 9; File.bytes := [1]%Z |}.
Proof. reflexivity. Qed.

(** ** Tactics for the handlers: case analysis on the answers of the
    transport, then evaluation. *)

Ltac crack a := destruct a as [[[|] [?|] ?] | ?].

Ltac shown :=
  let s := fresh "s" in
  intros s;
  repeat match goal with
         | |- context [match ?e with Some _ => _ | None => _ end] =>
             destruct e as [[| ? ?] |]
         end;
  cbn; congruence.

Ltac close_failed :=
  exists []; eexists; eexists;
  repeat (split; [reflexivity |]);
  split; [shown |];
  repeat (split; [reflexivity |]); reflexivity.

Ltac close_succeeded :=
  exists []; eexists; eexists; eexists;
  repeat (split; [reflexivity |]); reflexivity.

(** ** The workflow of the list pages *)

Section WorkflowFacts.

Variable imageCompression : File.t -> CompressionOptions.t -> outcome File.t.
Variable Date_now : Z.
Variable now_iso : string.
Variable JSON_stringify : list string -> string.

Abbreviation workflow := (workflow imageCompression Date_now now_iso JSON_stringify).
Abbreviation succeeded :=
  (submit_succeeded imageCompression Date_now now_iso JSON_stringify).
Abbreviation failed :=
  (submit_failed imageCompression Date_now now_iso JSON_stringify).

(** The list calls of a page fail exactly where [fulfilled] is false. *)
Lemma getAll_throws_iff (answer : reply (list Skill.t)) :
  fulfilled answer = false <->
  exists e, result (@skillsService.getAll unit answer tt) = Throw e.
Proof.
  destruct answer as [[ok [d |] err] | e]; try destruct ok; cbn; split;
    try discriminate; try (intros [e' He]; discriminate); eauto.
Qed.

(** C4: on every list page, when a list call of the first load fails,
    the load returns normally, the page is [Idle] with an empty
    collection, and the trace is the list calls, issued once, followed
    by one error notification. *)
Theorem failed_load_reaches_idle (p : page) (answers : wf_Lists (workflow p)) :
  wf_lists_fulfilled (workflow p) answers = false ->
  let r := wf_load (workflow p) answers (wf_initial (workflow p)) in
  result r = Return tt /\
  Idle (workflow p) (final r) /\
  wf_collection (workflow p) (final r) = [] /\
  exists msg,
    trace r = map Request (wf_list_requests (workflow p)) ++ [ToastError msg].
Proof.
  destruct p; cbn in answers |- *.
  - destruct answers as [[ok [d |] err] | e]; try destruct ok; cbn; try discriminate;
      intros _; unfold Idle; cbn; eauto 10.
  - destruct answers as [[[ok [d |] err] | e] [[ok' [d' |] err'] | e']];
      try destruct ok; try destruct ok'; cbn; try discriminate;
      intros _; unfold Idle; cbn; eauto 10.
  - destruct answers as [[ok [d |] err] | e]; try destruct ok; cbn; try discriminate;
      intros _; unfold Idle; cbn; eauto 10.
  - destruct answers as [[[ok [d |] err] | e] [[ok' [d' |] err'] | e']];
      try destruct ok; try destruct ok'; cbn; try discriminate;
      intros _; unfold Idle; cbn; eauto 10.
  - destruct answers as [[[ok [d |] err] | e] [[ok' [d' |] err'] | e']];
      try destruct ok; try destruct ok'; cbn; try discriminate;
      intros _; unfold Idle; cbn; eauto 10.
Qed.

(** The message a refused answer leads to is the one it carries. *)
Lemma carried_message_shown {T} (response : ApiResponse.t T) (fb s : string) :
  carried_message (Responded response) = Some s ->
  Js.or_else (ApiResponse.error response) fb = s.
Proof.
  destruct response as [ok d [[| c e] |]]; cbn; congruence.
Qed.

Lemma experience_submit_outcome (st : ExperiencePage.State)
  (data : ExperiencePage.ExperienceFormData) (answer : reply Experience.t)
  (refetch : reply (list Experience.t) * reply (list Skill.t)) :
  let r := ExperiencePage.onSubmit data answer refetch st in
  result r = Return tt /\
  if fulfilled answer then succeeded OnExperience st r
  else failed OnExperience st answer r.
Proof.
  destruct st as [? ? ? ? [ed |] ? ? ? ? ?], refetch as [r1 r2];
    (crack answer; [crack r1; crack r2 | | | |]); cbn; (split; [reflexivity |]);
    first [ unfold submit_failed; cbn; close_failed
          | unfold submit_succeeded; cbn; close_succeeded ].
Qed.

Lemma certification_submit_outcome (st : CertificationsPage.State)
  (data : CertificationsPage.CertificationFormData) (answer : reply Certification.t)
  (refetch : reply (list Certification.t) * reply (list Skill.t)) :
  let r := CertificationsPage.onSubmit data answer refetch st in
  result r = Return tt /\
  if fulfilled answer then succeeded OnCertifications st r
  else failed OnCertifications st answer r.
Proof.
  destruct st as [? ? ? ? [ed |] ? ? ? ?], refetch as [r1 r2];
    (crack answer; [crack r1; crack r2 | | | |]); cbn; (split; [reflexivity |]);
    first [ unfold submit_failed; cbn; close_failed
          | unfold submit_succeeded; cbn; close_succeeded ].
Qed.

Lemma education_submit_outcome (st : EducationPage.State)
  (data : EducationPage.EducationFormData) (answer : reply Education.t)
  (refetch : reply (list Education.t)) :
  let r := EducationPage.onSubmit data answer refetch st in
  result r = Return tt /\
  if fulfilled answer then succeeded OnEducation st r
  else failed OnEducation st answer r.
Proof.
  destruct st as [? ? ? [ed |] ? ? ? ?];
    (crack answer; [crack refetch | | | |]); cbn; (split; [reflexivity |]);
    first [ unfold submit_failed; cbn; close_failed
          | unfold submit_succeeded; cbn; close_succeeded ].
Qed.

Lemma skills_submit_outcome (st : Skills.State)
  (data : Skills.SkillFormData) (answer : reply Skill.t)
  (refetch : reply (list Skill.t)) :
  skill_icon_missing st data = false ->
  let r := Skills.onSubmit imageCompression Date_now data answer refetch st in
  result r = Return tt /\
  if fulfilled answer then succeeded OnSkills st r
  else failed OnSkills st answer r.
Proof.
  destruct st as [? ? ? [ed |] ? ? ? ? ?], data as [nm [[| icon0 rest] |]];
    cbn; try discriminate; intros _;
    unfold Skills.onSubmit, with_render, compressImage, try_catch, try_finally, bind;
    cbn;
    try destruct (imageCompression icon0 (spread defaultOptions no_options)) as [c | ce];
    (crack answer; [crack refetch | | | |]); cbn; (split; [reflexivity |]);
    first [ unfold submit_failed; cbn; close_failed
          | unfold submit_succeeded; cbn; close_succeeded
          | unfold submit_failed; cbn;
            eexists [_]; eexists; eexists;
            repeat (split; [reflexivity |]);
            split; [shown |];
            repeat (split; [reflexivity |]); reflexivity
          | unfold submit_succeeded; cbn;
            eexists [_]; eexists; eexists; eexists;
            repeat (split; [reflexivity |]); reflexivity ].
Qed.

Lemma requests_app (a b : list event) : requests (a ++ b) = requests a ++ requests b.
Proof. unfold requests. induction a as [| [] a IH]; cbn; congruence. Qed.

Lemma notifications_app (a b : list event) :
  notifications (a ++ b) = notifications a ++ notifications b.
Proof. unfold notifications. induction a as [| [] a IH]; cbn; congruence. Qed.

Lemma appendContentImages_returns (files : list File.t) (fd : FormData)
  (s : Projects.State) :
  exists fd' tr,
    Projects.appendContentImages imageCompression Date_now files fd s
    = (Return fd', s, tr) /\
    requests tr = [] /\ notifications tr = [].
Proof.
  revert fd. induction files as [| file rest IH]; intros fd; cbn.
  - exists fd, []. repeat split.
  - destruct (compressImage_returns imageCompression Date_now file no_options s)
      as (f & tr & Hf & Hr & Hn).
    destruct (IH (append fd "contentImages" (Blob f))) as (fd' & tr' & Hfd & Hr' & Hn').
    unfold bind. rewrite Hf, Hfd.
    exists fd', (tr ++ tr'). rewrite requests_app, notifications_app, Hr, Hr', Hn, Hn'.
    repeat split.
Qed.

Lemma projects_submit_outcome (st : Projects.State)
  (data : Projects.ProjectFormData) (answer : reply Project.t)
  (refetch : reply (list Project.t) * reply (list Skill.t)) :
  let r := Projects.onSubmit imageCompression Date_now now_iso JSON_stringify
             data answer refetch st in
  result r = Return tt /\
  if fulfilled answer then succeeded OnProjects st r
  else failed OnProjects st answer r.
Proof.
  destruct st as [? ? ? ? [ed |] ? ? ? files ? ? ?], refetch as [r1 r2],
    data as [? ? ? ? [[| cover0 rest] |] ? ? ? ?].
  all: unfold Projects.onSubmit, with_render, compressImage, try_catch, try_finally, bind;
    cbn.
  all: try destruct (imageCompression cover0 (spread defaultOptions no_options)) as [c | ce].
  all: cbn.
  all: match goal with
       | |- context [Projects.appendContentImages ?ic ?n ?fs ?fd ?s] =>
           destruct (appendContentImages_returns fs fd s) as (fd' & tr & Hfd & Hr & Hn);
           rewrite Hfd
       end.
  all: clear Hfd; (crack answer; [crack r1; crack r2 | | | |]); cbn; (split; [reflexivity |]).
  all: first [ unfold submit_failed; cbn; rewrite ?app_nil_r, <- ?app_assoc; cbn;
               first [ eexists; eexists; eexists; split; [reflexivity |]
                     | eexists (_ :: _); eexists; eexists; split; [reflexivity |] ];
               split; [reflexivity |];
               split; [exact Hr |]; split; [exact Hn |];
               split; [shown |];
               repeat (split; [reflexivity |]); reflexivity
             | unfold submit_succeeded; cbn; rewrite ?app_nil_r, <- ?app_assoc; cbn;
               first [ eexists; eexists; eexists; eexists; split; [reflexivity |]
                     | eexists (_ :: _); eexists; eexists; eexists; split; [reflexivity |] ];
               split; [reflexivity |];
               split; [exact Hr |]; split; [exact Hn |];
               repeat (split; [reflexivity |]); reflexivity ].
Qed.


(** A submission of the skills page without an icon file in create mode
    stops at the notification. *)
Lemma skills_submit_blocked (st : Skills.State) (data : Skills.SkillFormData)
  (answer : reply Skill.t) (refetch : reply (list Skill.t)) :
  skill_icon_missing st data = true ->
  Skills.onSubmit imageCompression Date_now data answer refetch st =
  (Return tt, final (Skills.setIsSubmitting false st),
   [ToastError "Icon is required for new skills"]).
Proof.
  destruct st as [? ? ? [ed |] ? ? ? ? ?], data as [nm [[| icon0 rest] |]];
    cbn; try discriminate; intros _; reflexivity.
Qed.


(** C6: a submission of the skill form without an icon file while no
    skill is being edited is stopped in the handler: the only effect is
    the notification "Icon is required for new skills"; no request is
    made, and the skills list, the modal and the form are as before. *)
Theorem create_without_icon_blocked (st : Skills.State) (data : Skills.SkillFormData)
  (answer : reply Skill.t) (refetch : reply (list Skill.t)) :
  Skills.editingSkill st = None ->
  Skills.icon data = None \/ Skills.icon data = Some [] ->
  let r := Skills.onSubmit imageCompression Date_now data answer refetch st in
  result r = Return tt /\
  trace r = [ToastError "Icon is required for new skills"] /\
  requests (trace r) = [] /\
  Skills.skills (final r) = Skills.skills st /\
  Skills.isModalOpen (final r) = Skills.isModalOpen st /\
  Skills.form (final r) = Skills.form st /\
  Skills.isSubmitting (final r) = false.
Proof.
  intros Hed Hicon r. subst r.
  rewrite skills_submit_blocked.
  - destruct st; cbn. repeat split.
  - unfold skill_icon_missing. rewrite Hed. destruct Hicon as [-> | ->]; reflexivity.
Qed.

(** The same at the form: with a name, the values pass the schema and
    the handler stops the submission; without one, the schema stops it
    first, with the message of the name field and no notification. *)
Lemma skill_form_without_icon (st : Skills.State)
  (answer : reply Skill.t) (refetch : reply (list Skill.t)) :
  Skills.editingSkill st = None ->
  Skills.icon (Form.values (Skills.form st)) = None ->
  let r := Skills.submit imageCompression Date_now answer refetch st in
  requests (trace r) = [] /\
  Skills.skills (final r) = Skills.skills st /\
  (if Js.truthy (Skills.name (Form.values (Skills.form st)))
   then trace r = [ToastError "Icon is required for new skills"]
   else trace r = [] /\
        Form.errors (Skills.form (final r))
        = [("name", z.Custom "Skill name is required")]).
Proof.
  destruct st as [? ? ? ed ? ? ? ? [[[| c nm] ic] dv er]]; cbn;
    intros -> ->; cbn; repeat split.
Qed.

End WorkflowFacts.

(** The user-details page is no list page: its load reads a singleton
    through [get], which answers [null] on a refused envelope, so only a
    rejection of the transport is notified. *)
Lemma user_details_load_refused (st : UserDetailsPage.State)
  (response : ApiResponse.t UserDetails.t) :
  ApiResponse.success response && Js.present (ApiResponse.data response) = false ->
  UserDetailsPage.loadUserDetails (Responded response) st =
  (Return tt, final (UserDetailsPage.setIsLoading false st), [Request (GET "/user")]).
Proof.
  destruct st, response as [[|] [d |] err]; cbn; try discriminate; reflexivity.
Qed.

Ltac close_user_details :=
  eexists; eexists; eexists;
  (split; [reflexivity |]); (split; [reflexivity |]);
  (split; [reflexivity |]); (split; [reflexivity |]);
  first [ split; [eexists; reflexivity | reflexivity]
        | split; [eexists; split; [reflexivity | shown] |];
          repeat (split; [reflexivity |]); reflexivity ].

(** Its form has no modal; the rest of the submission is as on the list
    pages: a failed call ends in one error notification with the record
    not read again, a successful one in a success notification followed
    by one read of the record. *)
Lemma user_details_submit_outcome
  (imageCompression : File.t -> CompressionOptions.t -> outcome File.t) (Date_now : Z)
  (st : UserDetailsPage.State) (data : UserDetailsPage.UserDetailsFormData)
  (answer refetch : reply UserDetails.t) :
  let r := UserDetailsPage.onSubmit imageCompression Date_now data answer refetch st in
  result r = Return tt /\
  exists before m msg after,
    trace r = before ++ Request m :: msg :: after /\
    is_mutation m = true /\
    requests before = [] /\ notifications before = [] /\
    if fulfilled answer
    then (exists text, msg = ToastSuccess text) /\ requests after = [GET "/user"]
    else (exists text, msg = ToastError text /\
                       forall s, carried_message answer = Some s -> text = s) /\
         after = [] /\
         UserDetailsPage.form (final r) = UserDetailsPage.form st /\
         UserDetailsPage.socialMedias (final r) = UserDetailsPage.socialMedias st.
Proof.
  destruct st as [ud ? ? ? sm ic ur fm], data as [nm rl ds [[| photo0 rest] |]];
    unfold UserDetailsPage.onSubmit, with_render, compressImage, try_catch,
      try_finally, bind; cbn;
    try destruct (imageCompression photo0 (spread defaultOptions no_options)) as [c | ce];
    destruct ud; (crack answer; [crack refetch | | | |]); cbn;
    (split; [reflexivity |]);
    first [ exists []; close_user_details | eexists [_]; close_user_details ].
Qed.

Lemma user_details_load_rejected (st : UserDetailsPage.State) (e : exn) :
  UserDetailsPage.loadUserDetails (Rejected e) st =
  (Return tt, final (UserDetailsPage.setIsLoading false st),
   [Request (GET "/user"); ToastError "Failed to load user details"]).
Proof. destruct st; reflexivity. Qed.

(** ** The experience form *)

Section ExperienceFacts.

Variable currentYear : Z.

(** What the handler sends, whatever the values. *)
Lemma experience_payload_sent (st : ExperiencePage.State)
  (data : ExperiencePage.ExperienceFormData) (answer : reply Experience.t)
  (refetch : reply (list Experience.t) * reply (list Skill.t)) :
  exists m rest,
    requests (trace (ExperiencePage.onSubmit data answer refetch st)) = m :: rest /\
    is_mutation m = true /\
    body_of m =
      Some (ExperienceJson (ExperiencePage.payload (ExperiencePage.isCurrentJob st) data)) /\
    Forall (fun q => is_mutation q = false) rest.
Proof.
  destruct st as [? ? ? ? [ed |] ? ? ? ? ?], refetch as [r1 r2];
    (crack answer; [crack r1; crack r2 | | | |]); cbn;
    eexists; eexists; (split; [reflexivity |]);
    repeat split; repeat constructor.
Qed.

(** C3: when the values of the experience form pass the schema and
    "currently working here" is set, the submission makes one create or
    update call, and the body of that call has [endYear = null],
    whatever the end-year field holds. *)
Theorem current_job_submits_null_end_year (st : ExperiencePage.State)
  (answer : reply Experience.t)
  (refetch : reply (list Experience.t) * reply (list Skill.t)) :
  ExperiencePage.experienceSchema currentYear (Form.values (ExperiencePage.form st)) = [] ->
  ExperiencePage.isCurrentJob st = true ->
  let r := ExperiencePage.submit currentYear answer refetch st in
  exists m d rest,
    requests (trace r) = m :: rest /\
    is_mutation m = true /\
    body_of m = Some (ExperienceJson d) /\
    ExperienceCreateData.endYear d = None /\
    Forall (fun q => is_mutation q = false) rest.
Proof.
  intros Hvalid Hcur r. subst r.
  unfold ExperiencePage.submit, handleSubmit, with_render. rewrite Hvalid.
  unfold bind at 1. cbn [modify].
  set (st' := ExperiencePage.withForm _ st).
  destruct (experience_payload_sent st' (Form.values (ExperiencePage.form st))
              answer refetch) as (m & rest & Hreq & Hm & Hb & Hrest).
  destruct (ExperiencePage.onSubmit _ answer refetch st') as [[res fin] tr] eqn:Hrun.
  cbn in Hreq |- *.
  exists m, (ExperiencePage.payload (ExperiencePage.isCurrentJob st')
               (Form.values (ExperiencePage.form st))), rest.
  repeat split; try assumption.
  subst st'. destruct st; cbn in *. rewrite Hcur. reflexivity.
Qed.

End ExperienceFacts.

(** ** The search filter *)

Lemma append_cons (a : ascii) (s t : string) : String a s +:+ t = String a (s +:+ t).
Proof. reflexivity. Qed.

Lemma startsWith_spec (q s : string) :
  Js.startsWith s q = true <-> exists post, s = q +:+ post.
Proof.
  revert s. induction q as [| b q IH]; intros s; cbn.
  - split; [intros _; exists s; reflexivity | reflexivity].
  - destruct s as [| a s]; cbn.
    + split; [discriminate | intros [post H]; discriminate].
    + destruct (Ascii.eqb a b) eqn:Hab.
      * apply Ascii.eqb_eq in Hab. subst b. rewrite IH.
        split; intros [post H]; exists post; rewrite append_cons in *; congruence.
      * apply Ascii.eqb_neq in Hab.
        split; [discriminate | intros [post H]; rewrite append_cons in H; congruence].
Qed.

Lemma includes_spec (s q : string) : Js.includes s q = true <-> substring q s.
Proof.
  unfold substring. induction s as [| c s IH]; cbn.
  - rewrite orb_false_r, startsWith_spec. split.
    + intros [post H]. exists "", post. exact H.
    + intros [[| a pre] [post H]]; [exists post; exact H | discriminate].
  - rewrite orb_true_iff, startsWith_spec, IH. split.
    + intros [[post H] | [pre [post H]]].
      * exists "", post. exact H.
      * exists (String c pre), post. rewrite append_cons. congruence.
    + intros [[| a pre] [post H]].
      * left. exists post. exact H.
      * right. exists pre, post. rewrite append_cons in H. congruence.
Qed.

Lemma includes_empty_query (s : string) : Js.includes s "" = true.
Proof. destruct s; reflexivity. Qed.

Lemma includes_in_empty (q : string) : Js.includes "" q = true -> q = "".
Proof. destruct q; [reflexivity | discriminate]. Qed.

(** The test on a nullable field, [d && d.toLowerCase().includes(q)],
    adds nothing to the test without the guard once another field is
    tested: an empty description only contains the empty query, which
    every field contains. *)
Lemma guarded_field (other : string) (d : option string) (q : string) :
  Js.includes other q ||
  match d with
  | Some d => Js.truthy d && Js.includes (Js.toLowerCase d) q
  | None => false
  end = true <->
  substring q other \/ exists d', d = Some d' /\ substring q (Js.toLowerCase d').
Proof.
  rewrite orb_true_iff, includes_spec. split.
  - intros [H | H]; [left; exact H |].
    destruct d as [d |]; [| discriminate].
    apply andb_true_iff in H as [_ H]. right. exists d. split; [reflexivity |].
    apply includes_spec, H.
  - intros [H | [d' [-> H]]]; [left; exact H |].
    apply includes_spec in H.
    destruct d' as [| c d']; cbn in *.
    + apply includes_in_empty in H. subst q. left.
      apply includes_spec, includes_empty_query.
    + right. exact H.
Qed.

(** C7: on the experience, certification and skills pages the list
    shown is the loaded collection filtered by a test that holds
    exactly for the entities with a documented field whose lowercase
    contains the lowercased query; typing a query leaves the loaded
    collection as it is. *)
Theorem search_filter_exact :
  (forall st : ExperiencePage.State,
     exists P,
       (forall e, P e = true <->
                  documented_match (ExperiencePage.searchQuery st) (experience_fields e)) /\
       ExperiencePage.filteredExperiences st
       = List.filter P (ExperiencePage.experiences st)) /\
  (forall st : CertificationsPage.State,
     exists P,
       (forall c, P c = true <->
                  documented_match (CertificationsPage.searchQuery st)
                                   (certification_fields c)) /\
       CertificationsPage.filteredCertifications st
       = List.filter P (CertificationsPage.certifications st)) /\
  (forall st : Skills.State,
     exists P,
       (forall k, P k = true <->
                  documented_match (Skills.searchQuery st) (skill_fields k)) /\
       Skills.filteredSkills st = List.filter P (Skills.skills st)) /\
  (forall (st : ExperiencePage.State) q,
     ExperiencePage.experiences (final (ExperiencePage.setSearchQuery q st))
     = ExperiencePage.experiences st) /\
  (forall (st : CertificationsPage.State) q,
     CertificationsPage.certifications (final (CertificationsPage.setSearchQuery q st))
     = CertificationsPage.certifications st) /\
  (forall (st : Skills.State) q,
     Skills.skills (final (Skills.setSearchQuery q st)) = Skills.skills st).
Proof.
  split; [| split; [| split; [| split; [| split]]]].
  - intros st. eexists. split; [| reflexivity].
    intros e. cbv beta. rewrite <- orb_assoc, orb_true_iff, includes_spec, guarded_field.
    unfold documented_match, experience_fields. split.
    + intros [H | [H | [d [Hd H]]]].
      * eexists; split; [left; reflexivity | exact H].
      * eexists; split; [right; left; reflexivity | exact H].
      * exists d. rewrite Hd. split; [right; right; left; reflexivity | exact H].
    + intros [f [Hin H]]. cbn in Hin. destruct Hin as [<- | [<- | Hin]]; auto.
      destruct (Experience.description e) as [d |]; [| destruct Hin].
      destruct Hin as [<- | []]. right; right. eauto.
  - intros st. eexists. split; [| reflexivity].
    intros c. cbv beta. rewrite <- orb_assoc, orb_true_iff, includes_spec, guarded_field.
    unfold documented_match, certification_fields. split.
    + intros [H | [H | [d [Hd H]]]].
      * eexists; split; [left; reflexivity | exact H].
      * eexists; split; [right; left; reflexivity | exact H].
      * exists d. rewrite Hd. split; [right; right; left; reflexivity | exact H].
    + intros [f [Hin H]]. cbn in Hin. destruct Hin as [<- | [<- | Hin]]; auto.
      destruct (Certification.description c) as [d |]; [| destruct Hin].
      destruct Hin as [<- | []]. right; right. eauto.
  - intros st. eexists. split; [| reflexivity].
    intros k. cbv beta. rewrite includes_spec.
    unfold documented_match, skill_fields. split.
    + intros H. eexists; split; [left; reflexivity | exact H].
    + intros [f [[<- | []] H]]. exact H.
  - intros [] q; reflexivity.
  - intros [] q; reflexivity.
  - intros [] q; reflexivity.
Qed.

Example search_company_case_insensitive :
  let e := {| Experience.id := "1"; Experience.userId := "u";
              Experience.startYear := Js.Num 2020; Experience.endYear := None;
              Experience.companyName := "Tech Corp"; Experience.description := Some "";
              Experience.location := "Jakarta";
              Experience.createdAt := ""; Experience.updatedAt := "";
              Experience.experienceSkills := None |} in
  let st q := final (ExperiencePage.setSearchQuery q
                (final (ExperiencePage.setExperiences [e] ExperiencePage.initial))) in
  ExperiencePage.filteredExperiences (st "tECH") = [e] /\
  ExperiencePage.filteredExperiences (st "kart") = [e] /\
  ExperiencePage.filteredExperiences (st "") = [e] /\
  ExperiencePage.filteredExperiences (st "corp.") = [].
Proof. repeat split. Qed.

(** ** The certification form *)

Section CertificationFacts.

Variable currentYear : Z.
Variable isUrl : string -> bool.

Lemma certificate_link_refused_in (v : CertificationsPage.CertificationFormData)
  (m : z.message) :
  CertificationsPage.certificateLinkSchema isUrl (CertificationsPage.certificateLink v)
  = Some m ->
  In ("certificateLink", m) (CertificationsPage.certificationSchema currentYear isUrl v).
Proof.
  intros H. unfold CertificationsPage.certificationSchema.
  rewrite !in_app_iff. do 4 right.
  unfold z.field. rewrite H. left. reflexivity.
Qed.

(** What the handler sends, whatever the values. *)
Lemma certification_payload_sent (st : CertificationsPage.State)
  (data : CertificationsPage.CertificationFormData) (answer : reply Certification.t)
  (refetch : reply (list Certification.t) * reply (list Skill.t)) :
  exists m rest,
    requests (trace (CertificationsPage.onSubmit data answer refetch st)) = m :: rest /\
    is_mutation m = true /\
    body_of m = Some (CertificationJson (CertificationsPage.payload data)) /\
    Forall (fun q => is_mutation q = false) rest.
Proof.
  destruct st as [? ? ? ? [ed |] ? ? ? ?], refetch as [r1 r2];
    (crack answer; [crack r1; crack r2 | | | |]); cbn;
    eexists; eexists; (split; [reflexivity |]);
    repeat split; repeat constructor.
Qed.

(** C9: the schema accepts a certificate link exactly when it is a
    well-formed URL or the empty string; a refused link gives the form
    the message of the field and the submission makes no call; an
    accepted empty link is absent from the body of the create or update
    call, an accepted non-empty one is sent as it is. *)
Theorem certificate_link_validated :
  (forall s,
     CertificationsPage.certificateLinkSchema isUrl (Some s) = None <->
     isUrl s = true \/ s = "") /\
  (forall (st : CertificationsPage.State) answer refetch s,
     CertificationsPage.certificateLink (Form.values (CertificationsPage.form st))
     = Some s ->
     isUrl s = false -> s <> "" ->
     let r := CertificationsPage.submit currentYear isUrl answer refetch st in
     In ("certificateLink", z.Custom "Invalid URL")
        (Form.errors (CertificationsPage.form (final r))) /\
     trace r = [] /\
     Form.values (CertificationsPage.form (final r))
     = Form.values (CertificationsPage.form st)) /\
  (forall (st : CertificationsPage.State) answer refetch,
     let v := Form.values (CertificationsPage.form st) in
     CertificationsPage.certificationSchema currentYear isUrl v = [] ->
     let r := CertificationsPage.submit currentYear isUrl answer refetch st in
     exists m d rest,
       requests (trace r) = m :: rest /\
       is_mutation m = true /\
       body_of m = Some (CertificationJson d) /\
       Forall (fun q => is_mutation q = false) rest /\
       CertificationCreateData.certificateLink d =
       match CertificationsPage.certificateLink v with
       | Some "" => None
       | other => other
       end).
Proof.
  split; [| split].
  - intros s. unfold CertificationsPage.certificateLinkSchema, z.or, z.optional,
      CertificationsPage.string_url, z.literal.
    destruct (isUrl s) eqn:Hu.
    + split; auto.
    + destruct (String.eqb_spec s "") as [-> | Hne].
      * split; auto.
      * split; [discriminate | intros [H | H]; [discriminate | contradiction]].
  - intros st answer refetch s Hs Hu Hne r. subst r.
    assert (Hin : In ("certificateLink", z.Custom "Invalid URL")
                     (CertificationsPage.certificationSchema currentYear isUrl
                        (Form.values (CertificationsPage.form st)))).
    { apply certificate_link_refused_in. rewrite Hs.
      unfold CertificationsPage.certificateLinkSchema, z.or, z.optional,
        CertificationsPage.string_url, z.literal.
      rewrite Hu. destruct (String.eqb_spec s ""); [contradiction | reflexivity]. }
    unfold CertificationsPage.submit, handleSubmit, with_render.
    destruct (CertificationsPage.certificationSchema currentYear isUrl
                (Form.values (CertificationsPage.form st))) as [| i issues];
      [destruct Hin |].
    destruct st; cbn. repeat split. exact Hin.
  - intros st answer refetch v Hvalid r. subst r v.
    unfold CertificationsPage.submit, handleSubmit, with_render. rewrite Hvalid.
    unfold bind at 1. cbn [modify].
    set (st' := CertificationsPage.withForm _ st).
    destruct (certification_payload_sent st'
                (Form.values (CertificationsPage.form st)) answer refetch)
      as (m & rest & Hreq & Hm & Hb & Hrest).
    destruct (CertificationsPage.onSubmit _ answer refetch st') as [[res fin] tr] eqn:Hrun.
    cbn in Hreq |- *.
    exists m, (CertificationsPage.payload (Form.values (CertificationsPage.form st))), rest.
    repeat split; try assumption.
    cbn. destruct (CertificationsPage.certificateLink _) as [[| c s] |]; reflexivity.
Qed.

End CertificationFacts.

Example certificate_link_cases :
  let isUrl s := Js.startsWith s "https://" in
  CertificationsPage.certificateLinkSchema isUrl (Some "https://aws.example/cert/1") = None /\
  CertificationsPage.certificateLinkSchema isUrl (Some "") = None /\
  CertificationsPage.certificateLinkSchema isUrl None = None /\
  CertificationsPage.certificateLinkSchema isUrl (Some "not a link")
  = Some (z.Custom "Invalid URL").
Proof. repeat split. Qed.

(** ** The social-media list of the user-details form *)

Lemma separators_app (a b : string) :
  UserDetailsPage.separators (a +:+ b)
  = UserDetailsPage.separators a + UserDetailsPage.separators b.
Proof.
  induction a as [| c a IH]; [reflexivity |].
  rewrite append_cons. cbn. rewrite IH. lia.
Qed.

Lemma space_is_no_separator (c : ascii) :
  Js.is_space c = true -> Ascii.eqb c "|" = false.
Proof.
  destruct (Ascii.eqb_spec c "|") as [-> | _]; [discriminate | reflexivity].
Qed.

Lemma separators_trimStart (s : string) :
  UserDetailsPage.separators (Js.trimStart s) = UserDetailsPage.separators s.
Proof.
  induction s as [| c s IH]; [reflexivity |]. cbn.
  destruct (Js.is_space c) eqn:Hc; [| reflexivity].
  rewrite IH, (space_is_no_separator c Hc). reflexivity.
Qed.

Lemma separators_trimEnd (s : string) :
  UserDetailsPage.separators (Js.trimEnd s) = UserDetailsPage.separators s.
Proof.
  induction s as [| c s IH]; [reflexivity |]. cbn.
  destruct (Js.trimEnd s) as [| c' s'] eqn:Ht.
  - cbn in IH. rewrite <- IH.
    destruct (Js.is_space c) eqn:Hc; cbn.
    + rewrite (space_is_no_separator c Hc). reflexivity.
    + lia.
  - cbn in IH |- *. rewrite IH. reflexivity.
Qed.

(** Trimming removes white space only, so it keeps the separators. *)
Lemma separators_trim (s : string) :
  UserDetailsPage.separators (Js.trim s) = UserDetailsPage.separators s.
Proof. unfold Js.trim. rewrite separators_trimEnd. apply separators_trimStart. Qed.

Lemma Forall_remove_at {A} (P : A -> Prop) (i : nat) (l : list A) :
  Forall P l -> Forall P (Js.remove_at i l).
Proof.
  intros H. revert i. induction H as [| x l Hx Hl IH]; intros [| i]; cbn; auto.
Qed.

Section SocialMediaFacts.

Variable imageCompression : File.t -> CompressionOptions.t -> outcome File.t.
Variable Date_now : Z.

Abbreviation step := (UserDetailsPage.step imageCompression Date_now).
Abbreviation run := (UserDetailsPage.run imageCompression Date_now).

Lemma load_tidy (st : UserDetailsPage.State) (answer : reply UserDetails.t) :
  served_well answer -> tidy st ->
  tidy (final (UserDetailsPage.loadUserDetails answer st)).
Proof.
  unfold tidy. destruct st. crack answer; cbn; auto.
  destruct (UserDetails.socialMedias _); cbn; intuition.
Qed.

Lemma submit_tidy (st : UserDetailsPage.State) (answer refetch : reply UserDetails.t) :
  served_well refetch -> tidy st ->
  tidy (final (UserDetailsPage.submit imageCompression Date_now answer refetch st)).
Proof.
  intros Hserved Htidy.
  unfold UserDetailsPage.submit, handleSubmit, with_render.
  destruct (UserDetailsPage.userDetailsSchema _) as [| i issues].
  2:{ destruct st; exact Htidy. }
  unfold bind at 1. cbn [modify].
  set (st' := UserDetailsPage.withForm _ st).
  assert (Htidy' : tidy st') by (destruct st; exact Htidy).
  generalize (Form.values (UserDetailsPage.form st)) as data.
  clearbody st'. clear Htidy st. intros data.
  destruct st' as [ud ? ? ? sm ic ur fm], data as [nm rl ds [[| photo0 rest] |]];
    unfold tidy in *; cbn in Htidy';
    unfold UserDetailsPage.onSubmit, with_render, compressImage, try_catch,
      try_finally, bind; cbn;
    try destruct (imageCompression photo0 (spread defaultOptions no_options)) as [c | ce];
    destruct ud; crack answer; cbn; try exact Htidy';
    crack refetch; cbn in Hserved |- *; try exact Htidy';
    destruct (UserDetails.socialMedias _); cbn; intuition.
Qed.

Lemma step_tidy (st : UserDetailsPage.State) (a : UserDetailsPage.action) :
  benign a -> tidy st -> tidy (step st a).
Proof.
  destruct a as [answer | v | v | | i | answer refetch]; cbn [benign]; intros Hb Ht.
  - apply load_tidy; assumption.
  - destruct st; unfold tidy in *; cbn in *; intuition.
  - destruct st; unfold tidy in *; cbn in *; intuition.
  - destruct st as [? ? ? ? sm ic ur ?]; unfold tidy in *; cbn in *.
    destruct Ht as (Hsm & Hic & Hur).
    unfold UserDetailsPage.step, UserDetailsPage.handler,
      UserDetailsPage.handleAddSocialMedia, with_render.
    cbn [UserDetailsPage.newSocialMediaIcon UserDetailsPage.newSocialMediaUrl
         UserDetailsPage.socialMedias].
    assert (Hti : UserDetailsPage.separators (Js.trim ic) = 0)
      by (rewrite separators_trim; exact Hic).
    assert (Htu : UserDetailsPage.separators (Js.trim ur) = 0)
      by (rewrite separators_trim; exact Hur).
    set (ti := Js.trim ic) in *. set (tu := Js.trim ur) in *. clearbody ti tu.
    destruct (Js.truthy ti && Js.truthy tu); cbn.
    + repeat split; try reflexivity.
      apply Forall_app. split; [exact Hsm |].
      constructor; [| constructor].
      unfold well_formed_entry.
      rewrite !separators_app, Hti, Htu. reflexivity.
    + repeat split; assumption.
  - destruct st; unfold tidy in *; cbn in *.
    destruct Ht as (Hsm & Hic & Hur). repeat split; try assumption.
    apply Forall_remove_at, Hsm.
  - apply submit_tidy; assumption.
Qed.

(** C5 (amended): from the first render, along every sequence of
    actions in which the icon names and URLs typed hold no ['|'] and the
    entries the server sends hold exactly one, every entry of
    [socialMedias] holds exactly one ['|']. *)
Theorem social_media_entries_well_formed (actions : list UserDetailsPage.action) :
  Forall benign actions ->
  Forall well_formed_entry (UserDetailsPage.socialMedias (run actions)).
Proof.
  intros Hb.
  assert (Hinit : tidy UserDetailsPage.initial).
  { unfold tidy; cbn. auto. }
  unfold UserDetailsPage.run.
  generalize dependent UserDetailsPage.initial.
  induction Hb as [| a actions Ha Hrest IH]; intros st Hst; cbn.
  - apply Hst.
  - apply IH. apply step_tidy; assumption.
Qed.

End SocialMediaFacts.

(** C5, as stated, fails: an icon name that holds the separator gives
    an entry with two of them. *)
Lemma social_media_entry_with_two_separators :
  UserDetailsPage.socialMedias
    (UserDetailsPage.run Sample.keep 0%Z Sample.straySession)
  = ["git|hub-logo|https://github.com/me"] /\
  ~ Forall well_formed_entry
      (UserDetailsPage.socialMedias
         (UserDetailsPage.run Sample.keep 0%Z Sample.straySession)).
Proof.
  split; [reflexivity |].
  intros H. vm_compute in H. inversion H as [| ? ? Hentry _]. discriminate Hentry.
Qed.

Lemma social_media_entries_well_formed_witness :
  Forall benign Sample.socialSession /\
  Forall well_formed_entry
    (UserDetailsPage.socialMedias
       (UserDetailsPage.run Sample.keep 0%Z Sample.socialSession)).
Proof.
  assert (H : Forall benign Sample.socialSession).
  { repeat constructor. }
  split; [exact H |].
  exact (social_media_entries_well_formed Sample.keep 0%Z Sample.socialSession H).
Defined.

(** Entries the server sends are stored as they come. *)
Example social_media_loaded_as_sent :
  let details :=
    {| UserDetails.id := "1"; UserDetails.userId := "u"; UserDetails.name := "A";
       UserDetails.role := "Dev"; UserDetails.description := None;
       UserDetails.socialMedias := Some ["globe"; "x-logo|https://x.com/a|b"];
       UserDetails.profilePhoto := None;
       UserDetails.createdAt := ""; UserDetails.updatedAt := "" |} in
  UserDetailsPage.socialMedias
    (UserDetailsPage.run Sample.keep 0%Z
       [UserDetailsPage.Mount
          (Responded {| ApiResponse.success := true; ApiResponse.data := Some details;
                        ApiResponse.error := None |})])
  = ["globe"; "x-logo|https://x.com/a|b"].
Proof. reflexivity. Qed.

Example social_media_add_then_remove :
  UserDetailsPage.socialMedias
    (UserDetailsPage.run (fun f _ => Return f) 0%Z
       [UserDetailsPage.TypeIcon " github-logo";
        UserDetailsPage.TypeUrl "https://github.com/me ";
        UserDetailsPage.Add;
        UserDetailsPage.TypeIcon "globe";
        UserDetailsPage.TypeUrl "   ";
        UserDetailsPage.Add;
        UserDetailsPage.TypeUrl "https://me.dev";
        UserDetailsPage.Add;
        UserDetailsPage.Remove 0])
  = ["globe|https://me.dev"].
Proof. reflexivity. Qed.

(** ** The theorems at sample inputs *)


Example submit_offline_trace :
  trace (ExperiencePage.onSubmit Sample.experienceValues Sample.offline
           (Sample.offline, Sample.offline) Sample.experienceModal)
  = [Request (POST "/experience"
       (ExperienceJson
          {| ExperienceCreateData.startYear := Js.Num 2021;
             ExperienceCreateData.endYear := None;
             ExperienceCreateData.companyName := "Tech Corp";
             ExperienceCreateData.description := Some "";
             ExperienceCreateData.location := "Jakarta";
             ExperienceCreateData.skillIds := Some [] |}));
     ToastError "Network Error"].
Proof. reflexivity. Qed.

Lemma current_job_submits_null_end_year_witness :
  ExperiencePage.experienceSchema 2026
    (Form.values (ExperiencePage.form Sample.experienceModal)) = [] /\
  ExperiencePage.isCurrentJob Sample.experienceModal = true /\
  exists m d rest,
    requests (trace (ExperiencePage.submit 2026 Sample.offline
                       (Sample.offline, Sample.offline) Sample.experienceModal))
    = m :: rest /\
    is_mutation m = true /\
    body_of m = Some (ExperienceJson d) /\
    ExperienceCreateData.endYear d = None /\
    Forall (fun q => is_mutation q = false) rest.
Proof.
  split; [reflexivity | split; [reflexivity |]].
  exact (current_job_submits_null_end_year 2026 Sample.experienceModal Sample.offline
           (Sample.offline, Sample.offline) eq_refl eq_refl).
Defined.

Lemma failed_load_reaches_idle_witness :
  let r := Skills.loadSkills Sample.offline Skills.initial in
  fulfilled (@Sample.offline (list Skill.t)) = false /\
  result r = Return tt /\
  Idle (workflow Sample.keep 0%Z "" Sample.stringify OnSkills) (final r) /\
  Skills.skills (final r) = [] /\
  exists msg, trace r = [Request (GET "/skills"); ToastError msg].
Proof.
  split; [reflexivity |].
  exact (failed_load_reaches_idle Sample.keep 0%Z "" Sample.stringify OnSkills
           Sample.offline eq_refl).
Defined.

Lemma create_without_icon_blocked_witness :
  let r := Skills.onSubmit Sample.keep 0%Z Sample.skillValues Sample.offline
             Sample.offline Sample.skillModal in
  Skills.editingSkill Sample.skillModal = None /\
  (Skills.icon Sample.skillValues = None \/ Skills.icon Sample.skillValues = Some []) /\
  result r = Return tt /\
  trace r = [ToastError "Icon is required for new skills"] /\
  requests (trace r) = [] /\
  Skills.skills (final r) = Skills.skills Sample.skillModal /\
  Skills.isModalOpen (final r) = Skills.isModalOpen Sample.skillModal /\
  Skills.form (final r) = Skills.form Sample.skillModal /\
  Skills.isSubmitting (final r) = false.
Proof.
  split; [reflexivity | split; [left; reflexivity |]].
  exact (create_without_icon_blocked Sample.keep 0%Z Sample.skillModal Sample.skillValues
           Sample.offline Sample.offline eq_refl (or_introl eq_refl)).
Defined.

Lemma certificate_link_validated_witness :
  let r := CertificationsPage.submit 2026 Sample.isUrl Sample.offline
             (Sample.offline, Sample.offline) Sample.certificationModal in
  Sample.isUrl "not a link" = false /\
  In ("certificateLink", z.Custom "Invalid URL")
     (Form.errors (CertificationsPage.form (final r))) /\
  trace r = [] /\
  Form.values (CertificationsPage.form (final r))
  = Form.values (CertificationsPage.form Sample.certificationModal).
Proof.
  split; [reflexivity |].
  refine (proj1 (proj2 (certificate_link_validated 2026 Sample.isUrl))
            Sample.certificationModal Sample.offline
            (Sample.offline, Sample.offline) "not a link" eq_refl eq_refl _).
  discriminate.
Defined.

(* ===================================================================== *)
(** * Further properties of the code                                      *)
(* ===================================================================== *)

(** ** Loading, deleting and the modal on the list pages *)

Section DialogFacts.

Variable imageCompression : File.t -> CompressionOptions.t -> outcome File.t.
Variable Date_now : Z.
Variable now_iso : string.
Variable JSON_stringify : list string -> string.
Variable currentYear : Z.
Variable format_date : string -> string.
Variable published_of : Project.t -> option bool.

Abbreviation workflow := (workflow imageCompression Date_now now_iso JSON_stringify).
Abbreviation own_list := (own_list imageCompression Date_now now_iso JSON_stringify).
Abbreviation openModal :=
  (openModal imageCompression Date_now now_iso JSON_stringify currentYear
     format_date published_of).
Abbreviation closeModal := (closeModal imageCompression Date_now now_iso JSON_stringify).
Abbreviation requestDelete :=
  (requestDelete imageCompression Date_now now_iso JSON_stringify).
Abbreviation confirmDelete :=
  (confirmDelete imageCompression Date_now now_iso JSON_stringify).
Abbreviation delete_target :=
  (delete_target imageCompression Date_now now_iso JSON_stringify).
Abbreviation dialog_open := (dialog_open imageCompression Date_now now_iso JSON_stringify).
Abbreviation closeDialog := (closeDialog imageCompression Date_now now_iso JSON_stringify).
Abbreviation handleConfirm :=
  (handleConfirm imageCompression Date_now now_iso JSON_stringify).
Abbreviation editing := (editing imageCompression Date_now now_iso JSON_stringify).

(** X1: a load of a list page, from any state and on any answers,
    returns normally, clears [isLoading], makes each list call once and
    leaves the modal alone; when every call succeeds the collection is
    the list sent and nothing is notified, otherwise the collection
    loaded before is kept and one error is notified. *)
Theorem load_outcome (p : page) (st : wf_State (workflow p))
  (answers : wf_Lists (workflow p)) :
  let r := wf_load (workflow p) answers st in
  result r = Return tt /\
  wf_isLoading (workflow p) (final r) = false /\
  requests (trace r) = wf_list_requests (workflow p) /\
  wf_isModalOpen (workflow p) (final r) = wf_isModalOpen (workflow p) st /\
  if wf_lists_fulfilled (workflow p) answers
  then notifications (trace r) = [] /\
       sent (own_list p answers) = Some (wf_collection (workflow p) (final r))
  else (exists msg, notifications (trace r) = [ToastError msg]) /\
       wf_collection (workflow p) (final r) = wf_collection (workflow p) st.
Proof.
  destruct p; cbn in st, answers |- *; destruct st.
  - crack answers; cbn; repeat split; eauto.
  - destruct answers as [a1 a2]; crack a1; crack a2; cbn; repeat split; eauto.
  - crack answers; cbn; repeat split; eauto.
  - destruct answers as [a1 a2]; crack a1; crack a2; cbn; repeat split; eauto.
  - destruct answers as [a1 a2]; crack a1; crack a2; cbn; repeat split; eauto.
Qed.

(** X2: the confirm button of the delete dialog.  It always leaves the
    dialog closed and without a target.  Without a target in the dialog
    nothing else happens.  With one, the delete call goes to the entity;
    when it fails the page shows its fixed text, whatever message the
    answer carries, makes no list call and keeps the rest of its state;
    when it succeeds a success notification follows and then the list
    calls. *)
Theorem confirm_delete_outcome (p : page) (st : wf_State (workflow p))
  (answer : reply unit) (refetch : wf_Lists (workflow p)) :
  let r := handleConfirm p answer refetch st in
  result r = Return tt /\
  dialog_open p (final r) = false /\
  delete_target p (final r) = None /\
  match delete_target p st with
  | None | Some "" => trace r = [] /\ final r = final (closeDialog p st)
  | Some id =>
      if deleted answer
      then exists msg after,
          trace r = Request (DELETE (entity_url p id)) :: ToastSuccess msg :: after /\
          requests after = wf_list_requests (workflow p)
      else trace r = [Request (DELETE (entity_url p id));
                      ToastError (delete_failed_text p)] /\
           final r = final (closeDialog p st)
  end.
Proof.
  destruct p; cbn in st, refetch |- *.
  - destruct st as [? ? ? ? ? ? ? [o [[| c id] |]] ?]; cbn; auto;
      crack answer; crack refetch; cbn; repeat (split; [reflexivity |]); eauto.
  - destruct st as [? ? ? ? ? ? ? ? [o [[| c id] |]] ?], refetch as [r1 r2]; cbn; auto;
      (crack answer; [crack r1; crack r2 | crack r1; crack r2 | | |]); cbn;
      repeat (split; [reflexivity |]); eauto.
  - destruct st as [? ? ? ? ? ? [o [[| c id] |]] ?]; cbn; auto;
      crack answer; crack refetch; cbn; repeat (split; [reflexivity |]); eauto.
  - destruct st as [? ? ? ? ? ? ? [o [[| c id] |]] ?], refetch as [r1 r2]; cbn; auto;
      (crack answer; [crack r1; crack r2 | crack r1; crack r2 | | |]); cbn;
      repeat (split; [reflexivity |]); eauto.
  - destruct st as [? ? ? ? ? ? ? ? ? ? [o [[| c id] |]] ?], refetch as [r1 r2];
      cbn; auto;
      (crack answer; [crack r1; crack r2 | crack r1; crack r2 | | |]); cbn;
      repeat (split; [reflexivity |]); eauto.
Qed.

(** What [onClose] writes: the dialog and nothing else. *)
Lemma close_dialog_only (p : page) (st : wf_State (workflow p)) :
  wf_collection (workflow p) (final (closeDialog p st)) = wf_collection (workflow p) st /\
  wf_isModalOpen (workflow p) (final (closeDialog p st)) = wf_isModalOpen (workflow p) st /\
  wf_isLoading (workflow p) (final (closeDialog p st)) = wf_isLoading (workflow p) st /\
  wf_form (workflow p) (final (closeDialog p st)) = wf_form (workflow p) st /\
  editing p (final (closeDialog p st)) = editing p st.
Proof. destruct p; destruct st; repeat split. Qed.

(** The button of a list item puts its id into the dialog. *)
Lemma request_delete_target (p : page) (st : wf_State (workflow p)) (id : string) :
  delete_target p (final (requestDelete p id st)) = Some id /\
  wf_collection (workflow p) (final (requestDelete p id st))
  = wf_collection (workflow p) st /\
  trace (requestDelete p id st) = [].
Proof. destruct p; destruct st; repeat split. Qed.

(** X3: cancelling an edit leaves nothing of the edited entity behind:
    opening the modal for a new entry after an edit was opened and
    closed gives the state that opening it for a new entry gives at
    once; and a closed modal edits no entity. *)
Theorem cancelled_edit_leaves_clean_form (p : page) (st : wf_State (workflow p))
  (e : wf_Entity (workflow p)) :
  let cancelled := final (closeModal p (final (openModal p (Some e) st))) in
  final (openModal p None cancelled) = final (openModal p None st) /\
  editing p cancelled = None /\
  wf_isModalOpen (workflow p) cancelled = false /\
  wf_collection (workflow p) cancelled = wf_collection (workflow p) st.
Proof. destruct p; destruct st; repeat split. Qed.

End DialogFacts.

(** ** Editing and validating *)

Section EditFacts.

Variable currentYear : Z.
Variable isUrl : string -> bool.

(** X4: an experience opened for edit and submitted as it is, once its
    fields pass the schema, is sent to its own id with its own fields: a
    [null] end year stays [null] (the toggle is set from it), a [null]
    description goes out as the empty string. *)
Theorem unchanged_experience_is_resent (st : ExperiencePage.State) (exp : Experience.t)
  (answer : reply Experience.t)
  (refetch : reply (list Experience.t) * reply (list Skill.t)) :
  let opened := final (ExperiencePage.handleOpenModal currentYear (Some exp) st) in
  ExperiencePage.experienceSchema currentYear
    (Form.values (ExperiencePage.form opened)) = [] ->
  exists rest,
    requests (trace (ExperiencePage.submit currentYear answer refetch opened)) =
    PUT ("/experience/" +:+ Experience.id exp)
      (ExperienceJson
         {| ExperienceCreateData.startYear := Experience.startYear exp;
            ExperienceCreateData.endYear := Experience.endYear exp;
            ExperienceCreateData.companyName := Experience.companyName exp;
            ExperienceCreateData.description :=
              Some (Js.or_else (Experience.description exp) "");
            ExperienceCreateData.location := Experience.location exp;
            ExperienceCreateData.skillIds :=
              Some (skill_ids (Experience.experienceSkills exp)) |}) :: rest.
Proof.
  intros opened Hvalid.
  unfold ExperiencePage.submit, handleSubmit, with_render. rewrite Hvalid.
  clear Hvalid. subst opened.
  destruct st, exp as [? ? ? [ey |] ? ? ? ? ? ?], refetch as [r1 r2];
    (crack answer; [crack r1; crack r2 | | | |]); cbn; eexists; reflexivity.
Qed.

(** X5: the same for a certification; a certificate link that is
    [null] or empty is left out of the body, another one is sent as it
    is. *)
Theorem unchanged_certification_is_resent (st : CertificationsPage.State)
  (cert : Certification.t) (answer : reply Certification.t)
  (refetch : reply (list Certification.t) * reply (list Skill.t)) :
  let opened := final (CertificationsPage.handleOpenModal currentYear (Some cert) st) in
  CertificationsPage.certificationSchema currentYear isUrl
    (Form.values (CertificationsPage.form opened)) = [] ->
  exists rest,
    requests (trace (CertificationsPage.submit currentYear isUrl answer refetch opened)) =
    PUT ("/certifications/" +:+ Certification.id cert)
      (CertificationJson
         {| CertificationCreateData.name := Certification.name cert;
            CertificationCreateData.issuingOrganization :=
              Certification.issuingOrganization cert;
            CertificationCreateData.year := Certification.year cert;
            CertificationCreateData.description :=
              Some (Js.or_else (Certification.description cert) "");
            CertificationCreateData.certificateLink :=
              text_or_absent (Certification.certificateLink cert);
            CertificationCreateData.skillIds :=
              Some (skill_ids (Certification.certificationSkills cert)) |}) :: rest.
Proof.
  intros opened Hvalid.
  unfold CertificationsPage.submit, handleSubmit, with_render. rewrite Hvalid.
  clear Hvalid. subst opened.
  destruct st, cert as [? ? ? ? ? ? [[| c l] |] ? ? ?], refetch as [r1 r2];
    (crack answer; [crack r1; crack r2 | | | |]); cbn; eexists; reflexivity.
Qed.

Lemma field_accepts {V} (name : string) (sch : z.schema V) (v : V) :
  z.field name sch v = [] <-> sch v = None.
Proof. unfold z.field. destruct (sch v); split; congruence. Qed.

Lemma number_range_accepts (lo : Z) (msg : option string) (hi : Z) (n : Js.number) :
  z.number_range lo msg hi n = None <-> exists v, n = Js.Num v /\ (lo <= v <= hi)%Z.
Proof.
  unfold z.number_range. destruct n as [| v].
  - split; [discriminate | intros [v [H _]]; discriminate].
  - destruct (Z.ltb_spec v lo); [| destruct (Z.ltb_spec hi v)].
    + split; [destruct msg; discriminate | intros [w [[= <-] ?]]; lia].
    + split; [discriminate | intros [w [[= <-] ?]]; lia].
    + split; [intros _; exists v; split; [reflexivity | lia] | reflexivity].
Qed.

Lemma string_min1_accepts (msg s : string) : z.string_min1 msg s = None <-> s <> "".
Proof. unfold z.string_min1. destruct s; cbn; split; congruence. Qed.

(** X6: the experience form is accepted exactly when the start year is
    a number from 1900 to ten years ahead, the end year is [null] or
    such a number, and company and location are not empty; the two
    years are not compared.  A refused form makes no call: the issues
    go to the form, values and list stay. *)
Theorem experience_form_validation :
  (forall v,
     ExperiencePage.experienceSchema currentYear v = [] <->
     year_in_range currentYear (ExperiencePage.startYear v) /\
     (ExperiencePage.endYear v = None \/
      exists n, ExperiencePage.endYear v = Some n /\ year_in_range currentYear n) /\
     ExperiencePage.companyName v <> "" /\
     ExperiencePage.location v <> "") /\
  (forall (st : ExperiencePage.State) answer refetch,
     ExperiencePage.experienceSchema currentYear
       (Form.values (ExperiencePage.form st)) <> [] ->
     let r := ExperiencePage.submit currentYear answer refetch st in
     trace r = [] /\
     Form.errors (ExperiencePage.form (final r)) =
       ExperiencePage.experienceSchema currentYear
         (Form.values (ExperiencePage.form st)) /\
     Form.values (ExperiencePage.form (final r))
       = Form.values (ExperiencePage.form st) /\
     ExperiencePage.experiences (final r) = ExperiencePage.experiences st /\
     ExperiencePage.isModalOpen (final r) = ExperiencePage.isModalOpen st).
Proof.
  split.
  - intros v. unfold ExperiencePage.experienceSchema, year_in_range.
    rewrite !app_nil, !field_accepts, !number_range_accepts, !string_min1_accepts.
    unfold z.nullable, z.optional, z.string_any.
    destruct (ExperiencePage.endYear v) as [n |].
    + rewrite number_range_accepts.
      split.
      * intros (H1 & H2 & H3 & _ & H5). repeat split; auto. right. eauto.
      * intros (H1 & [H2 | [m [[= <-] H2]]] & H3 & H4); [discriminate |].
        repeat split; auto. destruct (ExperiencePage.description v); reflexivity.
    + split.
      * intros (H1 & _ & H3 & _ & H5). repeat split; auto.
      * intros (H1 & _ & H3 & H4). repeat split; auto.
        destruct (ExperiencePage.description v); reflexivity.
  - intros st answer refetch Hbad r. subst r.
    unfold ExperiencePage.submit, handleSubmit, with_render.
    destruct (ExperiencePage.experienceSchema currentYear
                (Form.values (ExperiencePage.form st))) as [| i issues];
      [congruence |].
    destruct st; cbn. repeat split.
Qed.

End EditFacts.

(** ** The slug of a project *)

Lemma alnum_is_slug_char (c : ascii) :
  ProjectsPage.alnum_char c = true -> Projects.slug_char c = true.
Proof.
  unfold ProjectsPage.alnum_char, Projects.slug_char. intros H. rewrite H. reflexivity.
Qed.

Lemma alnum_is_no_hyphen (c : ascii) :
  ProjectsPage.alnum_char c = true -> Ascii.eqb c "-" = false.
Proof.
  destruct (Ascii.eqb_spec c "-") as [-> | _]; [discriminate | reflexivity].
Qed.

Lemma replaceRuns_chars (b : bool) (s : string) :
  Projects.all_chars Projects.slug_char (ProjectsPage.replaceRuns b s) = true.
Proof.
  revert b. induction s as [| c r IH]; intros b; cbn; [reflexivity |].
  destruct (ProjectsPage.alnum_char c) eqn:Hc; cbn.
  - rewrite (alnum_is_slug_char c Hc), IH. reflexivity.
  - destruct b; cbn; rewrite IH; reflexivity.
Qed.

Lemma replaceRuns_in_run_start (s : string) :
  Js.startsWith (ProjectsPage.replaceRuns true s) "-" = false.
Proof.
  induction s as [| c r IH]; cbn; [reflexivity |].
  destruct (ProjectsPage.alnum_char c) eqn:Hc; cbn.
  - rewrite (alnum_is_no_hyphen c Hc). reflexivity.
  - exact IH.
Qed.

Lemma replaceRuns_no_double (b : bool) (s : string) :
  Js.includes (ProjectsPage.replaceRuns b s) "--" = false.
Proof.
  revert b. induction s as [| c r IH]; intros b; cbn; [reflexivity |].
  destruct (ProjectsPage.alnum_char c) eqn:Hc.
  - cbn. rewrite (alnum_is_no_hyphen c Hc). cbn. apply IH.
  - destruct b; [apply IH |].
    cbn. rewrite IH, orb_false_r.
    pose proof (replaceRuns_in_run_start r) as H.
    destruct (ProjectsPage.replaceRuns true r); [reflexivity | exact H].
Qed.

Lemma includes_tail (c : ascii) (s q : string) :
  Js.includes (String c s) q = false -> Js.includes s q = false.
Proof. cbn. intros H. apply orb_false_iff in H. apply H. Qed.

Lemma dropTrailingHyphen_cases (s : string) :
  s = ProjectsPage.dropTrailingHyphen s \/
  s = ProjectsPage.dropTrailingHyphen s +:+ "-".
Proof.
  induction s as [| c r IH]; [left; reflexivity |].
  destruct r as [| c' r'].
  - cbn. destruct (Ascii.eqb_spec c "-") as [-> | _]; [right | left]; reflexivity.
  - change (ProjectsPage.dropTrailingHyphen (String c (String c' r')))
      with (String c (ProjectsPage.dropTrailingHyphen (String c' r'))).
    rewrite append_cons.
    destruct IH as [IH | IH]; [left | right]; congruence.
Qed.

Lemma append_assoc (a b c : string) : (a +:+ b) +:+ c = a +:+ b +:+ c.
Proof.
  induction a as [| x a IH]; [reflexivity |].
  rewrite !append_cons, IH. reflexivity.
Qed.

Lemma dropTrailingHyphen_no_double (s : string) :
  Js.includes s "--" = false ->
  Js.includes (ProjectsPage.dropTrailingHyphen s) "--" = false.
Proof.
  intros H. destruct (Js.includes (ProjectsPage.dropTrailingHyphen s) "--") eqn:Hd;
    [| reflexivity].
  apply includes_spec in Hd. destruct Hd as (pre & post & Hd).
  assert (Hs : Js.includes s "--" = true); [| congruence].
  apply includes_spec.
  destruct (dropTrailingHyphen_cases s) as [Hc | Hc]; rewrite Hc, Hd.
  - exists pre, post. reflexivity.
  - exists pre, (post +:+ "-").
    rewrite !append_assoc. reflexivity.
Qed.

Lemma dropTrailingHyphen_chars (s : string) :
  Projects.all_chars Projects.slug_char s = true ->
  Projects.all_chars Projects.slug_char (ProjectsPage.dropTrailingHyphen s) = true.
Proof.
  induction s as [| c r IH]; [reflexivity |].
  destruct r as [| c' r'].
  - cbn. destruct (Ascii.eqb c "-"); auto.
  - change (ProjectsPage.dropTrailingHyphen (String c (String c' r')))
      with (String c (ProjectsPage.dropTrailingHyphen (String c' r'))).
    intros H. cbn [Projects.all_chars] in H |- *.
    apply andb_true_iff in H as [Hc Hr]. rewrite Hc, (IH Hr). reflexivity.
Qed.

Lemma dropTrailingHyphen_start (s : string) :
  Js.startsWith s "-" = false ->
  Js.startsWith (ProjectsPage.dropTrailingHyphen s) "-" = false.
Proof.
  destruct s as [| c [| c' r']]; cbn; auto.
  destruct (Ascii.eqb c "-") eqn:E; cbn; [discriminate | rewrite E; auto].
Qed.

Lemma dropTrailingHyphen_last (s : string) :
  Js.includes s "--" = false ->
  lastChar (ProjectsPage.dropTrailingHyphen s) <> Some "-"%char.
Proof.
  induction s as [| c r IH]; [discriminate |].
  destruct r as [| c' r'].
  - intros _. cbn. destruct (Ascii.eqb_spec c "-"); cbn; congruence.
  - intros H.
    change (ProjectsPage.dropTrailingHyphen (String c (String c' r')))
      with (String c (ProjectsPage.dropTrailingHyphen (String c' r'))).
    pose proof (IH (includes_tail _ _ _ H)) as IH'.
    destruct (ProjectsPage.dropTrailingHyphen (String c' r')) as [| d t] eqn:Hd.
    + cbn. intros [= ->].
      destruct (dropTrailingHyphen_cases (String c' r')) as [Hc | Hc];
        rewrite Hd in Hc; [discriminate |].
      cbn in Hc. injection Hc as -> ->. discriminate H.
    + exact IH'.
Qed.

(** The derived slug before its trailing hyphen is dropped. *)
Lemma dropLeadingHyphen_chars (titleValue : string) :
  Projects.all_chars Projects.slug_char
    (ProjectsPage.dropLeadingHyphen
       (ProjectsPage.replaceRuns false (Js.toLowerCase titleValue))) = true.
Proof.
  set (runs := ProjectsPage.replaceRuns false (Js.toLowerCase titleValue)).
  pose proof (replaceRuns_chars false (Js.toLowerCase titleValue)) as H.
  fold runs in H. destruct runs as [| c r]; [reflexivity |].
  cbn in H |- *. apply andb_true_iff in H as [Hc Hr].
  destruct (Ascii.eqb c "-"); [exact Hr |]. cbn. rewrite Hc, Hr. reflexivity.
Qed.

(** The slug schema can refuse a derived slug only for being empty. *)
Lemma deriveSlug_schema (titleValue : string) :
  let slug := ProjectsPage.deriveSlug titleValue in
  Projects.slugSchema slug = None \/
  slug = "" /\ Projects.slugSchema slug = Some (z.Custom "Slug is required").
Proof.
  cbv zeta. unfold ProjectsPage.deriveSlug, Projects.slugSchema.
  rewrite (dropTrailingHyphen_chars _ (dropLeadingHyphen_chars titleValue)).
  destruct (ProjectsPage.dropTrailingHyphen _); cbn; auto.
Qed.

(** X7: the slug derived from a title holds only code units of
    [[a-z0-9-]], neither begins nor ends with a hyphen and has no two
    hyphens in a row; so it passes the slug schema unless it is empty. *)
Theorem derived_slug_shape (titleValue : string) :
  let slug := ProjectsPage.deriveSlug titleValue in
  Projects.all_chars Projects.slug_char slug = true /\
  Js.startsWith slug "-" = false /\
  lastChar slug <> Some "-"%char /\
  Js.includes slug "--" = false /\
  (Projects.slugSchema slug = None \/
   slug = "" /\ Projects.slugSchema slug = Some (z.Custom "Slug is required")).
Proof.
  cbv zeta. pose proof (deriveSlug_schema titleValue) as Hschema. cbv zeta in Hschema.
  unfold ProjectsPage.deriveSlug in *.
  pose proof (dropLeadingHyphen_chars titleValue) as Hchars.
  set (runs := ProjectsPage.replaceRuns false (Js.toLowerCase titleValue)) in *.
  assert (Hdouble : Js.includes (ProjectsPage.dropLeadingHyphen runs) "--" = false).
  { pose proof (replaceRuns_no_double false (Js.toLowerCase titleValue)) as H.
    fold runs in H. destruct runs as [| c r]; [reflexivity |].
    cbn [ProjectsPage.dropLeadingHyphen].
    destruct (Ascii.eqb c "-"); [exact (includes_tail _ _ _ H) | exact H]. }
  assert (Hstart : Js.startsWith (ProjectsPage.dropLeadingHyphen runs) "-" = false).
  { subst runs. destruct (Js.toLowerCase titleValue) as [| c r]; [reflexivity |].
    cbn. destruct (ProjectsPage.alnum_char c) eqn:Hc.
    - cbn. rewrite (alnum_is_no_hyphen c Hc). cbn.
      rewrite (alnum_is_no_hyphen c Hc). reflexivity.
    - cbn. apply replaceRuns_in_run_start. }
  split; [apply dropTrailingHyphen_chars, Hchars |].
  split; [apply dropTrailingHyphen_start, Hstart |].
  split; [apply dropTrailingHyphen_last, Hdouble |].
  split; [apply dropTrailingHyphen_no_double, Hdouble | exact Hschema].
Qed.

Example derived_slug_of_title :
  ProjectsPage.deriveSlug "My Cool Project!" = "my-cool-project" /\
  ProjectsPage.deriveSlug "  --C++ & Rust--  " = "c-rust" /\
  ProjectsPage.deriveSlug "!!!" = "".
Proof. repeat split. Qed.

(** X8: typing a title while a new project is entered sets the slug to
    the derived one, and the slug can then only be refused for being
    empty; while a project is edited, or when the title is emptied, the
    slug stays as it is. *)
Theorem title_sets_slug (st : Projects.State) (titleValue : string) :
  let v := Form.values (Projects.form st) in
  let v' := Form.values (Projects.form (final (ProjectsPage.onTitleChange titleValue st))) in
  Projects.title v' = titleValue /\
  (if Js.truthy titleValue && negb (Js.present (Projects.editingProject st))
   then Projects.slug v' = ProjectsPage.deriveSlug titleValue /\
        forall m, In ("slug", m) (Projects.projectSchema v') ->
                  m = z.Custom "Slug is required"
   else Projects.slug v' = Projects.slug v).
Proof.
  cbv zeta. unfold ProjectsPage.onTitleChange.
  pose proof (deriveSlug_schema titleValue) as Hslug.
  cbv zeta in Hslug.
  set (g := ProjectsPage.deriveSlug titleValue) in *. clearbody g.
  destruct st as [? ? ? ? [ed |] ? ? ? ? ? ? [v dv er]], titleValue as [| c t]; cbn;
    (split; [reflexivity |]); try reflexivity.
  split; [reflexivity |].
  intros m H. rewrite !in_app_iff in H. unfold z.field, z.string_min1 in H.
  destruct Hslug as [Hok | [_ Hreq]]; [rewrite Hok in H | rewrite Hreq in H];
    destruct (Js.truthy (Projects.description v)),
             (Js.truthy (Projects.content v));
    cbn in H; intuition congruence.
Qed.

(** ** The content images of a project *)

Lemma remove_at_app_l {A} (i : nat) (a b : list A) :
  i < length a -> Js.remove_at i (a ++ b) = Js.remove_at i a ++ b.
Proof.
  revert i. induction a as [| x a IH]; intros i H; cbn in *; [lia |].
  destruct i as [| i]; [reflexivity |]. cbn. f_equal. apply IH. lia.
Qed.

Lemma remove_at_app_r {A} (i : nat) (a b : list A) :
  length a <= i -> Js.remove_at i (a ++ b) = a ++ Js.remove_at (i - length a) b.
Proof.
  revert i. induction a as [| x a IH]; intros i H; cbn in *.
  - rewrite Nat.sub_0_r. reflexivity.
  - destruct i as [| i]; [lia |]. cbn. f_equal. apply IH. lia.
Qed.

Lemma remove_at_map {A B} (f : A -> B) (i : nat) (l : list A) :
  Js.remove_at i (map f l) = map f (Js.remove_at i l).
Proof.
  revert i. induction l as [| x l IH]; intros [| i]; cbn; try reflexivity.
  f_equal. apply IH.
Qed.

Lemma remove_at_length {A} (i : nat) (l : list A) :
  i < length l -> S (length (Js.remove_at i l)) = length l.
Proof.
  revert i. induction l as [| x l IH]; intros i H; cbn in *; [lia |].
  destruct i as [| i]; [reflexivity |]. cbn. f_equal. apply IH. lia.
Qed.

Lemma remove_at_beyond {A} (i : nat) (l : list A) :
  length l <= i -> Js.remove_at i l = l.
Proof.
  revert i. induction l as [| x l IH]; intros i H; cbn in *;
    [destruct i; reflexivity |].
  destruct i as [| i]; [lia |]. cbn. f_equal. apply IH. lia.
Qed.

Lemma remove_at_lookup {A} (i j : nat) (l : list A) :
  Js.remove_at i l !! j = if (j <? i)%nat then l !! j else l !! S j.
Proof.
  revert i j. induction l as [| x l IH]; intros i j; cbn.
  - destruct i; cbn; rewrite ?lookup_nil;
      repeat match goal with
             | |- context [if ?c then _ else _] => destruct c
             end; reflexivity.
  - destruct i as [| i]; [reflexivity |].
    destruct j as [| j]; [reflexivity |]. cbn. apply IH.
Qed.

Section ImageBookkeeping.

Variable readAsDataURL : File.t -> string.


(** X10: removing the preview of a pending file, while the previews
    and the files are in step with the persisted count of the handler,
    removes that file and no other and keeps them in step; the
    persisted previews are not touched. *)
Theorem removing_pending_preview_keeps_pairing (st : Projects.State) (index : nat) :
  paired readAsDataURL (existingImageCount st) st ->
  existingImageCount st <= index ->
  let st' := final (Projects.handleRemovePreviewImage index st) in
  paired readAsDataURL (existingImageCount st) st' /\
  Projects.previewFiles st'
  = Js.remove_at (index - existingImageCount st) (Projects.previewFiles st) /\
  take (existingImageCount st) (Projects.previewImages st')
  = take (existingImageCount st) (Projects.previewImages st).
Proof.
  intros (persisted & Hlen & Hp) Hge.
  unfold Projects.handleRemovePreviewImage, with_render, existingImageCount in *.
  destruct st as [? ? ? ? ed ? ? previews files ? ? ?];
    cbn [Projects.editingProject Projects.previewImages Projects.previewFiles] in *.
  set (count := match ed with
                | Some p => length (Project.contentImages p)
                | None => 0
                end) in *.
  replace (index <? count)%nat with false by (symmetry; apply Nat.ltb_ge; lia).
  cbn. subst previews.
  assert (Hrm : Js.remove_at index (persisted ++ map readAsDataURL files)
                = persisted ++ map readAsDataURL (Js.remove_at (index - count) files)).
  { rewrite remove_at_app_r by lia. rewrite Hlen, remove_at_map. reflexivity. }
  repeat split.
  - exists persisted. split; [assumption |]. cbn. exact Hrm.
  - rewrite Hrm, !take_app_le by lia. reflexivity.
Qed.

(** X11: removing a persisted preview leaves the pending files alone
    and the rest in step, now after one persisted reference less; but
    the handler goes on counting with the persisted images of the
    project as loaded.  So when the preview of the first pending file,
    which has moved into that range, is removed next, the preview goes
    and its file stays among the files to upload. *)
Theorem removing_persisted_preview_shifts_count (st : Projects.State) (index : nat)
  (f : File.t) (fs : list File.t) :
  paired readAsDataURL (existingImageCount st) st ->
  index < existingImageCount st ->
  Projects.previewFiles st = f :: fs ->
  let st1 := final (Projects.handleRemovePreviewImage index st) in
  let st2 := final (Projects.handleRemovePreviewImage (existingImageCount st - 1) st1) in
  Projects.previewFiles st1 = f :: fs /\
  paired readAsDataURL (existingImageCount st - 1) st1 /\
  existingImageCount st1 = existingImageCount st /\
  Projects.previewFiles st2 = f :: fs /\
  Projects.previewImages st2
  = Js.remove_at index (take (existingImageCount st) (Projects.previewImages st))
    ++ map readAsDataURL fs.
Proof.
  intros (persisted & Hlen & Hp) Hlt Hfiles.
  unfold Projects.handleRemovePreviewImage, with_render, existingImageCount in *.
  destruct st as [? ? ? ? ed ? ? previews files ? ? ?];
    cbn [Projects.editingProject Projects.previewImages Projects.previewFiles] in *.
  set (count := match ed with
                | Some p => length (Project.contentImages p)
                | None => 0
                end) in *.
  subst previews files.
  replace (index <? count)%nat with true by (symmetry; apply Nat.ltb_lt; lia).
  cbn [final modify Projects.setPreviewImages fst snd Projects.editingProject
       Projects.previewImages Projects.previewFiles].
  fold count.
  replace (count - 1 <? count)%nat with true by (symmetry; apply Nat.ltb_lt; lia).
  cbn.
  pose proof (remove_at_length index persisted ltac:(lia)) as Hl.
  assert (Hrm : Js.remove_at index (persisted ++ map readAsDataURL (f :: fs))
                = Js.remove_at index persisted ++ map readAsDataURL (f :: fs)).
  { apply remove_at_app_l. lia. }
  repeat split.
  - exists (Js.remove_at index persisted). split; [lia |]. cbn. exact Hrm.
  - cbn [map] in Hrm. rewrite Hrm, remove_at_app_r by lia.
    replace (count - 1 - length (Js.remove_at index persisted)) with 0 by lia.
    rewrite take_app_le by lia. rewrite take_ge by lia. reflexivity.
Qed.

End ImageBookkeeping.

Lemma sample_project_paired :
  paired Sample3.dataUrl (existingImageCount Sample3.projectModal) Sample3.projectModal.
Proof. exists ["a.png"; "b.png"]. split; reflexivity. Qed.


Lemma removing_pending_preview_keeps_pairing_witness :
  paired Sample3.dataUrl (existingImageCount Sample3.projectModal) Sample3.projectModal /\
  existingImageCount Sample3.projectModal <= 2 /\
  Projects.previewFiles (final (Projects.handleRemovePreviewImage 2 Sample3.projectModal))
  = [].
Proof.
  split; [exact sample_project_paired |]. split; [cbn; lia |].
  exact (proj1 (proj2 (removing_pending_preview_keeps_pairing Sample3.dataUrl
                         Sample3.projectModal 2 sample_project_paired
                         (le_n 2)))).
Defined.

Lemma removing_persisted_preview_shifts_count_witness :
  let st1 := final (Projects.handleRemovePreviewImage 0 Sample3.projectModal) in
  let st2 := final (Projects.handleRemovePreviewImage 1 st1) in
  paired Sample3.dataUrl (existingImageCount Sample3.projectModal) Sample3.projectModal /\
  0 < existingImageCount Sample3.projectModal /\
  Projects.previewFiles Sample3.projectModal = [Sample3.photo] /\
  Projects.previewFiles st2 = [Sample3.photo] /\
  Projects.previewImages st2 = ["b.png"].
Proof.
  split; [exact sample_project_paired |]. split; [cbn; lia |]. split; [reflexivity |].
  pose proof (removing_persisted_preview_shifts_count Sample3.dataUrl
                Sample3.projectModal 0 Sample3.photo [] sample_project_paired
                (Nat.lt_0_succ 1) eq_refl) as (_ & _ & _ & H4 & H5).
  split; [exact H4 | exact H5].
Defined.

(** ** Compressing several images *)

Section BatchFacts.

Variable imageCompression : File.t -> CompressionOptions.t -> outcome File.t.
Variable Date_now : Z.

(** One call of the helper, by the answer of the transform. *)
Lemma compressImage_run {S} (file : File.t) (options : CompressionOptions.t) (s : S) :
  match imageCompression file (spread defaultOptions options) with
  | Throw e =>
      compressImage imageCompression Date_now file options s =
      (Return file, s, [ConsoleError "Image compression failed:" e])
  | Return compressed =>
      exists f,
        compressImage imageCompression Date_now file options s = (Return f, s, []) /\
        File.name f = File.name file /\
        File.type f = File.type compressed /\
        File.bytes f = File.bytes compressed
  end.
Proof.
  unfold compressImage, try_catch, bind, ret, emit.
  destruct (imageCompression file (spread defaultOptions options)) as [c | e]; cbn.
  - eexists. split; [reflexivity |]. cbn. auto.
  - reflexivity.
Qed.

(** X12: [compressImages] never throws and touches neither the state
    nor the network: it returns one file per input, in order; a file
    whose compression fails comes back as it is and does not fail the
    batch, any other keeps its name and has the compressed content. *)
Theorem compressImages_keeps_order {S} (files : list File.t)
  (options : CompressionOptions.t) (s : S) :
  exists outs tr,
    compressImages imageCompression Date_now files options s = (Return outs, s, tr) /\
    requests tr = [] /\ notifications tr = [] /\
    map File.name outs = map File.name files /\
    Forall2 (fun file out =>
               match imageCompression file (spread defaultOptions options) with
               | Throw _ => out = file
               | Return compressed =>
                   File.bytes out = File.bytes compressed /\
                   File.type out = File.type compressed
               end) files outs.
Proof.
  induction files as [| file rest IH]; cbn.
  - exists [], []. repeat split. constructor.
  - destruct IH as (outs & tr & Hrun & Hreq & Hnot & Hnames & Hall).
    pose proof (compressImage_run file options s) as Hone.
    unfold bind. 
    destruct (imageCompression file (spread defaultOptions options)) as [c | e] eqn:Hc.
    + destruct Hone as (f & Hf & Hname & Htype & Hbytes).
      rewrite Hf, Hrun. cbn.
      eexists (f :: outs), _. split; [reflexivity |].
      rewrite app_nil_r. repeat split; auto.
      * cbn. congruence.
      * constructor; [| exact Hall]. rewrite Hc. auto.
    + rewrite Hone, Hrun. cbn.
      eexists (file :: outs), _. split; [reflexivity |].
      rewrite app_nil_r. cbn. repeat split; auto.
      * congruence.
      * constructor; [| exact Hall]. rewrite Hc. reflexivity.
Qed.

End BatchFacts.

(** ** The user-details form *)

Lemma trimEnd_blank (s : string) :
  Js.trimEnd s = "" <-> Projects.all_chars Js.is_space s = true.
Proof.
  induction s as [| c r IH]; cbn; [tauto |].
  destruct (Js.trimEnd r) as [| c' r'] eqn:Hr.
  - destruct (Js.is_space c); cbn; [tauto |]. split; discriminate.
  - split; [discriminate |]. intros H. apply andb_true_iff in H as [_ H].
    apply IH in H. discriminate.
Qed.

Lemma trimStart_blank (s : string) :
  Projects.all_chars Js.is_space (Js.trimStart s) = Projects.all_chars Js.is_space s.
Proof.
  induction s as [| c r IH]; cbn; [reflexivity |].
  destruct (Js.is_space c) eqn:Hc; cbn; [exact IH | rewrite Hc; reflexivity].
Qed.

(** A string trims to nothing exactly when it is white space. *)
Lemma trim_blank (s : string) :
  Js.truthy (Js.trim s) = negb (Projects.all_chars Js.is_space s).
Proof.
  unfold Js.trim. rewrite <- trimStart_blank.
  pose proof (trimEnd_blank (Js.trimStart s)) as H.
  destruct (Js.trimEnd (Js.trimStart s)), (Projects.all_chars _ _); cbn;
    intuition congruence.
Qed.

(** X13: "Add" does nothing when the icon name or the URL is empty or
    white space; otherwise it puts the trimmed pair at the end of the
    list, keeps the entries that were there, and empties both inputs. *)
Theorem add_social_media_outcome (st : UserDetailsPage.State) :
  let st' := final (UserDetailsPage.handleAddSocialMedia st) in
  let icon := UserDetailsPage.newSocialMediaIcon st in
  let url := UserDetailsPage.newSocialMediaUrl st in
  trace (UserDetailsPage.handleAddSocialMedia st) = [] /\
  if Projects.all_chars Js.is_space icon || Projects.all_chars Js.is_space url
  then st' = st
  else UserDetailsPage.socialMedias st'
       = UserDetailsPage.socialMedias st ++ [Js.trim icon +:+ "|" +:+ Js.trim url] /\
       UserDetailsPage.newSocialMediaIcon st' = "" /\
       UserDetailsPage.newSocialMediaUrl st' = "".
Proof.
  cbv zeta. unfold UserDetailsPage.handleAddSocialMedia, with_render.
  rewrite !trim_blank.
  destruct st as [? ? ? ? sm ic ur ?];
    cbn [UserDetailsPage.newSocialMediaIcon UserDetailsPage.newSocialMediaUrl
         UserDetailsPage.socialMedias].
  destruct (Projects.all_chars Js.is_space ic), (Projects.all_chars Js.is_space ur);
    cbn; repeat split.
Qed.

(** X14: a remove button takes out the entry at its index and no
    other: the entries before keep their place, those after move up by
    one; an index past the end changes nothing. *)
Theorem remove_social_media_outcome (st : UserDetailsPage.State) (index : nat) :
  let st' := final (UserDetailsPage.handleRemoveSocialMedia index st) in
  (forall j, UserDetailsPage.socialMedias st' !! j =
             if (j <? index)%nat then UserDetailsPage.socialMedias st !! j
             else UserDetailsPage.socialMedias st !! S j) /\
  (if (index <? length (UserDetailsPage.socialMedias st))%nat
   then S (length (UserDetailsPage.socialMedias st'))
        = length (UserDetailsPage.socialMedias st)
   else st' = st) /\
  UserDetailsPage.newSocialMediaIcon st' = UserDetailsPage.newSocialMediaIcon st /\
  UserDetailsPage.newSocialMediaUrl st' = UserDetailsPage.newSocialMediaUrl st.
Proof.
  destruct st as [? ? ? ? sm ic ur ?]; cbn. repeat split.
  - intros j. apply remove_at_lookup.
  - change (match length sm with
            | 0 => false
            | S m' => (index <=? m')%nat
            end) with (index <? length sm)%nat.
    destruct (Nat.ltb_spec index (length sm)).
    + apply remove_at_length. assumption.
    + rewrite remove_at_beyond by assumption. reflexivity.
Qed.

Lemma getAll_app (a b : FormData) (key : string) :
  getAll (a ++ b) key = getAll a key ++ getAll b key.
Proof. unfold getAll. rewrite List.filter_app, map_app. reflexivity. Qed.

Lemma getAll_appended (links : list string) (base : FormData) (key : string) :
  getAll (fold_left (fun fd link => append fd "socialMedias" (Text link)) links base) key
  = getAll base key ++
    (if String.eqb "socialMedias" key then map Text links else []).
Proof.
  revert base. induction links as [| link links IH]; intros base; cbn [fold_left map].
  - destruct (String.eqb "socialMedias" key); rewrite app_nil_r; reflexivity.
  - rewrite IH. unfold append. rewrite getAll_app, <- app_assoc. f_equal.
    unfold getAll. cbn [List.filter fst snd map].
    destruct (String.eqb "socialMedias" key); reflexivity.
Qed.

Ltac close_body :=
  eexists; eexists;
  (split; [reflexivity |]); (split; [reflexivity |]); (split; [reflexivity |]);
  (split; [cbn; repeat constructor |]);
  rewrite ?getAll_app, !getAll_appended; repeat split;
  cbn; rewrite ?app_nil_r; reflexivity.

Section UserDetailsFacts.

Variable imageCompression : File.t -> CompressionOptions.t -> outcome File.t.
Variable Date_now : Z.

(** X15: every submission of the user-details form makes one create or
    update call, before anything else is requested or notified, and no
    second one: an update to [/user] when details were loaded, a create
    otherwise.  Its body holds the name and the role once, the
    description only when it is not empty, and the social-media entries
    of the page, all of them, in their order. *)
Theorem user_details_body (st : UserDetailsPage.State)
  (data : UserDetailsPage.UserDetailsFormData) (answer refetch : reply UserDetails.t) :
  let r := UserDetailsPage.onSubmit imageCompression Date_now data answer refetch st in
  exists before fd rest,
    trace r = before ++
      Request (if Js.present (UserDetailsPage.userDetails st)
               then PUT "/user" (Multipart fd) else POST "/user" (Multipart fd)) :: rest /\
    requests before = [] /\ notifications before = [] /\
    Forall (fun q => is_mutation q = false) (requests rest) /\
    getAll fd "socialMedias" = map Text (UserDetailsPage.socialMedias st) /\
    getAll fd "name" = [Text (UserDetailsPage.name data)] /\
    getAll fd "role" = [Text (UserDetailsPage.role data)] /\
    getAll fd "description" =
      match text_or_absent (UserDetailsPage.description data) with
      | Some d => [Text d]
      | None => []
      end.
Proof.
  destruct st as [ud ? ? ? sm ic ur fm], data as [nm rl ds [[| photo0 rest] |]];
    unfold UserDetailsPage.onSubmit, with_render, compressImage, try_catch,
      try_finally, bind; cbn;
    try destruct (imageCompression photo0 (spread defaultOptions no_options)) as [c | ce];
    destruct ud, ds as [[| ? ?] |]; (crack answer; [crack refetch | | | |]); cbn;
    first [ exists []; close_body | eexists [_]; close_body ].
Qed.

(** X16: the first save of the details, answered with success, reads
    the record again; when that read succeeds too the page holds the
    record read, shows its social-media entries (none for [null]), and
    is in update mode from then on. *)
Theorem first_save_switches_to_update (st : UserDetailsPage.State)
  (data : UserDetailsPage.UserDetailsFormData) (answer refetch : reply UserDetails.t)
  (saved : UserDetails.t) :
  fulfilled answer = true ->
  sent refetch = Some saved ->
  let st' := final (UserDetailsPage.onSubmit imageCompression Date_now
                      data answer refetch st) in
  UserDetailsPage.userDetails st' = Some saved /\
  UserDetailsPage.socialMedias st'
  = match UserDetails.socialMedias saved with Some l => l | None => [] end /\
  UserDetailsPage.name (Form.values (UserDetailsPage.form st')) = UserDetails.name saved /\
  UserDetailsPage.role (Form.values (UserDetailsPage.form st')) = UserDetails.role saved /\
  UserDetailsPage.isSubmitting st' = false.
Proof.
  destruct st as [ud ? ? ? sm ic ur fm], data as [nm rl ds [[| photo0 rest] |]];
    unfold UserDetailsPage.onSubmit, with_render, compressImage, try_catch,
      try_finally, bind; cbn;
    try destruct (imageCompression photo0 (spread defaultOptions no_options)) as [c | ce];
    destruct ud; (crack answer; [crack refetch | | | |]); cbn;
    try discriminate; intros _ [= ->]; repeat split.
Qed.

End UserDetailsFacts.

Lemma first_save_switches_to_update_witness :
  let saved :=
    {| UserDetails.id := "d1"; UserDetails.userId := "u1"; UserDetails.name := "Andika";
       UserDetails.role := "Developer"; UserDetails.description := None;
       UserDetails.socialMedias := None; UserDetails.profilePhoto := None;
       UserDetails.createdAt := ""; UserDetails.updatedAt := "" |} in
  let ok := Responded {| ApiResponse.success := true; ApiResponse.data := Some saved;
                         ApiResponse.error := None |} in
  fulfilled ok = true /\ sent ok = Some saved /\
  UserDetailsPage.userDetails
    (final (UserDetailsPage.onSubmit Sample.keep 0%Z UserDetailsPage.noValues ok ok
              UserDetailsPage.initial)) = Some saved.
Proof.
  intros saved ok. split; [reflexivity |]. split; [reflexivity |].
  exact (proj1 (first_save_switches_to_update Sample.keep 0%Z UserDetailsPage.initial
                  UserDetailsPage.noValues ok ok saved eq_refl eq_refl)).
Defined.

(** ** The skill buttons *)

Lemma selected_iff (id : string) (l : list string) :
  existsb (String.eqb id) l = true <-> In id l.
Proof.
  rewrite existsb_exists. split.
  - intros (x & Hin & Heq). apply String.eqb_eq in Heq. subst. exact Hin.
  - intros H. exists id. split; [exact H | apply String.eqb_refl].
Qed.

Lemma filter_out_absent (id : string) (l : list string) :
  ~ In id l -> List.filter (fun other => negb (String.eqb other id)) l = l.
Proof.
  induction l as [| x l IH]; cbn; [reflexivity |]. intros H.
  destruct (String.eqb_spec x id) as [-> | _]; cbn.
  - exfalso. apply H. left. reflexivity.
  - rewrite IH; [reflexivity |]. intros Hin. apply H. right. exact Hin.
Qed.

(** X17: a click on a skill button flips the selection of that skill
    and of no other; selecting a skill and clicking it again gives back
    the list as it was. *)
Theorem toggle_skill_flips (value : option (list string)) (id : string) :
  let current := match value with Some l => l | None => [] end in
  let next := toggleSkill value id in
  (In id next <-> ~ In id current) /\
  (forall other, other <> id -> (In other next <-> In other current)) /\
  (~ In id current -> toggleSkill (Some next) id = current).
Proof.
  cbv zeta.
  set (current := match value with Some l => l | None => [] end).
  assert (Hnext : toggleSkill value id =
                  if existsb (String.eqb id) current
                  then List.filter (fun other => negb (String.eqb other id)) current
                  else current ++ [id]) by reflexivity.
  rewrite Hnext. clear Hnext.
  destruct (existsb (String.eqb id) current) eqn:Hsel.
  - apply selected_iff in Hsel.
    split; [split | split; [intros other Hne; split |]].
    + intros H. apply filter_In in H as [_ H].
      rewrite String.eqb_refl in H. discriminate.
    + intros H. contradiction.
    + intros H. apply filter_In in H. apply H.
    + intros H. apply filter_In. split; [exact H |].
      destruct (String.eqb_spec other id); [contradiction | reflexivity].
    + intros H. contradiction.
  - assert (Hno : ~ In id current).
    { intros H. apply selected_iff in H. congruence. }
    split; [split | split; [intros other Hne; split |]].
    + intros _. exact Hno.
    + intros _. apply in_app_iff. right. left. reflexivity.
    + intros H. apply in_app_iff in H as [H | [H | []]]; [exact H | congruence].
    + intros H. apply in_app_iff. left. exact H.
    + intros _. unfold toggleSkill. cbv zeta iota beta.
      replace (existsb (String.eqb id) (current ++ [id])) with true.
      * cbv iota. rewrite List.filter_app, (filter_out_absent id current Hno). cbn.
        rewrite String.eqb_refl. cbn. apply app_nil_r.
      * symmetry. apply selected_iff, in_app_iff. right. left. reflexivity.
Qed.

(** ** More of the search *)

Lemma filter_all {A} (f : A -> bool) (l : list A) :
  (forall x, f x = true) -> List.filter f l = l.
Proof.
  intros H. induction l as [| x l IH]; cbn; [reflexivity |].
  rewrite H, IH. reflexivity.
Qed.

Section SearchFacts.

Variable imageCompression : File.t -> CompressionOptions.t -> outcome File.t.
Variable Date_now : Z.
Variable now_iso : string.
Variable JSON_stringify : list string -> string.

Abbreviation workflow := (workflow imageCompression Date_now now_iso JSON_stringify).
Abbreviation listed := (listed imageCompression Date_now now_iso JSON_stringify).
Abbreviation searchQuery := (searchQuery imageCompression Date_now now_iso JSON_stringify).

(** X18: with an empty search box every list page shows its whole
    collection, in the order loaded. *)
Theorem empty_query_lists_everything (p : page) (st : wf_State (workflow p)) :
  searchQuery p st = "" ->
  listed p st = wf_collection (workflow p) st.
Proof.
  destruct p; destruct st; cbn; intros ->; apply filter_all; intros x; cbn;
    rewrite includes_empty_query; reflexivity.
Qed.

End SearchFacts.

Lemma some_skill_name_spec (links : option (list SkillLink)) (q : string) :
  ProjectsPage.some_skill_name links q = true <->
  exists l ps, links = Some l /\ In ps l /\ substring q (Js.toLowerCase (Skill.name (skill ps))).
Proof.
  destruct links as [l |]; cbn.
  - rewrite existsb_exists. split.
    + intros (ps & Hin & H). exists l, ps. rewrite <- includes_spec. auto.
    + intros (l' & ps & [= <-] & Hin & H). exists ps. rewrite includes_spec. auto.
  - split; [discriminate | intros (l & ps & H & _); discriminate].
Qed.

(** X19: the lists of the education and the project page are the
    collection filtered by a test that holds exactly for the entities
    with a field whose lowercase contains the lowercased query: the
    institution name or a non-null description for education; the
    title, the description or the name of an associated skill for a
    project. *)
Theorem more_search_filters_exact :
  (forall st : EducationPage.State,
     exists P,
       (forall e, P e = true <->
                  documented_match (EducationPage.searchQuery st) (education_fields e)) /\
       EducationPage.filteredEducation st = List.filter P (EducationPage.education st)) /\
  (forall st : Projects.State,
     exists P,
       (forall p, P p = true <->
                  documented_match (Projects.searchQuery st) (project_fields p)) /\
       ProjectsPage.filteredProjects st = List.filter P (Projects.projects st)).
Proof.
  split.
  - intros st. eexists. split; [| reflexivity].
    intros e. cbv beta. rewrite guarded_field.
    unfold documented_match, education_fields. split.
    + intros [H | [d [Hd H]]].
      * eexists; split; [left; reflexivity | exact H].
      * exists d. rewrite Hd. split; [right; left; reflexivity | exact H].
    + intros [f [Hin H]]. cbn in Hin. destruct Hin as [<- | Hin]; auto.
      destruct (Education.description e) as [d |]; [| destruct Hin].
      destruct Hin as [<- | []]. right. eauto.
  - intros st. eexists. split; [| reflexivity].
    intros p. cbv beta.
    rewrite !orb_true_iff, !includes_spec, some_skill_name_spec.
    unfold documented_match, project_fields. split.
    + intros [[H | H] | (l & ps & Hl & Hin & H)].
      * eexists; split; [left; reflexivity | exact H].
      * eexists; split; [right; left; reflexivity | exact H].
      * exists (Skill.name (skill ps)). rewrite Hl. split; [| exact H].
        right; right. apply in_map_iff. eauto.
    + intros [f [Hin H]]. cbn in Hin. destruct Hin as [<- | [<- | Hin]]; auto.
      destruct (Project.projectSkills p) as [l |]; [| destruct Hin].
      apply in_map_iff in Hin as (ps & <- & Hin). right. eauto.
Qed.

Lemma empty_query_lists_everything_witness :
  Skills.searchQuery Sample.skillModal = "" /\
  Skills.filteredSkills Sample.skillModal = Skills.skills Sample.skillModal.
Proof.
  split; [reflexivity |].
  exact (empty_query_lists_everything Sample.keep 0%Z "" Sample.stringify OnSkills
           Sample.skillModal eq_refl).
Defined.

Lemma toggle_skill_flips_witness :
  ~ In "s2" ["s1"] /\
  toggleSkill (Some (toggleSkill (Some ["s1"]) "s2")) "s2" = ["s1"].
Proof.
  assert (H : ~ In "s2" ["s1"]).
  { intros [H | []]. discriminate H. }
  split; [exact H |].
  exact (proj2 (proj2 (toggle_skill_flips (Some ["s1"]) "s2")) H).
Defined.

(** ** Signing in *)

Lemma checkAuth_found (JSON_parse : string -> outcome (option User.t)) (w : Session)
  (js : string) (u : option User.t) :
  localStorage (browser w) !! "user" = Some js ->
  js <> "" ->
  JSON_parse js = Return u ->
  useAuthStore.checkAuth JSON_parse w =
  (Return tt,
   {| browser := browser w;
      store := {| AuthState.user := u;
                  AuthState.isAuthenticated :=
                    match localStorage (browser w) !! "auth_token" with
                    | Some t => Js.truthy t
                    | None => false
                    end;
                  AuthState.isLoading := AuthState.isLoading (store w) |} |},
   []).
Proof.
  destruct w as [[ls href] s]. cbn [browser store localStorage].
  intros Hu Hne Hparse.
  unfold useAuthStore.checkAuth, authService.getStoredUser,
    authService.isAuthenticated, authService.getStoredToken, getItem, in_browser,
    bind, ret, set_store, modify.
  cbn [browser store localStorage].
  rewrite Hu. destruct js as [| c js]; [congruence |].
  cbn [Js.truthy]. rewrite Hparse. reflexivity.
Qed.

Section LoginFacts.

Variable JSON_stringify : User.t -> string.
Variable JSON_parse : string -> outcome (option User.t).

(** X20: a login that is not granted changes nothing but the busy
    flag: after the one call to [/auth/login] with the values of the
    form, the stored session, the store and the route are as before,
    and one error notification shows the text of the refusal, the
    server's [error] first, then its [message], then "Login failed";
    the message of the transport when there was no response body. *)
Theorem refused_login_changes_nothing (st : Login.State) (data : Login.LoginFormData)
  (answer : auth_answer) :
  grant answer = None ->
  let r := Login.onSubmit JSON_stringify data answer st in
  result r = Return tt /\
  trace r = [Request (POST "/auth/login"
                        (LoginJson {| LoginCredentials.identifier := Login.identifier data;
                                      LoginCredentials.password := Login.password data |}));
             ToastError (refusal_text "Login failed" answer)] /\
  Login.session (final r) = Login.session st /\
  Login.navigated (final r) = Login.navigated st /\
  Login.isLoading (final r) = false.
Proof.
  destruct st as [[b s] ? ? ?], answer as [[[|] [[u t] |] err] | m [d |]]; cbn;
    try discriminate; intros _; repeat split.
Qed.

(** X21: a granted login, after the one call to [/auth/login] with
    the values of the form, stores the token under [auth_token] and the
    identity under [user], keeps every other key, puts the identity
    into the store as authenticated, notifies the success and goes to
    the dashboard. *)
Theorem granted_login_signs_in (st : Login.State) (data : Login.LoginFormData)
  (answer : auth_answer) (user : User.t) (token : string) :
  grant answer = Some (user, token) ->
  let r := Login.onSubmit JSON_stringify data answer st in
  let w := Login.session (final r) in
  result r = Return tt /\
  trace r = [Request (POST "/auth/login"
                        (LoginJson {| LoginCredentials.identifier := Login.identifier data;
                                      LoginCredentials.password := Login.password data |}));
             ToastSuccess "Login successful!"] /\
  localStorage (browser w) =
    <["user" := JSON_stringify user]>
      (<["auth_token" := token]> (localStorage (browser (Login.session st)))) /\
  AuthState.user (store w) = Some user /\
  AuthState.isAuthenticated (store w) = true /\
  Login.navigated (final r) = Some "/" /\
  Login.isLoading (final r) = false.
Proof.
  destruct st as [[[ls href] s] ? ? ?], answer as [[[|] [[u t] |] err] | m [d |]]; cbn;
    try discriminate; intros [= -> ->]; repeat split.
Qed.

(** X22: what a reload finds after a granted login, when the identity
    survives its serialisation: [checkAuth] puts the same identity into
    a fresh store; it reports the session as authenticated exactly when
    the token granted is not empty. *)
Theorem login_survives_reload (st : Login.State) (data : Login.LoginFormData)
  (answer : auth_answer) (user : User.t) (token : string) (fresh : AuthState.t) :
  grant answer = Some (user, token) ->
  JSON_stringify user <> "" ->
  JSON_parse (JSON_stringify user) = Return (Some user) ->
  let w := Login.session (final (Login.onSubmit JSON_stringify data answer st)) in
  let r := useAuthStore.checkAuth JSON_parse {| browser := browser w; store := fresh |} in
  result r = Return tt /\
  AuthState.user (store (final r)) = Some user /\
  AuthState.isAuthenticated (store (final r)) = Js.truthy token /\
  browser (final r) = browser w.
Proof.
  intros Hgrant Hne Hparse w r.
  assert (Hu : localStorage (browser w) !! "user" = Some (JSON_stringify user)).
  { subst w. destruct st as [[[ls href] s] ? ? ?],
      answer as [[[|] [[u t] |] err] | m [d |]]; cbn in Hgrant; try discriminate.
    injection Hgrant as -> ->. apply lookup_insert_eq. }
  assert (Ht : localStorage (browser w) !! "auth_token" = Some token).
  { subst w. destruct st as [[[ls href] s] ? ? ?],
      answer as [[[|] [[u t] |] err] | m [d |]]; cbn in Hgrant; try discriminate.
    injection Hgrant as -> ->.
    etransitivity; [apply lookup_insert_ne; discriminate | apply lookup_insert_eq]. }
  subst r.
  rewrite (checkAuth_found JSON_parse {| browser := browser w; store := fresh |}
             (JSON_stringify user) (Some user) Hu Hne Hparse).
  cbn [result final fst snd store browser AuthState.user AuthState.isAuthenticated].
  rewrite Ht. repeat split.
Qed.

(** X23: [checkAuth] reads the storage and never writes it.  With a
    readable identity it sets the store to that identity, authenticated
    exactly when a non-empty token is stored, whether or not there is
    an identity; an unreadable [user] entry makes it throw, and the
    store stays as it was. *)
Theorem check_auth_mirrors_storage (w : Session) :
  let r := useAuthStore.checkAuth JSON_parse w in
  browser (final r) = browser w /\
  trace r = [] /\
  match result (authService.getStoredUser JSON_parse (browser w)) with
  | Return u =>
      result r = Return tt /\
      AuthState.user (store (final r)) = u /\
      AuthState.isAuthenticated (store (final r)) =
        match localStorage (browser w) !! "auth_token" with
        | Some t => Js.truthy t
        | None => false
        end
  | Throw e => result r = Throw e /\ store (final r) = store w
  end.
Proof.
  destruct w as [[ls href] s].
  unfold useAuthStore.checkAuth, authService.getStoredUser,
    authService.isAuthenticated, authService.getStoredToken, getItem, in_browser,
    bind, ret, set_store, modify, result, final, trace.
  cbn [browser store localStorage fst snd].
  destruct (ls !! "user") as [[| c js] |]; cbn [Js.truthy];
    try destruct (JSON_parse (String c js)) as [u | e];
    cbn; destruct (ls !! "auth_token"); repeat split.
Qed.

Lemma string_min_accepts (n : nat) (msg s : string) :
  Login.string_min n msg s = None <-> n <= String.length s.
Proof.
  unfold Login.string_min. destruct (Nat.ltb_spec (String.length s) n); split;
    try discriminate; try reflexivity; lia.
Qed.

(** X24: the login form is accepted exactly when the identifier has
    three code units or more and the password six or more; a refused
    form asks nothing of the server: session, route and values stay,
    nothing is notified, the issues go to the form. *)
Theorem login_form_validation :
  (forall v,
     Login.loginSchema v = [] <->
     3 <= String.length (Login.identifier v) /\ 6 <= String.length (Login.password v)) /\
  (forall (st : Login.State) answer,
     Login.loginSchema (Form.values (Login.form st)) <> [] ->
     let r := Login.submit JSON_stringify answer st in
     trace r = [] /\
     Login.session (final r) = Login.session st /\
     Login.navigated (final r) = Login.navigated st /\
     Form.values (Login.form (final r)) = Form.values (Login.form st) /\
     Form.errors (Login.form (final r)) = Login.loginSchema (Form.values (Login.form st))).
Proof.
  split.
  - intros v. unfold Login.loginSchema.
    rewrite app_nil, !field_accepts, !string_min_accepts. reflexivity.
  - intros st answer Hbad r. subst r.
    unfold Login.submit, handleSubmit, with_render.
    destruct (Login.loginSchema (Form.values (Login.form st))) as [| i issues];
      [congruence |].
    destruct st; cbn. repeat split.
Qed.

End LoginFacts.

Lemma refused_login_changes_nothing_witness :
  let wrong := Refused "Request failed with status code 401"
                 (Some {| ErrorData.error := None;
                          ErrorData.message := Some "Invalid credentials" |}) in
  let r := Login.onSubmit Sample3.stringify
             {| Login.identifier := "andika"; Login.password := "secret1" |} wrong
             (Login.initial Sample3.signedOut) in
  grant wrong = None /\
  trace r = [Request (POST "/auth/login"
                        (LoginJson {| LoginCredentials.identifier := "andika";
                                      LoginCredentials.password := "secret1" |}));
             ToastError "Invalid credentials"] /\
  Login.session (final r) = Sample3.signedOut.
Proof.
  intros wrong r. split; [reflexivity |].
  pose proof (refused_login_changes_nothing Sample3.stringify
                (Login.initial Sample3.signedOut)
                {| Login.identifier := "andika"; Login.password := "secret1" |}
                wrong eq_refl) as (_ & H2 & H3 & _).
  split; [exact H2 | exact H3].
Defined.

Lemma granted_login_signs_in_witness :
  let r := Login.onSubmit Sample3.stringify
             {| Login.identifier := "andika"; Login.password := "secret1" |}
             Sample3.granted (Login.initial Sample3.signedOut) in
  grant Sample3.granted = Some (Sample3.user, "t0k3n") /\
  AuthState.user (store (Login.session (final r))) = Some Sample3.user /\
  Login.navigated (final r) = Some "/".
Proof.
  intros r. split; [reflexivity |].
  pose proof (granted_login_signs_in Sample3.stringify
                (Login.initial Sample3.signedOut)
                {| Login.identifier := "andika"; Login.password := "secret1" |}
                Sample3.granted Sample3.user "t0k3n" eq_refl)
    as (_ & _ & _ & H4 & _ & H6 & _).
  split; [exact H4 | exact H6].
Defined.

Lemma login_survives_reload_witness :
  let w := Login.session (final (Login.onSubmit Sample3.stringify
             {| Login.identifier := "andika"; Login.password := "secret1" |}
             Sample3.granted (Login.initial Sample3.signedOut))) in
  let r := useAuthStore.checkAuth Sample3.parse
             {| browser := browser w; store := store Sample3.signedOut |} in
  grant Sample3.granted = Some (Sample3.user, "t0k3n") /\
  Sample3.stringify Sample3.user <> "" /\
  Sample3.parse (Sample3.stringify Sample3.user) = Return (Some Sample3.user) /\
  AuthState.user (store (final r)) = Some Sample3.user /\
  AuthState.isAuthenticated (store (final r)) = true.
Proof.
  intros w r.
  assert (Hne : Sample3.stringify Sample3.user <> "") by discriminate.
  split; [reflexivity |]. split; [exact Hne |]. split; [reflexivity |].
  pose proof (login_survives_reload Sample3.stringify Sample3.parse
                (Login.initial Sample3.signedOut)
                {| Login.identifier := "andika"; Login.password := "secret1" |}
                Sample3.granted Sample3.user "t0k3n" (store Sample3.signedOut)
                eq_refl Hne eq_refl) as (_ & H2 & H3 & _).
  split; [exact H2 | exact H3].
Defined.

Lemma login_form_validation_witness :
  let st := Login.initial Sample3.signedOut in
  Login.loginSchema (Form.values (Login.form st)) <> [] /\
  trace (Login.submit Sample3.stringify Sample3.granted st) = [] /\
  Login.session (final (Login.submit Sample3.stringify Sample3.granted st))
  = Sample3.signedOut.
Proof.
  intros st.
  assert (H : Login.loginSchema (Form.values (Login.form st)) <> []) by discriminate.
  split; [exact H |].
  pose proof (proj2 (login_form_validation Sample3.stringify) st Sample3.granted H)
    as (H1 & H2 & _).
  split; [exact H1 | exact H2].
Defined.

(** A granted login with an empty token signs in, but is not found
    again by a reload. *)
Example empty_token_is_not_restored :
  let answer := Answered {| ApiResponse.success := true;
                            ApiResponse.data := Some (Sample3.user, "");
                            ApiResponse.error := None |} in
  let w := Login.session (final (Login.onSubmit Sample3.stringify
             {| Login.identifier := "andika"; Login.password := "secret1" |}
             answer (Login.initial Sample3.signedOut))) in
  AuthState.isAuthenticated (store w) = true /\
  AuthState.isAuthenticated
    (store (final (useAuthStore.checkAuth Sample3.parse
                     {| browser := browser w; store := store Sample3.signedOut |})))
  = false.
Proof. split; vm_compute; reflexivity. Qed.

(** ** Instances of the editing and validation properties *)

Lemma unchanged_experience_is_resent_witness :
  let opened := final (ExperiencePage.handleOpenModal 2026 (Some Sample2.experience)
                         ExperiencePage.initial) in
  ExperiencePage.experienceSchema 2026 (Form.values (ExperiencePage.form opened)) = [] /\
  exists rest,
    requests (trace (ExperiencePage.submit 2026 Sample.offline
                       (Sample.offline, Sample.offline) opened)) =
    PUT "/experience/e7"
      (ExperienceJson
         {| ExperienceCreateData.startYear := Js.Num 2019;
            ExperienceCreateData.endYear := None;
            ExperienceCreateData.companyName := "Tech Corp";
            ExperienceCreateData.description := Some "";
            ExperienceCreateData.location := "Jakarta";
            ExperienceCreateData.skillIds := Some [] |}) :: rest.
Proof.
  intros opened. split; [reflexivity |].
  exact (unchanged_experience_is_resent 2026 ExperiencePage.initial Sample2.experience
           Sample.offline (Sample.offline, Sample.offline) eq_refl).
Defined.

Lemma unchanged_certification_is_resent_witness :
  let opened := final (CertificationsPage.handleOpenModal 2026 (Some Sample2.certification)
                         CertificationsPage.initial) in
  CertificationsPage.certificationSchema 2026 Sample.isUrl
    (Form.values (CertificationsPage.form opened)) = [] /\
  exists rest,
    requests (trace (CertificationsPage.submit 2026 Sample.isUrl Sample.offline
                       (Sample.offline, Sample.offline) opened)) =
    PUT "/certifications/c3"
      (CertificationJson
         {| CertificationCreateData.name := "CKA";
            CertificationCreateData.issuingOrganization := "CNCF";
            CertificationCreateData.year := Js.Num 2024;
            CertificationCreateData.description := Some "";
            CertificationCreateData.certificateLink := None;
            CertificationCreateData.skillIds := Some [] |}) :: rest.
Proof.
  intros opened. split; [reflexivity |].
  exact (unchanged_certification_is_resent 2026 Sample.isUrl CertificationsPage.initial
           Sample2.certification Sample.offline (Sample.offline, Sample.offline) eq_refl).
Defined.

Lemma experience_form_validation_witness :
  ExperiencePage.experienceSchema 2026
    (Form.values (ExperiencePage.form Sample2.unnamed)) <> [] /\
  trace (ExperiencePage.submit 2026 Sample.offline (Sample.offline, Sample.offline)
           Sample2.unnamed) = [] /\
  ExperiencePage.experienceSchema 2026 Sample2.backwards = [].
Proof.
  assert (H : ExperiencePage.experienceSchema 2026
                (Form.values (ExperiencePage.form Sample2.unnamed)) <> [])
    by discriminate.
  split; [exact H |]. split.
  - exact (proj1 (proj2 (experience_form_validation 2026) Sample2.unnamed Sample.offline
                    (Sample.offline, Sample.offline) H)).
  - apply (proj1 (experience_form_validation 2026)). unfold year_in_range. cbn.
    split; [exists 2020%Z; split; [reflexivity | lia] |].
    split; [right; exists (Js.Num 1950); split;
              [reflexivity | exists 1950%Z; split; [reflexivity | lia]] |].
    split; discriminate.
Defined.

(** ** The body of a project submission *)

Lemma getAll_cons (k : string) (v : FormValue) (fd : FormData) (key : string) :
  getAll ((k, v) :: fd) key = (if String.eqb k key then [v] else []) ++ getAll fd key.
Proof. unfold getAll. cbn [List.filter fst]. destruct (String.eqb k key); reflexivity. Qed.

Lemma getAll_mapped {A} (k : string) (wrap : A -> FormValue) (items : list A)
  (key : string) :
  getAll (map (fun item => (k, wrap item)) items) key
  = if String.eqb k key then map wrap items else [].
Proof.
  unfold getAll. induction items as [| item items IH]; cbn [map List.filter fst snd].
  - destruct (String.eqb k key); reflexivity.
  - destruct (String.eqb k key); cbn [map]; [f_equal |]; exact IH.
Qed.

Lemma fold_append_map (k : string) (items : list string) (base : FormData) :
  fold_left (fun fd item => append fd k (Text item)) items base
  = base ++ map (fun item => (k, Text item)) items.
Proof.
  revert base. induction items as [| item items IH]; intros base; cbn [fold_left map].
  - rewrite app_nil_r. reflexivity.
  - rewrite IH. unfold append. rewrite <- app_assoc. reflexivity.
Qed.

Lemma put_with_body (before rest : list event) (url : string) (fd fd' : FormData) :
  fd = fd' ->
  before ++ Request (PUT url (Multipart fd)) :: rest
  = before ++ Request (PUT url (Multipart fd')) :: rest.
Proof. intros ->. reflexivity. Qed.

Lemma post_with_body (before rest : list event) (url : string) (fd fd' : FormData) :
  fd = fd' ->
  before ++ Request (POST url (Multipart fd)) :: rest
  = before ++ Request (POST url (Multipart fd')) :: rest.
Proof. intros ->. reflexivity. Qed.

Lemma put_with_body_after (e : event) (before rest : list event) (url : string)
  (fd fd' : FormData) :
  fd = fd' ->
  e :: before ++ Request (PUT url (Multipart fd)) :: rest
  = (e :: before) ++ Request (PUT url (Multipart fd')) :: rest.
Proof. intros ->. reflexivity. Qed.

Lemma post_with_body_after (e : event) (before rest : list event) (url : string)
  (fd fd' : FormData) :
  fd = fd' ->
  e :: before ++ Request (POST url (Multipart fd)) :: rest
  = (e :: before) ++ Request (POST url (Multipart fd')) :: rest.
Proof. intros ->. reflexivity. Qed.

Lemma projects_update_run {S} (id : string) (fd : FormData) (answer : reply Project.t)
  (s : S) :
  exists o, projectsService.update id fd answer s
            = (o, s, [Request (PUT ("/projects/" +:+ id) (Multipart fd))]).
Proof. crack answer; cbn; eexists; reflexivity. Qed.

Lemma projects_create_run {S} (fd : FormData) (answer : reply Project.t) (s : S) :
  exists o, projectsService.create fd answer s
            = (o, s, [Request (POST "/projects" (Multipart fd))]).
Proof. crack answer; cbn; eexists; reflexivity. Qed.

(** What each key of the body holds. *)
Lemma project_parts_by_key (now_iso title slug description content : string)
  (isPublished : bool) (ids : list string) (cover : list File.t)
  (existing : option string) (outs : list File.t) :
  let fd := project_parts now_iso title slug description content isPublished ids
              cover existing outs in
  getAll fd "title" = [Text title] /\
  getAll fd "slug" = [Text slug] /\
  getAll fd "published" = [Text (if isPublished then "true" else "false")] /\
  getAll fd "publishedAt" = (if isPublished then [Text now_iso] else []) /\
  getAll fd "skillIds[]" = map Text ids /\
  getAll fd "coverImage" = map Blob cover /\
  getAll fd "existingContentImages"
  = match existing with Some kept => [Text kept] | None => [] end /\
  getAll fd "contentImages" = map Blob outs.
Proof.
  unfold project_parts.
  destruct isPublished, existing;
    (split; [| split; [| split; [| split; [| split; [| split; [| split]]]]]]);
    cbn [app];
    repeat first [ rewrite getAll_cons | rewrite getAll_app | rewrite getAll_mapped ];
    cbn; rewrite ?app_nil_r; reflexivity.
Qed.

Ltac body_is_parts :=
  unfold project_parts; rewrite ?fold_append_map; unfold append; cbn [app map];
  rewrite <- ?app_assoc, ?app_nil_r; cbn [app]; reflexivity.

Lemma requests_cons (e : event) (tr : list event) :
  requests (e :: tr) = match e with Request r => [r] | _ => [] end ++ requests tr.
Proof. reflexivity. Qed.

(** The list calls of the projects page. *)
Lemma projects_loadData_run (answers : reply (list Project.t) * reply (list Skill.t))
  (st : Projects.State) :
  exists o st' tr,
    Projects.loadData answers st = (o, st', tr) /\
    requests tr = [GET "/projects"; GET "/skills"].
Proof.
  destruct answers as [a1 a2]. crack a1; crack a2; cbn;
    eexists; eexists; eexists; split; reflexivity.
Qed.

Ltac no_second_call :=
  rewrite ?requests_cons, ?requests_app;
  repeat match goal with
         | H : requests _ = _ |- _ => rewrite H
         end;
  cbn; repeat constructor.

Ltac close_project_trace outs Hq Hn Hnames :=
  (split; [first [ apply put_with_body | apply post_with_body
                 | apply put_with_body_after | apply post_with_body_after ];
           body_is_parts |]);
  (split; [exact Hq |]); (split; [exact Hn |]);
  (split; [no_second_call |]);
  (split; [reflexivity | exact Hnames]).

Section ProjectBody.

Variable imageCompression : File.t -> CompressionOptions.t -> outcome File.t.
Variable Date_now : Z.
Variable now_iso : string.
Variable JSON_stringify : list string -> string.

(** The loop over the pending files: one [contentImages] part for each,
    in order; the state is untouched, nothing is requested or
    notified. *)
Lemma appendContentImages_run (files : list File.t) (formData : FormData)
  (st : Projects.State) :
  exists outs tr,
    Projects.appendContentImages imageCompression Date_now files formData st
    = (Return (formData ++ map (fun f => ("contentImages", Blob f)) outs), st, tr) /\
    requests tr = [] /\ notifications tr = [] /\
    map File.name outs = map File.name files.
Proof.
  revert formData. induction files as [| file rest IH]; intros formData.
  - exists [], []. cbn. rewrite app_nil_r. repeat split.
  - assert (exists f tr,
              compressImage imageCompression Date_now file no_options st
              = (Return f, st, tr) /\
              requests tr = [] /\ notifications tr = [] /\
              File.name f = File.name file)
      as (f & tr1 & Hf & Hq1 & Hn1 & Hname).
    { unfold compressImage, try_catch, bind, ret, emit.
      destruct (imageCompression file (spread defaultOptions no_options)) as [c | e]; cbn;
        eexists; eexists; (split; [reflexivity |]); repeat split. }
    destruct (IH (append formData "contentImages" (Blob f)))
      as (outs & tr2 & Hrun & Hq2 & Hn2 & Hnames).
    exists (f :: outs), (tr1 ++ tr2).
    cbn [Projects.appendContentImages]. unfold bind. rewrite Hf, Hrun.
    unfold append. rewrite <- app_assoc. cbn [map app].
    split; [reflexivity |].
    rewrite requests_app, notifications_app, Hq1, Hq2, Hn1, Hn2, Hname, Hnames.
    repeat split.
Qed.

(** The call of a submission and the body it carries, part by part. *)
Lemma project_submit_trace (st : Projects.State) (data : Projects.ProjectFormData)
  (answer : reply Project.t) (refetch : reply (list Project.t) * reply (list Skill.t)) :
  exists before cover outs rest,
    let fd :=
      project_parts now_iso (Projects.title data) (Projects.slug data)
        (Projects.description data) (Projects.content data)
        (match Projects.published data with Some b => b | None => false end)
        (match Projects.skillIds data with Some ids => ids | None => [] end)
        cover
        (match Projects.editingProject st with
         | Some p => Some (JSON_stringify (take (length (Project.contentImages p))
                                                (Projects.previewImages st)))
         | None => None
         end)
        outs in
    trace (Projects.onSubmit imageCompression Date_now now_iso JSON_stringify
             data answer refetch st)
    = before ++
      Request (match Projects.editingProject st with
               | Some p => PUT ("/projects/" +:+ Project.id p) (Multipart fd)
               | None => POST "/projects" (Multipart fd)
               end) :: rest /\
    requests before = [] /\ notifications before = [] /\
    Forall (fun q => is_mutation q = false) (requests rest) /\
    map File.name cover
    = match Projects.coverImage data with
      | Some (cover0 :: _) => [File.name cover0]
      | _ => []
      end /\
    map File.name outs = map File.name (Projects.previewFiles st).
Proof.
  destruct st as [ps sk il im [p |] isub cp pimgs pfiles sq cd fm],
    data as [t sl d c [[| cover0 covers] |] ci pa [[|] |] [ids |]];
    unfold Projects.onSubmit, with_render, compressImage, try_catch, try_finally, bind;
    cbn -[projectsService.update projectsService.create Projects.loadData project_parts];
    try destruct (imageCompression cover0 (spread defaultOptions no_options)) as [cc | ce];
    cbn -[projectsService.update projectsService.create Projects.loadData project_parts].
  all: match goal with
       | |- context [Projects.appendContentImages _ _ ?f ?fd ?s] =>
           destruct (appendContentImages_run f fd s) as (outs & tr & Hrun & Hq & Hn & Hnames);
           rewrite Hrun
       end.
  all: cbn -[projectsService.update projectsService.create Projects.loadData project_parts].
  all: match goal with
       | |- context [projectsService.update ?i ?fd ?a ?s] =>
           destruct (projects_update_run i fd a s) as [o Ho]; rewrite Ho; destruct o
       | |- context [projectsService.create ?fd ?a ?s] =>
           destruct (projects_create_run fd a s) as [o Ho]; rewrite Ho; destruct o
       end.
  all: cbn -[Projects.loadData project_parts].
  all: try match goal with
       | |- context [Projects.loadData ?r ?s] =>
           destruct (projects_loadData_run r s) as (o' & s' & t' & Hrunload & Hload);
           rewrite Hrunload; destruct o'
       end.
  all: cbn -[project_parts].
  all: rewrite ?app_nil_r, <- ?app_assoc; cbn [app].
  all: first [ exists tr, []; eexists outs, _; close_project_trace outs Hq Hn Hnames
             | eexists tr, [_], outs, _; close_project_trace outs Hq Hn Hnames
             | eexists (_ :: tr), [_], outs, _; close_project_trace outs Hq Hn Hnames ].
Qed.

(** X25: every submission of the project form makes one create or
    update call, before anything else is requested or notified, and no
    second one: an update of the edited project, a create when none is
    edited.  Its body holds title and slug once, the [published] flag
    as text, the time of the submission as [publishedAt] exactly when
    the flag is set, one [skillIds[]] part for each selected skill, the
    first cover file chosen and no other, and one [contentImages] part
    for each pending file, in order and under its own name.  Exactly
    when a project is edited it also holds [existingContentImages]: the
    first previews of the page, as many as the project had images when
    it was opened, whatever has been removed from the previews since. *)
Theorem project_body (st : Projects.State) (data : Projects.ProjectFormData)
  (answer : reply Project.t) (refetch : reply (list Project.t) * reply (list Skill.t)) :
  let r := Projects.onSubmit imageCompression Date_now now_iso JSON_stringify
             data answer refetch st in
  let isPublished := match Projects.published data with Some b => b | None => false end in
  exists before fd cover outs rest,
    trace r = before ++
      Request (match Projects.editingProject st with
               | Some p => PUT ("/projects/" +:+ Project.id p) (Multipart fd)
               | None => POST "/projects" (Multipart fd)
               end) :: rest /\
    requests before = [] /\ notifications before = [] /\
    Forall (fun q => is_mutation q = false) (requests rest) /\
    getAll fd "title" = [Text (Projects.title data)] /\
    getAll fd "slug" = [Text (Projects.slug data)] /\
    getAll fd "published" = [Text (if isPublished then "true" else "false")] /\
    getAll fd "publishedAt" = (if isPublished then [Text now_iso] else []) /\
    getAll fd "skillIds[]"
    = map Text (match Projects.skillIds data with Some ids => ids | None => [] end) /\
    getAll fd "coverImage" = map Blob cover /\
    map File.name cover
    = match Projects.coverImage data with
      | Some (cover0 :: _) => [File.name cover0]
      | _ => []
      end /\
    getAll fd "existingContentImages"
    = match Projects.editingProject st with
      | Some p => [Text (JSON_stringify (take (length (Project.contentImages p))
                                              (Projects.previewImages st)))]
      | None => []
      end /\
    getAll fd "contentImages" = map Blob outs /\
    map File.name outs = map File.name (Projects.previewFiles st).
Proof.
  intros r isPublished.
  destruct (project_submit_trace st data answer refetch)
    as (before & cover & outs & rest & Htrace & Hq & Hn & Hrest & Hcover & Houts).
  destruct (project_parts_by_key now_iso (Projects.title data) (Projects.slug data)
              (Projects.description data) (Projects.content data) isPublished
              (match Projects.skillIds data with Some ids => ids | None => [] end)
              cover
              (match Projects.editingProject st with
               | Some p => Some (JSON_stringify (take (length (Project.contentImages p))
                                                      (Projects.previewImages st)))
               | None => None
               end) outs)
    as (H1 & H2 & H3 & H4 & H5 & H6 & H7 & H8).
  eexists before, _, cover, outs, rest.
  split; [exact Htrace |]. split; [exact Hq |]. split; [exact Hn |].
  split; [exact Hrest |].
  split; [exact H1 |]. split; [exact H2 |]. split; [exact H3 |]. split; [exact H4 |].
  split; [exact H5 |]. split; [exact H6 |]. split; [exact Hcover |].
  split; [| split; [exact H8 | exact Houts]].
  destruct (Projects.editingProject st); exact H7.
Qed.

End ProjectBody.

(** The count of the persisted images is the one of the project as it
    was opened: after the first of two persisted previews is removed
    while a file is pending, the images reported as kept are the other
    persisted one and the data URL of the pending file. *)
Example kept_images_after_a_removal :
  let st := final (Projects.handleRemovePreviewImage 0 Sample3.projectModal) in
  let r := Projects.onSubmit Sample.keep 0%Z "2024-01-01T00:00:00.000Z" Sample.stringify
             (Form.values (Projects.form st)) Sample.offline
             (Sample.offline, Sample.offline) st in
  Projects.previewImages st = ["b.png"; "data:shot.png"] /\
  exists fd,
    requests (trace r) = [PUT "/projects/p1" (Multipart fd)] /\
    getAll fd "existingContentImages" = [Text "b.png,data:shot.png"] /\
    getAll fd "contentImages"
    = [Blob {| File.name := "shot.png"; File.type := "image/png";
               File.lastModified := 0; File.bytes := [137; 80]%Z |}].
Proof.
  cbv zeta. split; [reflexivity |].
  eexists. split; [vm_compute; reflexivity |]. split; vm_compute; reflexivity.
Qed.

(** ** The body of a skill submission *)

Section SkillBody.

Variable imageCompression : File.t -> CompressionOptions.t -> outcome File.t.
Variable Date_now : Z.

(** X26: a submission of the skill form that is not stopped for a
    missing icon makes one create or update call, before anything else
    is requested or notified, and no second one.  Its body is the name
    followed by the first icon file chosen, under its own name, and
    nothing else: an edit without a new icon sends the name alone.  A
    create without an icon requests nothing. *)
Theorem skill_body (st : Skills.State) (data : Skills.SkillFormData)
  (answer : reply Skill.t) (refetch : reply (list Skill.t)) :
  let r := Skills.onSubmit imageCompression Date_now data answer refetch st in
  let chosen := match Skills.icon data with
                | Some (icon0 :: _) => [icon0]
                | _ => []
                end in
  if negb (Js.present (Skills.editingSkill st)) && negb (Js.present (head chosen))
  then requests (trace r) = []
  else exists before icon rest,
      let fd := ("name", Text (Skills.name data)) :: map (fun f => ("icon", Blob f)) icon in
      trace r = before ++
        Request (match Skills.editingSkill st with
                 | Some sk => PUT ("/skills/" +:+ Skill.id sk) (Multipart fd)
                 | None => POST "/skills" (Multipart fd)
                 end) :: rest /\
      requests before = [] /\ notifications before = [] /\
      Forall (fun q => is_mutation q = false) (requests rest) /\
      map File.name icon = map File.name chosen.
Proof.
  destruct st as [sks il im [sk |] isub ip sq cd fm], data as [nm [[| icon0 icons] |]];
    unfold Skills.onSubmit, with_render, compressImage, try_catch, try_finally, bind;
    cbn;
    try destruct (imageCompression icon0 (spread defaultOptions no_options)) as [cc | ce];
    try reflexivity;
    crack answer; crack refetch; cbn;
    first [ solve [exists [], []; eexists; repeat split; repeat constructor]
          | solve [exists []; eexists [_]; eexists; repeat split; repeat constructor]
          | solve [eexists [_], [_]; eexists; repeat split; repeat constructor] ].
Qed.

End SkillBody.

(** ** Registering and refreshing the identity *)

Section AccountFacts.

Variable JSON_stringify : User.t -> string.

(** X27: [register] posts its data to [/auth/register] and [login] its
    credentials to [/auth/login], each once, and on the same answer the
    two leave the browser in the same state: on a granted answer both
    return the identity and the token and store the token under
    [auth_token] and the identity under [user]; on any other answer
    both throw and leave the browser as it is, and their messages
    differ only in the text used when the server names no reason. *)
Theorem register_mirrors_login (credentials : LoginCredentials.t) (data : RegisterData.t)
  (answer : auth_answer) (b : Browser) :
  let r := authCalls.register JSON_stringify data answer b in
  let l := authCalls.login JSON_stringify credentials answer b in
  trace r = [Request (POST "/auth/register" (RegisterJson data))] /\
  trace l = [Request (POST "/auth/login" (LoginJson credentials))] /\
  final r = final l /\
  match grant answer with
  | Some (user, token) =>
      result r = Return (user, token) /\
      result l = Return (user, token) /\
      localStorage (final r)
      = <["user" := JSON_stringify user]> (<["auth_token" := token]> (localStorage b)) /\
      location_href (final r) = location_href b
  | None =>
      final r = b /\
      exists e e', result r = Throw e /\ result l = Throw e' /\
                   message e = refusal_text "Registration failed" answer /\
                   message e' = refusal_text "Login failed" answer
  end.
Proof.
  destruct b as [ls href], answer as [[[|] [[u t] |] err] | m [d |]]; cbn;
    (split; [reflexivity |]); (split; [reflexivity |]); (split; [reflexivity |]);
    repeat split; eexists; eexists; repeat split.
Qed.

(** X28: [getMe] asks [/auth/me] once.  It never touches the token or
    the location; a successful answer is returned and replaces the
    stored identity, any other answer throws and leaves the storage as
    it is. *)
Theorem getMe_refreshes_identity (answer : reply User.t) (b : Browser) :
  let r := authService.getMe JSON_stringify answer b in
  requests (trace r) = [GET "/auth/me"] /\
  location_href (final r) = location_href b /\
  localStorage (final r) !! "auth_token" = localStorage b !! "auth_token" /\
  match sent answer with
  | Some u =>
      result r = Return u /\
      localStorage (final r) = <["user" := JSON_stringify u]> (localStorage b)
  | None => (exists e, result r = Throw e) /\ final r = b
  end.
Proof.
  destruct b as [ls href]. crack answer; cbn;
    (split; [reflexivity |]); (split; [reflexivity |]);
    (split; [first [reflexivity | apply lookup_insert_ne; discriminate] |]);
    repeat split; eexists; reflexivity.
Qed.

End AccountFacts.

Lemma title_sets_slug_witness :
  let v' := Form.values
              (Projects.form (final (ProjectsPage.onTitleChange "!!!" Projects.initial))) in
  In ("slug", z.Custom "Slug is required") (Projects.projectSchema v') /\
  Projects.title v' = "!!!" /\
  Projects.slug v' = "".
Proof.
  intros v'.
  assert (Hin : In ("slug", z.Custom "Slug is required") (Projects.projectSchema v'))
    by (vm_compute; auto).
  split; [exact Hin |].
  pose proof (title_sets_slug Projects.initial "!!!") as (Htitle & Hslug & Hissue).
  split; [exact Htitle |].
  pose proof (Hissue _ Hin) as _. exact Hslug.
Defined.
